(** * WeightCut: the calorie and macro planning engine of [app.py]

    A shallow embedding of the planning functions of [src/app.py]
    ([calculate_macros], [calculate_micros],
    [adjust_calories_based_on_progress], [calculate_bmr_and_calories]
    and the target computation of [food_log_page] / [profile_page]),
    followed by the properties the specification states about them.

    Conventions of the model:
    - a Python [float] is modelled twice. The functions of the module
      [B64] compute in binary64 (Rocq's primitive floats) and round as
      the code does; the properties on which rounding bears are stated
      about them. The other functions compute with exact rationals
      ([Q]), with numeric equalities stated with [==] ([Qeq]) or, where
      it holds, with [=]; their properties are about structure and
      order, which rounding to nearest preserves;
    - a Python [int] is a [Z]; a [date] is its ordinal day number, so
      that [(a - b).days] is the difference of two [Z];
    - a nullable column or an argument defaulting to [None] is an
      [option];
    - the dictionary returned by [adjust_calories_based_on_progress]
      has different keys on different paths and is a [gmap string pyval];
      the dictionaries of [calculate_macros] and [calculate_micros] have
      the same keys on every path and are records;
    - the SQLAlchemy [session] is the list of rows of [weight_logs]. *)

From Stdlib Require Import QArith Qabs ZArith String List Bool Lia Lqa.
From Stdlib Require Floats.
From stdpp Require Import gmap strings pretty.

(** A decimal literal of type [float] stands for the nearest double, as
    it does in Python. *)
Set Warnings "-inexact-float".


(** * Part I: the program *)

(** ** Python values and built-ins *)

Module Py.

(** The values stored in the adjustment dictionary. *)
Inductive pyval : Type :=
| PyBool (b : bool)
| PyInt (z : Z)
| PyFloat (q : Q)
| PyStr (s : string).

Local Open Scope Q_scope.

(** [x < y] on floats, as a boolean. *)
Definition Qltb (x y : Q) : bool :=
  match x ?= y with
  | Lt => true
  | _ => false
  end.

(** Truth value of an optional float: [None] and [0.0] are false. *)
Definition truthy (x : option Q) : bool :=
  match x with
  | None => false
  | Some q => negb (Qeq_bool q 0)
  end.

(** The idiom [x and x > 0]. *)
Definition and_gt0 (x : option Q) : bool :=
  match x with
  | None => false
  | Some q => truthy x && Qltb 0 q
  end.

(** Nearest integer of a non-negative rational, ties to even. *)
Definition round_half_even (q : Q) : Z :=
  let n := Qnum q in
  let d := Zpos (Qden q) in
  let fl := (n / d)%Z in
  let r2 := (2 * (n mod d))%Z in
  if (r2 <? d)%Z then fl
  else if (d <? r2)%Z then (fl + 1)%Z
       else if Z.even fl then fl else (fl + 1)%Z.

(** The format specification [:.1f]: one digit after the point. *)
Definition format_1f (q : Q) : string :=
  let tenths := round_half_even (Qabs q * 10) in
  ((if Qltb q 0 then "-" else "")
     +:+ pretty (tenths / 10)%Z +:+ "." +:+ pretty (tenths mod 10)%Z)%string.

End Py.
Import Py.

(** ** The tables *)

(** A calendar date, as its ordinal day number. *)
Abbreviation date := Z (only parsing).

(** A row of [weight_logs] (class [WeightLog]). *)
Module WeightLog.
Record t : Type := Build {
  id : Z;
  username : string;
  log_date : date;
  weight : Q;
  notes : string
}.
End WeightLog.

(** A row of [profiles] (class [UserProfile]); [bodyfat_percentage] is
    the only nullable column. *)
Module UserProfile.
Record t : Type := Build {
  id : Z;
  username : string;
  weight : Q;
  target_weight : Q;
  today_date : date;
  target_date : date;
  bodyfat_percentage : option Q;
  height : Q
}.
End UserProfile.

(** ** The weight-history query

    [session.query(WeightLog).filter_by(username=username)
       .filter(WeightLog.log_date <= current_date)
       .order_by(WeightLog.log_date.desc()).first()] *)

Module Query.

Definition filter_by_username (username : string)
    (rows : list WeightLog.t) : list WeightLog.t :=
  List.filter (fun r => String.eqb (WeightLog.username r) username) rows.

Definition filter_log_date_le (current_date : date)
    (rows : list WeightLog.t) : list WeightLog.t :=
  List.filter (fun r => (WeightLog.log_date r <=? current_date)%Z) rows.

(** Insertion into a list in descending date order. The column is not
    unique and SQL leaves the order of rows of one date open; here a row
    goes in front of the rows of the same date, so that rows of one date
    keep their table order. *)
Fixpoint insert_desc (r : WeightLog.t) (sorted : list WeightLog.t)
    : list WeightLog.t :=
  match sorted with
  | [] => [r]
  | s :: rest =>
      if (WeightLog.log_date s <=? WeightLog.log_date r)%Z
      then r :: s :: rest
      else s :: insert_desc r rest
  end.

Definition order_by_log_date_desc (rows : list WeightLog.t)
    : list WeightLog.t :=
  List.fold_right insert_desc [] rows.

Definition first (rows : list WeightLog.t) : option WeightLog.t :=
  match rows with
  | [] => None
  | r :: _ => Some r
  end.

Definition latest_weight_log (session : list WeightLog.t)
    (username : string) (current_date : date) : option WeightLog.t :=
  first (order_by_log_date_desc
           (filter_log_date_le current_date
              (filter_by_username username session))).

(** A row the query ranges over: of this user, dated on or before
    the date viewed. *)
Definition matches (username : string) (current_date : date)
    (r : WeightLog.t) : Prop :=
  WeightLog.username r = username /\
  (WeightLog.log_date r <= current_date)%Z.

End Query.
Import Query.

(** ** The planning functions *)

Local Open Scope Q_scope.
Local Open Scope string_scope.

(** The dictionary returned by [calculate_macros]. *)
Record macros_dict : Type := {
  protein_grams : Q;
  protein_calories : Q;
  fat_grams : Q;
  fat_calories : Q;
  carb_grams : Q;
  carb_calories : Q
}.

(** The dictionary returned by [calculate_micros]. *)
Record micros_dict : Type := {
  fiber_grams : Z;
  sodium_mg : Z
}.

(** [calculate_macros(weight, target_calories, fat_percentage=0.25,
    carb_percentage=None, lean_body_mass=None)] *)
Definition calculate_macros (weight target_calories fat_percentage : Q)
    (carb_percentage lean_body_mass : option Q) : macros_dict :=
  let protein_grams :=
    match lean_body_mass with
    | Some lbm => if truthy lean_body_mass then lbm * 1.2 else weight
    | None => weight
    end in
  let protein_calories := protein_grams * 4 in
  let fat_calories := target_calories * fat_percentage in
  let fat_grams := fat_calories / 9 in
  let carb_calories :=
    match carb_percentage with
    | Some cp => target_calories * cp
    | None => target_calories - protein_calories - fat_calories
    end in
  let carb_grams := carb_calories / 4 in
  {| protein_grams := protein_grams;
     protein_calories := protein_calories;
     fat_grams := fat_grams;
     fat_calories := fat_calories;
     carb_grams := carb_grams;
     carb_calories := carb_calories |}.

(** [calculate_micros(days_to_goal)] *)
Definition calculate_micros (days_to_goal : Z) : micros_dict :=
  if (days_to_goal =? 3)%Z then {| fiber_grams := 8; sodium_mg := 1500 |}
  else if (days_to_goal =? 2)%Z then {| fiber_grams := 5; sodium_mg := 1000 |}
  else if (days_to_goal =? 1)%Z then {| fiber_grams := 4; sodium_mg := 800 |}
  else {| fiber_grams := 30; sodium_mg := 2300 |}.

(** The [if weight_difference > 1.0: ... elif weight_difference < -1.0:
    ... else: ...] block of [adjust_calories_based_on_progress]: the
    adjustment and its reason. *)
Definition adjustment_of (actual_weight target_weight_at_this_stage
    weight_difference : Q) : Z * string :=
  if Qltb 1.0 weight_difference then
    (-200,
     "Weight " +:+ format_1f weight_difference
       +:+ " lbs above target progression ("
       +:+ format_1f actual_weight +:+ " vs "
       +:+ format_1f target_weight_at_this_stage +:+ " lbs)")%Z
  else if Qltb weight_difference (-1.0) then
    (200,
     "Weight " +:+ format_1f (Qabs weight_difference)
       +:+ " lbs below target progression ("
       +:+ format_1f actual_weight +:+ " vs "
       +:+ format_1f target_weight_at_this_stage +:+ " lbs)")%Z
  else
    (0,
     "Weight on track (" +:+ format_1f actual_weight +:+ " vs target "
       +:+ format_1f target_weight_at_this_stage +:+ " lbs)")%Z.

(** [adjust_calories_based_on_progress(base_calories, current_weight,
    target_weight, days_to_goal, session, username, current_date)]:
    the adjusted calorie target and the adjustment dictionary. *)
Definition adjust_calories_based_on_progress
    (base_calories current_weight target_weight : Q) (days_to_goal : Z)
    (session : list WeightLog.t) (username : string) (current_date : date)
    : Q * gmap string pyval :=
  if (days_to_goal <=? 3)%Z then
    (base_calories,
     {[ "adjusted" := PyBool false;
        "reason" := PyStr "Within 3 days of target - using standard protocol" ]})
  else
    match latest_weight_log session username current_date with
    | None =>
        (base_calories,
         {[ "adjusted" := PyBool false;
            "reason" := PyStr "No weight logged yet - log your weight to enable dynamic adjustments";
            "needs_weight_log" := PyBool true ]})
    | Some latest =>
        let actual_weight := WeightLog.weight latest in
        let target_weight_at_this_stage := target_weight * 1.05 in
        let weight_difference := actual_weight - target_weight_at_this_stage in
        let '(adjustment, adjustment_reason) :=
          adjustment_of actual_weight target_weight_at_this_stage
            weight_difference in
        let adjusted_calories := base_calories + inject_Z adjustment in
        (adjusted_calories,
         {[ "adjusted" := PyBool (negb (adjustment =? 0)%Z);
            "adjustment" := PyInt adjustment;
            "reason" := PyStr adjustment_reason;
            "actual_weight" := PyFloat actual_weight;
            "target_weight_at_stage" := PyFloat target_weight_at_this_stage;
            "difference" := PyFloat weight_difference ]})
    end.

(** [calculate_bmr_and_calories(weight, height, bodyfat_percentage)] *)
Definition calculate_bmr_and_calories (weight height : Q)
    (bodyfat_percentage : option Q) : Q :=
  let height_cm := height * 2.54 in
  let weight_kg := weight * 0.453592 in
  match bodyfat_percentage with
  | Some bf =>
      if and_gt0 bodyfat_percentage then
        let lean_body_mass_kg := weight_kg * (1 - bf / 100) in
        370 + (21.6 * lean_body_mass_kg)
      else (10 * weight_kg) + (6.25 * height_cm) - (5 * 30) + 5
  | None => (10 * weight_kg) + (6.25 * height_cm) - (5 * 30) + 5
  end.

(** ** The day's targets, as the pages compute them *)

(** The [if days_to_goal == 3: ... elif ... else: ...] block that both
    [profile_page] (lines 460 to 472) and [food_log_page] (lines 789 to
    801) run on the BMR: the base calories and the fat percentage. *)
Definition base_calories_and_fat_pct (days_to_goal : Z) (bmr : Q) : Q * Q :=
  if (days_to_goal =? 3)%Z then (bmr * 1.725, 0.25)
  else if (days_to_goal =? 2)%Z then (bmr * 1.55, 0.35)
  else if (days_to_goal =? 1)%Z then (bmr * 1.375, 0.45)
  else (bmr * 1.725, 0.25).

(** The local variables a page holds once its targets are computed. *)
Record targets : Type := {
  bmr : Q;
  lean_body_mass : option Q;
  days_to_goal : Z;
  base_calories : Q;
  fat_pct : Q;
  target_calories : Q;
  adjustment_info : gmap string pyval;
  macros : macros_dict;
  micros : micros_dict
}.

(** [lean_body_mass = None; if bf and bf > 0: lean_body_mass = ...] *)
Definition lean_body_mass_of (weight : Q) (bodyfat_percentage : option Q)
    : option Q :=
  match bodyfat_percentage with
  | Some bf =>
      if and_gt0 bodyfat_percentage then Some (weight * (1 - bf / 100))
      else None
  | None => None
  end.

(** The target computation shared by the two pages, on the weight,
    height, body fat, target weight and target date it is given and for
    the date [current_date]. *)
Definition compute_targets (weight height : Q) (bodyfat_percentage : option Q)
    (target_weight : Q) (target_date : date)
    (session : list WeightLog.t) (logged_in_user : string)
    (current_date : date) : targets :=
  let bmr := calculate_bmr_and_calories weight height bodyfat_percentage in
  let lean_body_mass := lean_body_mass_of weight bodyfat_percentage in
  let days_to_goal := (target_date - current_date)%Z in
  let '(base_calories, fat_pct) := base_calories_and_fat_pct days_to_goal bmr in
  let '(target_calories, adjustment_info) :=
    adjust_calories_based_on_progress base_calories weight target_weight
      days_to_goal session logged_in_user current_date in
  let macros :=
    calculate_macros weight target_calories fat_pct None lean_body_mass in
  let micros := calculate_micros days_to_goal in
  {| bmr := bmr;
     lean_body_mass := lean_body_mass;
     days_to_goal := days_to_goal;
     base_calories := base_calories;
     fat_pct := fat_pct;
     target_calories := target_calories;
     adjustment_info := adjustment_info;
     macros := macros;
     micros := micros |}.

(** [food_log_page], lines 780 to 812: the targets of the stored
    profile for [st.session_state.current_date]. *)
Definition food_log_page (profile : UserProfile.t)
    (session : list WeightLog.t) (logged_in_user : string)
    (current_date : date) : targets :=
  compute_targets (UserProfile.weight profile) (UserProfile.height profile)
    (UserProfile.bodyfat_percentage profile)
    (UserProfile.target_weight profile) (UserProfile.target_date profile)
    session logged_in_user current_date.

(** [profile_page], lines 444 to 486: the targets of the values in the
    form, computed for the form's [today_date] and only when weight and
    height are positive. The form's body fat input is always a float. *)
Definition profile_page (weight target_weight height : Q)
    (today_date target_date : date) (bodyfat_percentage : Q)
    (session : list WeightLog.t) (logged_in_user : string)
    : option targets :=
  if Qltb 0 weight && Qltb 0 height then
    Some (compute_targets weight height (Some bodyfat_percentage)
            target_weight target_date session logged_in_user today_date)
  else None.

(** ** The specification's vocabulary *)

(** The two BMR formulas, in the words of the specification. *)
Definition katch_mcardle (weight_lbs body_fat_percentage : Q) : Q :=
  370 + 21.6 * (weight_lbs * 0.453592 * (1 - body_fat_percentage / 100)).

Definition mifflin_st_jeor (weight_lbs height_inches : Q) : Q :=
  10 * (weight_lbs * 0.453592) + 6.25 * (height_inches * 2.54) - 5 * 30 + 5.

(** The four fields of [AdjustmentInfo] in the data model, under the
    keys the code uses (the signed delta is the key [adjustment]). *)
Definition has_all_fields (info : gmap string pyval) : Prop :=
  (exists b, info !! "adjusted" = Some (PyBool b)) /\
  (exists z, info !! "adjustment" = Some (PyInt z)) /\
  (exists s, info !! "reason" = Some (PyStr s)) /\
  (exists b, info !! "needs_weight_log" = Some (PyBool b)).

(** Which of its three paths a call of the adjuster takes. *)
Inductive path : Type := WithinThreeDays | NoWeightLog | Compared.

Definition path_of (days_to_goal : Z) (session : list WeightLog.t)
    (username : string) (current_date : date) : path :=
  if (days_to_goal <=? 3)%Z then WithinThreeDays
  else match latest_weight_log session username current_date with
       | None => NoWeightLog
       | Some _ => Compared
       end.

(** ** Sample data *)

(** A table with one user's weigh-ins and a row of somebody else. *)
Definition sample_session : list WeightLog.t :=
  [ WeightLog.Build 1 "alice" 100 160.0 "";
    WeightLog.Build 2 "bob" 104 140.0 "";
    WeightLog.Build 3 "alice" 103 159.0 "morning";
    WeightLog.Build 4 "alice" 107 150.0 "" ].

(** The profile of the end-to-end scenario, five days before its
    target date when viewed on [current_date]. *)
Definition sample_profile (id : Z) (username : string)
    (today_date current_date : date) : UserProfile.t :=
  UserProfile.Build id username 180 175 today_date (current_date + 5)
    (Some 20) 70.

(** ** The planning functions in binary64

    A Python [float] is an IEEE 754 binary64 number, and so is Rocq's
    primitive [float]: the module [B64] transcribes the planning
    functions once more, operation for operation, over it. Every
    literal is the double nearest to its decimal text, as in Python,
    and every operation rounds to nearest, ties to even. The properties
    on which rounding bears are stated about these functions. *)

Module B64.

Import PrimFloat FloatOps SpecFloat.
Local Open Scope float_scope.

(** The values stored in the adjustment dictionary. *)
Inductive pyval : Type :=
| PyBool (b : bool)
| PyInt (z : Z)
| PyFloat (x : float)
| PyStr (s : string).

(** An [int] as the operand of a float operation: the nearest double
    (for the constants of this program, the integer itself). *)
Definition float_of_int (z : Z) : float :=
  SF2Prim (binary_normalize prec emax z 0 false).

(** Truth value of an optional float: [None], [0.0] and [-0.0] are
    false. *)
Definition truthy (x : option float) : bool :=
  match x with
  | None => false
  | Some f => negb (f =? 0)
  end.

(** The idiom [x and x > 0]. *)
Definition and_gt0 (x : option float) : bool :=
  match x with
  | None => false
  | Some f => truthy x && (0 <? f)
  end.

(** The rational a finite double stands for: [m * 2 ^ e]. *)
Definition rational_of (m : positive) (e : Z) : Q :=
  match e with
  | Zneg p => Z.pos m # 2 ^ p
  | _ => inject_Z (Z.pos m * 2 ^ e)
  end.

(** The format specification [:.1f]: the exact value of the double,
    rounded to one digit after the point, ties to even. *)
Definition format_1f (x : float) : string :=
  match Prim2SF x with
  | S754_zero s => if s then "-0.0" else "0.0"
  | S754_infinity s => if s then "-inf" else "inf"
  | S754_nan => "nan"
  | S754_finite s m e =>
      ((if s then "-" else "") +:+ Py.format_1f (rational_of m e))%string
  end.

(** A row of [weight_logs] (class [WeightLog]). *)
Module WeightLog.
Record t : Type := Build {
  id : Z;
  username : string;
  log_date : date;
  weight : float;
  notes : string
}.
End WeightLog.

(** A row of [profiles] (class [UserProfile]). *)
Module UserProfile.
Record t : Type := Build {
  id : Z;
  username : string;
  weight : float;
  target_weight : float;
  today_date : date;
  target_date : date;
  bodyfat_percentage : option float;
  height : float
}.
End UserProfile.

(** The weight-history query, as in [Query]. *)
Definition filter_by_username (username : string)
    (rows : list WeightLog.t) : list WeightLog.t :=
  List.filter (fun r => String.eqb (WeightLog.username r) username) rows.

Definition filter_log_date_le (current_date : date)
    (rows : list WeightLog.t) : list WeightLog.t :=
  List.filter (fun r => (WeightLog.log_date r <=? current_date)%Z) rows.

Fixpoint insert_desc (r : WeightLog.t) (sorted : list WeightLog.t)
    : list WeightLog.t :=
  match sorted with
  | [] => [r]
  | s :: rest =>
      if (WeightLog.log_date s <=? WeightLog.log_date r)%Z
      then r :: s :: rest
      else s :: insert_desc r rest
  end.

Definition order_by_log_date_desc (rows : list WeightLog.t)
    : list WeightLog.t :=
  List.fold_right insert_desc [] rows.

Definition first (rows : list WeightLog.t) : option WeightLog.t :=
  match rows with
  | [] => None
  | r :: _ => Some r
  end.

Definition latest_weight_log (session : list WeightLog.t)
    (username : string) (current_date : date) : option WeightLog.t :=
  first (order_by_log_date_desc
           (filter_log_date_le current_date
              (filter_by_username username session))).

Definition matches (username : string) (current_date : date)
    (r : WeightLog.t) : Prop :=
  WeightLog.username r = username /\
  (WeightLog.log_date r <= current_date)%Z.

(** The dictionary returned by [calculate_macros]. *)
Record macros_dict : Type := {
  protein_grams : float;
  protein_calories : float;
  fat_grams : float;
  fat_calories : float;
  carb_grams : float;
  carb_calories : float
}.

(** [calculate_macros(weight, target_calories, fat_percentage=0.25,
    carb_percentage=None, lean_body_mass=None)] *)
Definition calculate_macros (weight target_calories fat_percentage : float)
    (carb_percentage lean_body_mass : option float) : macros_dict :=
  let protein_grams :=
    match lean_body_mass with
    | Some lbm => if truthy lean_body_mass then lbm * 1.2 else weight
    | None => weight
    end in
  let protein_calories := protein_grams * 4 in
  let fat_calories := target_calories * fat_percentage in
  let fat_grams := fat_calories / 9 in
  let carb_calories :=
    match carb_percentage with
    | Some cp => target_calories * cp
    | None => target_calories - protein_calories - fat_calories
    end in
  let carb_grams := carb_calories / 4 in
  {| protein_grams := protein_grams;
     protein_calories := protein_calories;
     fat_grams := fat_grams;
     fat_calories := fat_calories;
     carb_grams := carb_grams;
     carb_calories := carb_calories |}.

(** The [if weight_difference > 1.0: ... elif weight_difference < -1.0:
    ... else: ...] block: the adjustment and its reason. *)
Definition adjustment_of (actual_weight target_weight_at_this_stage
    weight_difference : float) : Z * string :=
  if 1.0 <? weight_difference then
    ((-200)%Z,
     "Weight " +:+ format_1f weight_difference
       +:+ " lbs above target progression ("
       +:+ format_1f actual_weight +:+ " vs "
       +:+ format_1f target_weight_at_this_stage +:+ " lbs)")
  else if weight_difference <? -1.0 then
    (200%Z,
     "Weight " +:+ format_1f (abs weight_difference)
       +:+ " lbs below target progression ("
       +:+ format_1f actual_weight +:+ " vs "
       +:+ format_1f target_weight_at_this_stage +:+ " lbs)")
  else
    (0%Z,
     "Weight on track (" +:+ format_1f actual_weight +:+ " vs target "
       +:+ format_1f target_weight_at_this_stage +:+ " lbs)").

(** [adjust_calories_based_on_progress(base_calories, current_weight,
    target_weight, days_to_goal, session, username, current_date)] *)
Definition adjust_calories_based_on_progress
    (base_calories current_weight target_weight : float) (days_to_goal : Z)
    (session : list WeightLog.t) (username : string) (current_date : date)
    : float * gmap string pyval :=
  if (days_to_goal <=? 3)%Z then
    (base_calories,
     {[ "adjusted" := PyBool false;
        "reason" := PyStr "Within 3 days of target - using standard protocol" ]})
  else
    match latest_weight_log session username current_date with
    | None =>
        (base_calories,
         {[ "adjusted" := PyBool false;
            "reason" := PyStr "No weight logged yet - log your weight to enable dynamic adjustments";
            "needs_weight_log" := PyBool true ]})
    | Some latest =>
        let actual_weight := WeightLog.weight latest in
        let target_weight_at_this_stage := target_weight * 1.05 in
        let weight_difference := actual_weight - target_weight_at_this_stage in
        let '(adjustment, adjustment_reason) :=
          adjustment_of actual_weight target_weight_at_this_stage
            weight_difference in
        let adjusted_calories := base_calories + float_of_int adjustment in
        (adjusted_calories,
         {[ "adjusted" := PyBool (negb (adjustment =? 0)%Z);
            "adjustment" := PyInt adjustment;
            "reason" := PyStr adjustment_reason;
            "actual_weight" := PyFloat actual_weight;
            "target_weight_at_stage" := PyFloat target_weight_at_this_stage;
            "difference" := PyFloat weight_difference ]})
    end.

(** [calculate_bmr_and_calories(weight, height, bodyfat_percentage)] *)
Definition calculate_bmr_and_calories (weight height : float)
    (bodyfat_percentage : option float) : float :=
  let height_cm := height * 2.54 in
  let weight_kg := weight * 0.453592 in
  match bodyfat_percentage with
  | Some bf =>
      if and_gt0 bodyfat_percentage then
        let lean_body_mass_kg := weight_kg * (1 - bf / 100) in
        370 + (21.6 * lean_body_mass_kg)
      else (10 * weight_kg) + (6.25 * height_cm) - (5 * 30) + 5
  | None => (10 * weight_kg) + (6.25 * height_cm) - (5 * 30) + 5
  end.

(** The local variables [food_log_page] holds once its targets are
    computed. *)
Record targets : Type := {
  bmr : float;
  lean_body_mass : option float;
  days_to_goal : Z;
  base_calories : float;
  fat_pct : float;
  target_calories : float;
  adjustment_info : gmap string pyval;
  macros : macros_dict;
  micros : micros_dict
}.

(** [food_log_page], lines 780 to 812. *)
Definition food_log_page (profile : UserProfile.t)
    (session : list WeightLog.t) (logged_in_user : string)
    (current_date : date) : targets :=
  let bmr :=
    calculate_bmr_and_calories (UserProfile.weight profile)
      (UserProfile.height profile) (UserProfile.bodyfat_percentage profile) in
  let lean_body_mass :=
    match UserProfile.bodyfat_percentage profile with
    | Some bf =>
        if and_gt0 (UserProfile.bodyfat_percentage profile)
        then Some (UserProfile.weight profile * (1 - bf / 100))
        else None
    | None => None
    end in
  let days_to_goal := (UserProfile.target_date profile - current_date)%Z in
  let '(base_calories, fat_pct) :=
    if (days_to_goal =? 3)%Z then (bmr * 1.725, 0.25)
    else if (days_to_goal =? 2)%Z then (bmr * 1.55, 0.35)
    else if (days_to_goal =? 1)%Z then (bmr * 1.375, 0.45)
    else (bmr * 1.725, 0.25) in
  let '(target_calories, adjustment_info) :=
    adjust_calories_based_on_progress base_calories
      (UserProfile.weight profile) (UserProfile.target_weight profile)
      days_to_goal session logged_in_user current_date in
  let macros :=
    calculate_macros (UserProfile.weight profile) target_calories fat_pct
      None lean_body_mass in
  let micros := calculate_micros days_to_goal in
  {| bmr := bmr;
     lean_body_mass := lean_body_mass;
     days_to_goal := days_to_goal;
     base_calories := base_calories;
     fat_pct := fat_pct;
     target_calories := target_calories;
     adjustment_info := adjustment_info;
     macros := macros;
     micros := micros |}.

(** One user's weigh-ins and a row of somebody else. *)
Definition sample_session : list WeightLog.t :=
  [ WeightLog.Build 1 "alice" 100 160.0 "";
    WeightLog.Build 2 "bob" 104 140.0 "";
    WeightLog.Build 3 "alice" 103 159.0 "morning";
    WeightLog.Build 4 "alice" 107 150.0 "" ].

(** The profile of the end-to-end scenario, five days before its
    target date when viewed on [current_date]. *)
Definition sample_profile (id : Z) (username : string)
    (today_date current_date : date) : UserProfile.t :=
  UserProfile.Build id username 180 175 today_date (current_date + 5)%Z
    (Some 20) 70.

End B64.

(** ** Writing the weight log

    The weight form of [food_log_page] (lines 699 to 771) and the delete
    button of [progress_page] (lines 1673 to 1689). *)

Module WeightForm.

(** The primary key a table gives to a row added to it: one more than
    the largest key in use (the rowid rule of SQLite). No property below
    depends on the value. *)
Definition fresh_id (rows : list WeightLog.t) : Z :=
  (1 + List.fold_right Z.max 0 (List.map WeightLog.id rows))%Z.

(** The filter of [filter_by(username=..., log_date=...)]. *)
Definition on_day (username : string) (log_date : date)
    (r : WeightLog.t) : bool :=
  String.eqb (WeightLog.username r) username
  && (WeightLog.log_date r =? log_date)%Z.

(** [session.query(WeightLog).filter_by(username=..., log_date=...)
    .first()] *)
Definition existing_weight_log (session : list WeightLog.t)
    (username : string) (current_date : date) : option WeightLog.t :=
  first (List.filter (on_day username current_date) session).

(** Assignment to the attributes of the first row that passes a filter,
    the row [first()] returned. *)
Fixpoint update_first (p : WeightLog.t -> bool)
    (f : WeightLog.t -> WeightLog.t) (rows : list WeightLog.t)
    : list WeightLog.t :=
  match rows with
  | [] => []
  | r :: rest => if p r then f r :: rest else r :: update_first p f rest
  end.

(** [existing_weight_log.weight = current_weight;
    existing_weight_log.notes = weight_notes] *)
Definition set_weight (current_weight : Q) (weight_notes : string)
    (r : WeightLog.t) : WeightLog.t :=
  WeightLog.Build (WeightLog.id r) (WeightLog.username r)
    (WeightLog.log_date r) current_weight weight_notes.

(** The [if save_weight:] block: update the row of the day when there is
    one, add a row otherwise, and commit. *)
Definition save_weight (session : list WeightLog.t) (logged_in_user : string)
    (current_date : date) (current_weight : Q) (weight_notes : string)
    : list WeightLog.t :=
  match existing_weight_log session logged_in_user current_date with
  | Some _ =>
      update_first (on_day logged_in_user current_date)
        (set_weight current_weight weight_notes) session
  | None =>
      session ++ [WeightLog.Build (fresh_id session) logged_in_user
                    current_date current_weight weight_notes]
  end.

(** [session.query(WeightLog).filter_by(username=..., log_date=...)
    .delete()] *)
Definition delete_weight (session : list WeightLog.t)
    (logged_in_user : string) (delete_date : date) : list WeightLog.t :=
  List.filter (fun r => negb (on_day logged_in_user delete_date r)) session.

(** At most one row for a user and a day: the rule the form keeps. *)
Definition unique_per_day (session : list WeightLog.t) : Prop :=
  List.NoDup
    (List.map (fun r => (WeightLog.username r, WeightLog.log_date r)) session).

End WeightForm.
Import WeightForm.

(** ** The progress page *)

Module Progress.

(** Insertion into a list in ascending date order, in front of the rows
    of the same date. *)
Fixpoint insert_asc (r : WeightLog.t) (sorted : list WeightLog.t)
    : list WeightLog.t :=
  match sorted with
  | [] => [r]
  | s :: rest =>
      if (WeightLog.log_date r <=? WeightLog.log_date s)%Z
      then r :: s :: rest
      else s :: insert_asc r rest
  end.

Definition order_by_log_date (rows : list WeightLog.t) : list WeightLog.t :=
  List.fold_right insert_asc [] rows.

(** [session.query(WeightLog).filter_by(username=...)
    .order_by(WeightLog.log_date).all()] *)
Definition weight_logs_of (session : list WeightLog.t)
    (logged_in_user : string) : list WeightLog.t :=
  order_by_log_date (filter_by_username logged_in_user session).

(** [weight_logs[-1]] *)
Fixpoint last_row (rows : list WeightLog.t) : option WeightLog.t :=
  match rows with
  | [] => None
  | [r] => Some r
  | _ :: rest => last_row rest
  end.

(** [max(0, min(100, x))], with the built-ins' rule that the first
    argument is kept unless the second is strictly better. *)
Definition clamp_0_100 (x : Q) : Q :=
  let m := if Qltb x 100 then x else 100 in
  if Qltb 0 m then m else 0.

(** The progress bar: absent when the starting weight is the target. *)
Definition progress_percentage_of (starting_weight current_weight
    target_weight : Q) : option Q :=
  if negb (Qeq_bool starting_weight target_weight) then
    let total_to_lose := target_weight - starting_weight in
    let progress_percentage :=
      ((starting_weight - current_weight) / total_to_lose) * 100 in
    Some (clamp_0_100 progress_percentage)
  else None.

(** The target line of the chart for one day. *)
Definition daily_target (days_until_target : Z) (target_weight : Q) : Q :=
  if (3 <=? days_until_target)%Z then target_weight * 1.05
  else if (days_until_target =? 2)%Z then target_weight * 1.039
  else if (days_until_target =? 1)%Z then target_weight * 1.021
  else target_weight.

(** The [while current_date <= end_date:] loop, for the number of days
    it runs. *)
Fixpoint target_line_from (days : nat) (current_date target_date : date)
    (target_weight : Q) : list (date * Q) :=
  match days with
  | O => []
  | S days' =>
      (current_date, daily_target (target_date - current_date) target_weight)
        :: target_line_from days' (current_date + 1)%Z target_date
             target_weight
  end.

Definition target_line (start_date end_date target_date : date)
    (target_weight : Q) : list (date * Q) :=
  target_line_from (Z.to_nat (end_date - start_date + 1)) start_date
    target_date target_weight.

(** [int(x)]: truncation towards zero. *)
Definition int_of (x : Q) : Z := (Qnum x ÷ Zpos (Qden x))%Z.

(** The prediction under Statistics: shown when more than one weigh-in
    spans at least a day and the average change points at the goal. *)
Definition predicted_days (weigh_ins : nat) (days_tracked : Z)
    (weight_change remaining_to_goal : Q) : option Z :=
  if (1 <? weigh_ins)%nat && (0 <? days_tracked)%Z then
    let avg_change_per_day := weight_change / inject_Z days_tracked in
    if negb (Qeq_bool remaining_to_goal 0)
       && negb (Qeq_bool avg_change_per_day 0)
       && ((Qltb 0 remaining_to_goal && Qltb 0 avg_change_per_day)
           || (Qltb remaining_to_goal 0 && Qltb avg_change_per_day 0))
    then Some (int_of (Qabs (remaining_to_goal / avg_change_per_day) - 1))
    else None
  else None.

(** What [progress_page] shows for a profile: nothing without a
    weigh-in, else the overview, the target line and the prediction. *)
Record overview : Type := {
  current_weight : Q;
  starting_weight : Q;
  weight_change : Q;
  remaining_to_goal : Q;
  progress_percentage : option Q;
  target_progression : list (date * Q);
  prediction : option Z
}.

Definition progress_page (profile : UserProfile.t)
    (session : list WeightLog.t) (logged_in_user : string)
    : option overview :=
  let weight_logs := weight_logs_of session logged_in_user in
  match first weight_logs, last_row weight_logs with
  | Some first_log, Some last_log =>
      let current_weight := WeightLog.weight last_log in
      let starting_weight := WeightLog.weight first_log in
      let weight_change := current_weight - starting_weight in
      let target_weight := UserProfile.target_weight profile in
      let remaining_to_goal := target_weight - current_weight in
      let dates := List.map WeightLog.log_date weight_logs in
      let start_date :=
        List.fold_right Z.min (WeightLog.log_date first_log) dates in
      let end_date :=
        Z.max (List.fold_right Z.max (WeightLog.log_date first_log) dates)
          (UserProfile.target_date profile) in
      Some {| current_weight := current_weight;
              starting_weight := starting_weight;
              weight_change := weight_change;
              remaining_to_goal := remaining_to_goal;
              progress_percentage :=
                progress_percentage_of starting_weight current_weight
                  target_weight;
              target_progression :=
                target_line start_date end_date
                  (UserProfile.target_date profile) target_weight;
              prediction :=
                predicted_days (List.length weight_logs)
                  (WeightLog.log_date last_log - WeightLog.log_date first_log)
                  weight_change remaining_to_goal |}
  | _, _ => None
  end.

End Progress.
Import Progress.

(** ** Vocabulary of the further properties *)

(** The last row of a list is a latest one. *)
Definition last_is_latest (rows : list WeightLog.t) : Prop :=
  forall e, last_row rows = Some e ->
  forall x, List.In x rows -> (WeightLog.log_date x <= WeightLog.log_date e)%Z.

(** ** Accounts: [login_page] *)

(** A row of [users] (class [User]). *)
Module User.
Record t : Type := Build {
  id : Z;
  username : string;
  password : string
}.
End User.

Module Accounts.

(** Truth value of a [str]: the empty string is false. *)
Definition str_truthy (s : string) : bool := negb (String.eqb s "").

Definition by_username (username : string) (u : User.t) : bool :=
  String.eqb (User.username u) username.

Definition by_credentials (username password : string) (u : User.t) : bool :=
  String.eqb (User.username u) username
  && String.eqb (User.password u) password.

Definition fresh_id (users : list User.t) : Z :=
  (1 + List.fold_right Z.max 0 (List.map User.id users))%Z.

(** The [if login_button:] block: whether
    [session.query(User).filter_by(username=..., password=...).first()]
    finds a row. *)
Definition login (users : list User.t) (username password : string) : bool :=
  match List.find (by_credentials username password) users with
  | Some _ => true
  | None => false
  end.

(** The three messages of the [if signup_button:] block. *)
Inductive signup_message : Type :=
| AccountCreated
| UsernameExists
| EnterBoth.

(** The [if signup_button:] block: the table after it, and the message
    shown. *)
Definition signup (users : list User.t) (username password : string)
    : list User.t * signup_message :=
  if str_truthy username && str_truthy password then
    match List.find (by_username username) users with
    | Some _ => (users, UsernameExists)
    | None =>
        ((users ++ [User.Build (fresh_id users) username password])%list,
         AccountCreated)
    end
  else (users, EnterBoth).

End Accounts.

(** ** Saving and loading the profile: [profile_page] *)

Module ProfileForm.

Definition fresh_id (profiles : list UserProfile.t) : Z :=
  (1 + List.fold_right Z.max 0 (List.map UserProfile.id profiles))%Z.

(** [session.query(UserProfile).filter_by(username=...).first()] *)
Definition existing_profile (profiles : list UserProfile.t)
    (logged_in_user : string) : option UserProfile.t :=
  List.find
    (fun p => String.eqb (UserProfile.username p) logged_in_user) profiles.

(** The values of the form, in the order of [UserProfile(...)]. *)
Record form : Type := {
  weight : Q;
  target_weight : Q;
  today_date : date;
  target_date : date;
  bodyfat_percentage : Q;
  height : Q
}.

(** The [if submit_button:] block: delete the user's profiles, add the
    new one, commit. *)
Definition save_profile (profiles : list UserProfile.t)
    (logged_in_user : string) (f : form) : list UserProfile.t :=
  let kept :=
    List.filter
      (fun p => negb (String.eqb (UserProfile.username p) logged_in_user))
      profiles in
  (kept ++ [UserProfile.Build (fresh_id kept) logged_in_user (weight f)
              (target_weight f) (today_date f) (target_date f)
              (Some (bodyfat_percentage f)) (height f)])%list.

End ProfileForm.

(** ** Pages and navigation: the session state and the buttons *)

Module Nav.

(** [st.session_state.page] *)
Inductive page : Type := LoginPage | ProfilePage | FoodLogPage | ProgressPage.

(** The keys of [st.session_state] that the buttons below write. *)
Record session_state : Type := {
  current_page : page;
  logged_in_user : option string;
  current_date : date;
  show_weight_form : bool
}.

(** The three tables the buttons below write. *)
Record tables : Type := {
  users : list User.t;
  profiles : list UserProfile.t;
  weight_logs : list WeightLog.t
}.

(** One interaction: a button or form submission, with its inputs. The
    buttons of the food forms write none of the keys and tables above
    and are left out. *)
Inductive event : Type :=
| Login (username password : string)
| SignUp (username password : string)
| SaveProfile (f : ProfileForm.form)
| Logout
| GoToProfile
| GoToFoodLog
| GoToProgress
| PreviousDay
| NextDay
| SelectDate (selected_date : date)
| OpenWeightForm
| SaveWeight (current_weight : Q) (weight_notes : string)
| CancelWeight
| DeleteWeight (delete_date : date).

(** The state of a first run on the day [today]. *)
Definition initial (today : date) : session_state :=
  {| current_page := LoginPage;
     logged_in_user := None;
     current_date := today;
     show_weight_form := false |}.

Definition set_page (s : session_state) (p : page) : session_state :=
  {| current_page := p;
     logged_in_user := logged_in_user s;
     current_date := current_date s;
     show_weight_form := show_weight_form s |}.

Definition set_date (s : session_state) (d : date) : session_state :=
  {| current_page := current_page s;
     logged_in_user := logged_in_user s;
     current_date := d;
     show_weight_form := false |}.

Definition set_form (s : session_state) (b : bool) : session_state :=
  {| current_page := current_page s;
     logged_in_user := logged_in_user s;
     current_date := current_date s;
     show_weight_form := b |}.

Definition logged_out (s : session_state) : session_state :=
  {| current_page := LoginPage;
     logged_in_user := None;
     current_date := current_date s;
     show_weight_form := show_weight_form s |}.

(** One run of the script on the day [today]: the page of the state
    handles the event, if it has the button; an event of another page
    cannot occur and changes nothing. The pages behind the login query
    the tables by [logged_in_user]; without one the food log and the
    progress page find no profile and stop, and the profile page cannot
    store a row (the user name column is not nullable): the [None]
    cases below. *)
Definition step (today : date) (t : tables) (s : session_state) (e : event)
    : tables * session_state :=
  match current_page s, e with
  (* login_page *)
  | LoginPage, Login username password =>
      if Accounts.login (users t) username password then
        (t, {| current_page := ProfilePage;
               logged_in_user := Some username;
               current_date := current_date s;
               show_weight_form := show_weight_form s |})
      else (t, s)
  | LoginPage, SignUp username password =>
      ({| users := fst (Accounts.signup (users t) username password);
          profiles := profiles t;
          weight_logs := weight_logs t |}, s)
  (* profile_page *)
  | ProfilePage, SaveProfile f =>
      match logged_in_user s with
      | Some u =>
          ({| users := users t;
              profiles := ProfileForm.save_profile (profiles t) u f;
              weight_logs := weight_logs t |}, s)
      | None => (t, s)
      end
  | ProfilePage, Logout => (t, logged_out s)
  | ProfilePage, GoToFoodLog => (t, set_page s FoodLogPage)
  | ProfilePage, GoToProgress => (t, set_page s ProgressPage)
  (* food_log_page *)
  | FoodLogPage, GoToProfile => (t, set_page s ProfilePage)
  | FoodLogPage, GoToProgress => (t, set_page s ProgressPage)
  | FoodLogPage, Logout => (t, logged_out s)
  | FoodLogPage, PreviousDay => (t, set_date s (current_date s - 1)%Z)
  | FoodLogPage, SelectDate selected_date =>
      if (selected_date <=? today)%Z
         && negb (selected_date =? current_date s)%Z
      then (t, set_date s selected_date)
      else (t, s)
  | FoodLogPage, NextDay =>
      if (current_date s <? today)%Z
      then (t, set_date s (current_date s + 1)%Z)
      else (t, s)
  | FoodLogPage, OpenWeightForm =>
      match logged_in_user s with
      | Some u =>
          match ProfileForm.existing_profile (profiles t) u with
          | Some _ =>
              if negb (show_weight_form s) then (t, set_form s true)
              else (t, s)
          | None => (t, s)
          end
      | None => (t, s)
      end
  | FoodLogPage, SaveWeight current_weight weight_notes =>
      match logged_in_user s with
      | Some u =>
          match ProfileForm.existing_profile (profiles t) u with
          | Some _ =>
              if show_weight_form s then
                ({| users := users t;
                    profiles := profiles t;
                    weight_logs :=
                      save_weight (weight_logs t) u (current_date s)
                        current_weight weight_notes |},
                 set_form s false)
              else (t, s)
          | None => (t, s)
          end
      | None => (t, s)
      end
  | FoodLogPage, CancelWeight =>
      match logged_in_user s with
      | Some u =>
          match ProfileForm.existing_profile (profiles t) u with
          | Some _ =>
              if show_weight_form s then (t, set_form s false) else (t, s)
          | None => (t, s)
          end
      | None => (t, s)
      end
  (* progress_page *)
  | ProgressPage, GoToProfile => (t, set_page s ProfilePage)
  | ProgressPage, GoToFoodLog => (t, set_page s FoodLogPage)
  | ProgressPage, Logout => (t, logged_out s)
  | ProgressPage, DeleteWeight delete_date =>
      match logged_in_user s with
      | Some u =>
          match ProfileForm.existing_profile (profiles t) u with
          | Some _ =>
              if List.existsb
                   (fun r => (WeightLog.log_date r =? delete_date)%Z)
                   (weight_logs_of (weight_logs t) u)
              then
                ({| users := users t;
                    profiles := profiles t;
                    weight_logs := delete_weight (weight_logs t) u
                                     delete_date |}, s)
              else (t, s)
          | None => (t, s)
          end
      | None => (t, s)
      end
  | _, _ => (t, s)
  end.

(** A run of interactions, each on its calendar day. *)
Fixpoint run (t : tables) (s : session_state) (trace : list (date * event))
    : tables * session_state :=
  match trace with
  | [] => (t, s)
  | (today, e) :: rest =>
      let '(t', s') := step today t s e in run t' s' rest
  end.

(** The calendar days of a run do not go back, from [today] on. *)
Fixpoint days_go_on (today : date) (trace : list (date * event)) : Prop :=
  match trace with
  | [] => True
  | (today', _) :: rest => (today <= today')%Z /\ days_go_on today' rest
  end.

(** The calendar day of the last interaction of a run that starts on
    [today]. *)
Fixpoint last_day (today : date) (trace : list (date * event)) : date :=
  match trace with
  | [] => today
  | (today', _) :: rest => last_day today' rest
  end.

(** What every run keeps. *)
Record invariant (today : date) (t : tables) (s : session_state) : Prop := {
  inv_logged_in :
    current_page s <> LoginPage ->
    exists u, logged_in_user s = Some u /\
              List.In u (List.map User.username (users t));
  inv_date : (current_date s <= today)%Z;
  inv_weights_past :
    forall r, List.In r (weight_logs t) -> (WeightLog.log_date r <= today)%Z;
  inv_weights_owned :
    forall r, List.In r (weight_logs t) ->
              List.In (WeightLog.username r) (List.map User.username (users t));
  inv_unique : unique_per_day (weight_logs t);
  inv_usernames : List.NoDup (List.map User.username (users t))
}.

End Nav.

(** ** The food log *)

(** A row of [food_logs] (class [FoodLog]); [meal_category] is read
    with a default of its own, so it is the one column modelled as
    nullable. *)
Module FoodLog.
Record t : Type := Build {
  id : Z;
  username : string;
  log_date : date;
  food_name : string;
  calories : Q;
  protein : Q;
  fat : Q;
  carbs : Q;
  fiber : Q;
  sodium : Q;
  meal_category : option string
}.
End FoodLog.

(** A row of the table [food_nutrient] of the food database. *)
Module FoodNutrient.
Record t : Type := Build {
  fdc_id : Z;
  nutrient_id : Z;
  amount : option Q
}.
End FoodNutrient.

Module Food.

(** The query of [get_food_macros]: the rows of a food for the six
    nutrient ids, with an amount. *)
Definition wanted (nutrient_id : Z) : bool :=
  List.existsb (Z.eqb nutrient_id) [1008; 1003; 1004; 1005; 1079; 1093]%Z.

Definition query_food_macros (food_nutrient : list FoodNutrient.t)
    (fdc_id : Z) : list (Z * Q) :=
  List.flat_map
    (fun r =>
       match FoodNutrient.amount r with
       | Some amount =>
           if (FoodNutrient.fdc_id r =? fdc_id)%Z
              && wanted (FoodNutrient.nutrient_id r)
           then [(FoodNutrient.nutrient_id r, amount)]
           else []
       | None => []
       end)
    food_nutrient.

Definition nutrient_map : gmap Z string :=
  {[ 1008%Z := "calories"; 1003%Z := "protein"; 1004%Z := "fat";
     1005%Z := "carbs"; 1079%Z := "fiber"; 1093%Z := "sodium" ]}.

Definition zero_macros : gmap string Q :=
  {[ "calories" := 0.0; "protein" := 0.0; "fat" := 0.0;
     "carbs" := 0.0; "fiber" := 0.0; "sodium" := 0.0 ]}.

(** The loop [for _, row in df.iterrows():]. *)
Definition fill_macros (macros : gmap string Q) (rows : list (Z * Q))
    : gmap string Q :=
  List.fold_left
    (fun macros row =>
       match nutrient_map !! fst row with
       | Some name => <[name := snd row]> macros
       | None => macros
       end)
    rows macros.

(** [get_food_macros(fdc_id)] *)
Definition get_food_macros (food_nutrient : list FoodNutrient.t)
    (fdc_id : Z) : gmap string Q :=
  fill_macros zero_macros (query_food_macros food_nutrient fdc_id).

(** [macros_data[key] > 0]; a missing key raises ([None]). *)
Definition key_gt0 (macros_data : gmap string Q) (key : string)
    : option bool :=
  q ← macros_data !! key; Some (Qltb 0 q).

(** [a or b]: [b] is evaluated only when [a] is false. *)
Definition py_or (a b : option bool) : option bool :=
  match a with
  | Some true => Some true
  | Some false => b
  | None => None
  end.

(** [macros_data['calories'] > 0 or macros_data['protein'] > 0 or
    macros_data['fat'] > 0 or macros_data['carbs'] > 0] *)
Definition has_data (macros_data : gmap string Q) : option bool :=
  py_or (key_gt0 macros_data "calories")
    (py_or (key_gt0 macros_data "protein")
       (py_or (key_gt0 macros_data "fat") (key_gt0 macros_data "carbs"))).

Definition fresh_id (table : list FoodLog.t) : Z :=
  (1 + List.fold_right Z.max 0 (List.map FoodLog.id table))%Z.

(** [session.add(new_log)] *)
Definition add (table : list FoodLog.t) (new_log : Z -> FoodLog.t)
    : list FoodLog.t :=
  (table ++ [new_log (fresh_id table)])%list.

(** The [if add_button:] block of the form [add_from_database]; a
    missing key raises ([None]). *)
Definition add_from_database (table : list FoodLog.t)
    (logged_in_user : string) (current_date : date) (description : string)
    (macros_data : gmap string Q) (grams : Q)
    (selected_meal_category : string) : option (list FoodLog.t) :=
  let multiplier := grams / 100.0 in
  calories ← macros_data !! "calories";
  protein ← macros_data !! "protein";
  fat ← macros_data !! "fat";
  carbs ← macros_data !! "carbs";
  fiber ← macros_data !! "fiber";
  sodium ← macros_data !! "sodium";
  Some (add table
          (fun id =>
             FoodLog.Build id logged_in_user current_date description
               (calories * multiplier) (protein * multiplier)
               (fat * multiplier) (carbs * multiplier)
               (fiber * multiplier) (sodium * multiplier)
               (Some selected_meal_category))).

(** Manual entry and the edit form: the calories kept. *)
Definition calculated_calories (protein fat carbs : Q) : Q :=
  (protein * 4) + (fat * 9) + (carbs * 4).

Definition final_calories (manual_calories protein fat carbs : Q) : Q :=
  if Qltb 0 manual_calories then manual_calories
  else calculated_calories protein fat carbs.

(** The inputs of the edit form. *)
Record entry : Type := {
  entry_name : string;
  manual_calories : Q;
  entry_protein : Q;
  entry_fat : Q;
  entry_carbs : Q;
  entry_fiber : Q;
  entry_sodium : Q
}.

Definition meal_categories : list string :=
  ["Breakfast"; "Lunch"; "Dinner"; "Snacks"].

(** The format specification [:.0f]. *)
Definition format_0f (q : Q) : string :=
  (if Qltb q 0 then "-" else "") +:+ pretty (round_half_even (Qabs q)).

(** The option of the select box [edit_selectbox] for a row:
    [f"{log.food_name} ({getattr(log, 'meal_category', 'Snacks')}) -
    {log.calories:.0f} cal - ID: {log.id}"]; a missing category prints
    as [None]. *)
Definition edit_option (log : FoodLog.t) : string :=
  FoodLog.food_name log +:+ " ("
    +:+ match FoodLog.meal_category log with
        | Some category => category
        | None => "None"
        end
    +:+ ") - " +:+ format_0f (FoodLog.calories log)
    +:+ " cal - ID: " +:+ pretty (FoodLog.id log).

(** [s.split(sep)] for a separator that is not empty: the pieces between
    the occurrences of [sep], found from the left and not overlapping.
    [skip] counts the characters of an occurrence still to pass, [piece]
    is the piece read so far. *)
Fixpoint split_from (sep s : string) (skip : nat) (piece : string)
    : list string :=
  match s with
  | EmptyString => [piece]
  | String c rest =>
      match skip with
      | S skip' => split_from sep rest skip' piece
      | O =>
          if String.prefix sep s
          then piece :: split_from sep rest (String.length sep - 1) ""
          else split_from sep rest 0 (piece +:+ String c "")
      end
  end.

Definition split (sep s : string) : list string := split_from sep s 0 "".

(** The white space that [int] strips, within ASCII. *)
Definition is_space (c : Ascii.ascii) : bool :=
  List.existsb (N.eqb (Ascii.N_of_ascii c)) [9; 10; 11; 12; 13; 32]%N.

Fixpoint lstrip (s : string) : string :=
  match s with
  | EmptyString => ""
  | String c rest => if is_space c then lstrip rest else s
  end.

Definition strip (s : string) : string :=
  String.rev (lstrip (String.rev (lstrip s))).

Definition digit_of (c : Ascii.ascii) : option Z :=
  let n := Ascii.N_of_ascii c in
  if (48 <=? n)%N && (n <=? 57)%N then Some (Z.of_N (n - 48)) else None.

(** Decimal digits, with single underscores between them; [value] is
    the number read so far, absent before the first digit, and
    [after_digit] tells whether the last character was a digit. *)
Fixpoint digits_from (s : string) (value : option Z) (after_digit : bool)
    : option Z :=
  match s with
  | EmptyString => if after_digit then value else None
  | String c rest =>
      match digit_of c with
      | Some d =>
          digits_from rest (Some (10 * default 0 value + d)%Z) true
      | None =>
          if (Ascii.N_of_ascii c =? 95)%N && after_digit (* "_" *)
          then digits_from rest value false
          else None
      end
  end.

(** [int(s)] for the ASCII spellings of a decimal integer; [None] where
    [int] raises [ValueError]. *)
Definition py_int (s : string) : option Z :=
  match strip s with
  | EmptyString => None
  | String c rest =>
      if (Ascii.N_of_ascii c =? 43)%N (* "+" *)
      then digits_from rest None false
      else if (Ascii.N_of_ascii c =? 45)%N (* "-" *)
      then Z.opp <$> digits_from rest None false
      else digits_from (String c rest) None false
  end.

(** [int(food_to_edit.split("ID: ")[1])] *)
Definition edit_food_id_of (food_to_edit : string) : option Z :=
  match split "ID: " food_to_edit with
  | _ :: piece :: _ => py_int piece
  | _ => None
  end.

(** [session.query(FoodLog).filter_by(id=edit_food_id).first()] *)
Definition food_by_id (table : list FoodLog.t) (edit_food_id : Z)
    : option FoodLog.t :=
  List.find (fun log => (FoodLog.id log =? edit_food_id)%Z) table.

(** The values the edit form opens with for a row. A number input with
    [min_value=0.0] raises on a negative value, and looking up the
    row's category among the four raises when it is not one of them
    ([None]). *)
Definition edit_defaults (log : FoodLog.t) : option (entry * string) :=
  match FoodLog.meal_category log with
  | Some category =>
      if List.existsb (String.eqb category) meal_categories
         && negb (List.existsb (fun value => Qltb value 0)
                    [FoodLog.calories log; FoodLog.protein log;
                     FoodLog.fat log; FoodLog.carbs log;
                     FoodLog.fiber log; FoodLog.sodium log])
      then
        Some ({| entry_name := FoodLog.food_name log;
                 manual_calories := FoodLog.calories log;
                 entry_protein := FoodLog.protein log;
                 entry_fat := FoodLog.fat log;
                 entry_carbs := FoodLog.carbs log;
                 entry_fiber := FoodLog.fiber log;
                 entry_sodium := FoodLog.sodium log |}, category)
      else None
  | None => None
  end.

(** The edit form that opens for an option of the select box: the id
    read from the option, and the values of the row with that id. *)
Definition edit_form (table : list FoodLog.t) (food_to_edit : string)
    : option (Z * entry * string) :=
  edit_food_id ← edit_food_id_of food_to_edit;
  food_to_edit_obj ← food_by_id table edit_food_id;
  '(e, category) ← edit_defaults food_to_edit_obj;
  Some (edit_food_id, e, category).

(** Assignment to the first row with a given id. *)
Fixpoint update_by_id (edit_food_id : Z) (f : FoodLog.t -> FoodLog.t)
    (table : list FoodLog.t) : list FoodLog.t :=
  match table with
  | [] => []
  | log :: rest =>
      if (FoodLog.id log =? edit_food_id)%Z then f log :: rest
      else log :: update_by_id edit_food_id f rest
  end.

(** The [if update_button:] block: without a food name nothing is
    stored. *)
Definition update_food (table : list FoodLog.t) (edit_food_id : Z)
    (e : entry) (edit_meal_category : string) : list FoodLog.t :=
  if Accounts.str_truthy (entry_name e) then
    update_by_id edit_food_id
      (fun log =>
         FoodLog.Build (FoodLog.id log) (FoodLog.username log)
           (FoodLog.log_date log) (entry_name e)
           (final_calories (manual_calories e) (entry_protein e)
              (entry_fat e) (entry_carbs e))
           (entry_protein e) (entry_fat e) (entry_carbs e)
           (entry_fiber e) (entry_sodium e) (Some edit_meal_category))
      table
  else table.

(** [session.query(FoodLog).filter_by(username=..., log_date=...)
    .all()] *)
Definition food_logs_of (table : list FoodLog.t) (logged_in_user : string)
    (current_date : date) : list FoodLog.t :=
  List.filter
    (fun log => String.eqb (FoodLog.username log) logged_in_user
                && (FoodLog.log_date log =? current_date)%Z) table.

(** [sum(...)] of floats. *)
Definition py_sum (l : list Q) : Q := List.fold_left Qplus l 0.

(** [getattr(log, 'meal_category', 'Snacks') == category] *)
Definition in_category (category : string) (log : FoodLog.t) : bool :=
  match FoodLog.meal_category log with
  | Some c => String.eqb c category
  | None => false
  end.

(** The six sums and the count of a list of rows. *)
Record totals : Type := {
  total_calories : Q;
  total_protein : Q;
  total_fat : Q;
  total_carbs : Q;
  total_fiber : Q;
  total_sodium : Q;
  count : nat
}.

Definition totals_of (logs : list FoodLog.t) : totals :=
  {| total_calories := py_sum (List.map FoodLog.calories logs);
     total_protein := py_sum (List.map FoodLog.protein logs);
     total_fat := py_sum (List.map FoodLog.fat logs);
     total_carbs := py_sum (List.map FoodLog.carbs logs);
     total_fiber := py_sum (List.map FoodLog.fiber logs);
     total_sodium := py_sum (List.map FoodLog.sodium logs);
     count := List.length logs |}.

(** [meal_totals[category]] *)
Definition meal_totals (food_logs : list FoodLog.t) (category : string)
    : totals :=
  totals_of (List.filter (in_category category) food_logs).

(** The rows of a day that are in none of the four meals. *)
Definition in_no_meal (log : FoodLog.t) : bool :=
  negb (List.existsb (fun category => in_category category log)
          meal_categories).

(** The [if st.button("Copy This Meal"):] block: one new row for each
    row of the meal, on the date viewed and in the chosen category. *)
Definition copy_meal (table : list FoodLog.t) (logged_in_user : string)
    (current_date : date) (logs : list FoodLog.t) (target_category : string)
    : list FoodLog.t :=
  List.fold_left
    (fun table log =>
       add table
         (fun id =>
            FoodLog.Build id logged_in_user current_date
              (FoodLog.food_name log) (FoodLog.calories log)
              (FoodLog.protein log) (FoodLog.fat log) (FoodLog.carbs log)
              (FoodLog.fiber log) (FoodLog.sodium log)
              (Some target_category)))
    logs table.

End Food.

(** ** Past meals: the section Copy Past Meals of [food_log_page] *)

Module PastMeals.

Fixpoint insert_desc (log : FoodLog.t) (sorted : list FoodLog.t)
    : list FoodLog.t :=
  match sorted with
  | [] => [log]
  | s :: rest =>
      if (FoodLog.log_date s <=? FoodLog.log_date log)%Z
      then log :: s :: rest
      else s :: insert_desc log rest
  end.

(** The query of the last 30 days before the date viewed, latest
    first. *)
Definition in_window (logged_in_user : string) (current_date : date)
    (log : FoodLog.t) : bool :=
  String.eqb (FoodLog.username log) logged_in_user
  && (current_date - 30 <=? FoodLog.log_date log)%Z
  && (FoodLog.log_date log <? current_date)%Z.

Definition past_food_logs (table : list FoodLog.t) (logged_in_user : string)
    (current_date : date) : list FoodLog.t :=
  List.fold_right insert_desc []
    (List.filter (in_window logged_in_user current_date) table).

(** [if k not in d: d[k] = default] followed by a change of [d[k]], on
    a dictionary that keeps the order in which its keys came. *)
Fixpoint upsert {K V : Type} (eqb : K -> K -> bool) (k : K) (default : V)
    (f : V -> V) (d : list (K * V)) : list (K * V) :=
  match d with
  | [] => [(k, f default)]
  | (k', v) :: rest =>
      if eqb k' k then (k', f v) :: rest
      else (k', v) :: upsert eqb k default f rest
  end.

Definition category_eqb (a b : option string) : bool :=
  match a, b with
  | Some x, Some y => String.eqb x y
  | None, None => true
  | _, _ => false
  end.

(** [meals_by_date]: by date, then by category, the rows in the order
    of the query. The date key is the date itself, of which the
    formatted string is a one-to-one image. *)
Definition meals_by_date (past : list FoodLog.t)
    : list (date * list (option string * list FoodLog.t)) :=
  List.fold_left
    (fun meals log =>
       upsert Z.eqb (FoodLog.log_date log) []
         (upsert category_eqb (FoodLog.meal_category log) []
            (fun logs => (logs ++ [log])%list))
         meals)
    past [].

(** The meals offered in the select box, in its order. *)
Definition meal_options (table : list FoodLog.t) (logged_in_user : string)
    (current_date : date)
    : list (date * option string * list FoodLog.t) :=
  List.flat_map
    (fun by_date =>
       List.map (fun by_category =>
                   (fst by_date, fst by_category, snd by_category))
         (snd by_date))
    (meals_by_date (past_food_logs table logged_in_user current_date)).

End PastMeals.

(** * Part II: the properties *)

(** ** Python built-ins *)

Section PyFacts.

Local Open Scope Q_scope.

Lemma Qltb_lt (x y : Q) : Qltb x y = true <-> x < y.
Proof.
  unfold Qltb. rewrite Qlt_alt.
  destruct (x ?= y); split; congruence.
Qed.

Lemma Qltb_ge (x y : Q) : Qltb x y = false <-> y <= x.
Proof.
  split; intros H.
  - apply Qnot_lt_le. intros Hlt. apply Qltb_lt in Hlt. congruence.
  - destruct (Qltb x y) eqn:E; [|reflexivity].
    apply Qltb_lt in E. exfalso. exact (Qle_not_lt _ _ H E).
Qed.

Lemma Qplus_0_r_eq (x : Q) : x + inject_Z 0 = x.
Proof.
  destruct x as [n d]. unfold Qplus, inject_Z. simpl. f_equal; lia.
Qed.

Lemma and_gt0_Some (q : Q) : and_gt0 (Some q) = true <-> 0 < q.
Proof.
  unfold and_gt0, truthy. rewrite andb_true_iff, negb_true_iff, Qltb_lt.
  split; [tauto|]. intros H. split; [|exact H].
  destruct (Qeq_bool q 0) eqn:E; [|reflexivity].
  apply Qeq_bool_eq in E. rewrite E in H. exfalso. exact (Qlt_irrefl _ H).
Qed.

End PyFacts.

Example format_1f_157_5 : format_1f 157.5 = "157.5"%string.
Proof. reflexivity. Qed.

Example format_1f_tie : format_1f 157.25 = "157.2"%string.
Proof. reflexivity. Qed.

Example format_1f_neg : format_1f (-1.26) = "-1.3"%string.
Proof. reflexivity. Qed.

(** ** The weight-history query *)

Section QueryFacts.

Variables (username : string) (current_date : date).

Lemma first_insert_desc (r : WeightLog.t) (sorted : list WeightLog.t) :
  exists e, first (insert_desc r sorted) = Some e /\
    (e = r \/ first sorted = Some e) /\
    (WeightLog.log_date r <= WeightLog.log_date e)%Z /\
    (forall s, first sorted = Some s ->
               (WeightLog.log_date s <= WeightLog.log_date e)%Z).
Proof.
  destruct sorted as [|s rest]; simpl.
  - exists r. repeat split; auto; [lia | discriminate].
  - destruct (Z.leb_spec (WeightLog.log_date s) (WeightLog.log_date r)).
    + exists r. simpl. repeat split; auto; [lia|].
      intros s' [= <-]. assumption.
    + exists s. simpl. repeat split; auto; [lia|].
      intros s' [= <-]. lia.
Qed.

Lemma first_order_by (rows : list WeightLog.t) :
  match first (order_by_log_date_desc rows) with
  | None => rows = []
  | Some e =>
      List.In e rows /\
      forall r, List.In r rows ->
                (WeightLog.log_date r <= WeightLog.log_date e)%Z
  end.
Proof.
  induction rows as [|r rows IH]; simpl; [reflexivity|].
  destruct (first_insert_desc r (order_by_log_date_desc rows))
    as (e & -> & Hsrc & Hr & Hs).
  destruct (first (order_by_log_date_desc rows)) as [e'|] eqn:E.
  - destruct IH as [Hin Hmax]. split.
    + destruct Hsrc as [->|[= ->]]; auto.
    + intros x [<-|Hx]; [assumption|].
      specialize (Hmax x Hx). specialize (Hs e' eq_refl). lia.
  - subst rows. destruct Hsrc as [->|Hsrc]; [|discriminate].
    split; [now left|]. intros x [<-|[]]. lia.
Qed.

Lemma matches_filter (session : list WeightLog.t) (r : WeightLog.t) :
  List.In r (filter_log_date_le current_date
               (filter_by_username username session))
  <-> List.In r session /\ matches username current_date r.
Proof.
  unfold filter_log_date_le, filter_by_username, matches.
  rewrite !filter_In, String.eqb_eq, Z.leb_le. tauto.
Qed.

(** The row the query returns is a row of this user dated on or before
    [current_date], and no such row has a later date. *)
Lemma latest_weight_log_Some (session : list WeightLog.t) (e : WeightLog.t) :
  latest_weight_log session username current_date = Some e ->
  List.In e session /\ matches username current_date e /\
  forall r, List.In r session -> matches username current_date r ->
            (WeightLog.log_date r <= WeightLog.log_date e)%Z.
Proof.
  unfold latest_weight_log. intros H.
  pose proof (first_order_by
                (filter_log_date_le current_date
                   (filter_by_username username session))) as F.
  rewrite H in F. destruct F as [Hin Hmax].
  apply matches_filter in Hin. destruct Hin as [Hin Hm].
  repeat split; try tauto; try apply Hm.
  intros r Hr Hmr. apply Hmax, matches_filter. tauto.
Qed.

(** The query returns nothing exactly when there is no such row. *)
Lemma latest_weight_log_None (session : list WeightLog.t) :
  latest_weight_log session username current_date = None <->
  forall r, List.In r session -> ~ matches username current_date r.
Proof.
  unfold latest_weight_log.
  pose proof (first_order_by
                (filter_log_date_le current_date
                   (filter_by_username username session))) as F.
  split.
  - intros H. rewrite H in F. intros r Hr Hm.
    assert (Hin : List.In r (filter_log_date_le current_date
                               (filter_by_username username session)))
      by (apply matches_filter; tauto).
    rewrite F in Hin. exact Hin.
  - intros H.
    destruct (first _) as [e|]; [|reflexivity].
    destruct F as [Hin _]. apply matches_filter in Hin.
    exfalso. exact (H e (proj1 Hin) (proj2 Hin)).
Qed.

Lemma latest_weight_log_exists (session : list WeightLog.t) (r : WeightLog.t) :
  List.In r session -> matches username current_date r ->
  exists e, latest_weight_log session username current_date = Some e.
Proof.
  intros Hr Hm.
  destruct (latest_weight_log session username current_date) as [e|] eqn:E.
  - now exists e.
  - exfalso. exact (proj1 (latest_weight_log_None session) E r Hr Hm).
Qed.

End QueryFacts.

(** ** The progress adjuster *)

(** On the comparison path the result is built from the row found. *)
Lemma adjust_compare (base_calories current_weight target_weight : Q)
    (days_to_goal : Z) (session : list WeightLog.t) (username : string)
    (current_date : date) (latest : WeightLog.t) :
  (3 < days_to_goal)%Z ->
  latest_weight_log session username current_date = Some latest ->
  let stage := target_weight * 1.05 in
  let diff := WeightLog.weight latest - stage in
  let adjustment := fst (adjustment_of (WeightLog.weight latest) stage diff) in
  let result :=
    adjust_calories_based_on_progress base_calories current_weight
      target_weight days_to_goal session username current_date in
  fst result = base_calories + inject_Z adjustment /\
  snd result !! "adjusted" = Some (PyBool (negb (adjustment =? 0)%Z)) /\
  snd result !! "adjustment" = Some (PyInt adjustment) /\
  (exists s, snd result !! "reason" = Some (PyStr s)) /\
  snd result !! "needs_weight_log" = None.
Proof.
  intros Hd Hl. cbv zeta. unfold adjust_calories_based_on_progress.
  apply Z.leb_gt in Hd. rewrite Hd, Hl.
  destruct (adjustment_of _ _ _) as [adjustment reason]. simpl.
  repeat split; eauto.
Qed.

(** The two paths that leave the calories alone. *)
Lemma adjust_standard_protocol
    (base_calories current_weight target_weight : Q) (days_to_goal : Z)
    (session : list WeightLog.t) (username : string) (current_date : date) :
  (days_to_goal <=? 3)%Z = true ->
  adjust_calories_based_on_progress base_calories current_weight
    target_weight days_to_goal session username current_date
  = (base_calories,
     {[ "adjusted" := PyBool false;
        "reason" := PyStr "Within 3 days of target - using standard protocol" ]}).
Proof.
  intros Hd. unfold adjust_calories_based_on_progress. now rewrite Hd.
Qed.

Lemma adjust_no_latest
    (base_calories current_weight target_weight : Q) (days_to_goal : Z)
    (session : list WeightLog.t) (username : string) (current_date : date) :
  (days_to_goal <=? 3)%Z = false ->
  latest_weight_log session username current_date = None ->
  adjust_calories_based_on_progress base_calories current_weight
    target_weight days_to_goal session username current_date
  = (base_calories,
     {[ "adjusted" := PyBool false;
        "reason" := PyStr "No weight logged yet - log your weight to enable dynamic adjustments";
        "needs_weight_log" := PyBool true ]}).
Proof.
  intros Hd Hl. unfold adjust_calories_based_on_progress. now rewrite Hd, Hl.
Qed.

Example sample_latest :
  latest_weight_log sample_session "alice" 105
  = Some (WeightLog.Build 3 "alice" 103 159.0 "morning").
Proof. reflexivity. Qed.

Example sample_above :
  adjust_calories_based_on_progress 2500 180 150 5 sample_session "alice" 105
  = (2500 - 200,
     {[ "adjusted" := PyBool true;
        "adjustment" := PyInt (-200);
        "reason" := PyStr "Weight 1.5 lbs above target progression (159.0 vs 157.5 lbs)";
        "actual_weight" := PyFloat 159.0;
        "target_weight_at_stage" := PyFloat (150 * 1.05);
        "difference" := PyFloat (159.0 - 150 * 1.05) ]}).
Proof. reflexivity. Qed.

(** C2. Three days out or closer, the adjuster returns the base calories
    and a dictionary with [adjusted] false, whatever the weight history
    holds: the table is not consulted. *)
Theorem adjust_within_three_days
    (base_calories current_weight target_weight : Q) (days_to_goal : Z)
    (session : list WeightLog.t) (username : string) (current_date : date) :
  (days_to_goal <= 3)%Z ->
  adjust_calories_based_on_progress base_calories current_weight
    target_weight days_to_goal session username current_date
  = (base_calories,
     {[ "adjusted" := PyBool false;
        "reason" := PyStr "Within 3 days of target - using standard protocol" ]}).
Proof.
  intros Hd. apply adjust_standard_protocol. now apply Z.leb_le.
Qed.

Lemma adjust_within_three_days_witness :
  adjust_calories_based_on_progress 2500 180 150 3 sample_session "alice" 105
  = (2500,
     {[ "adjusted" := PyBool false;
        "reason" := PyStr "Within 3 days of target - using standard protocol" ]}).
Proof.
  apply (adjust_within_three_days 2500 180 150 3 sample_session "alice" 105).
  lia.
Defined.

(** C3. More than three days out and without any weigh-in of the user
    on or before the date viewed, the adjuster still returns a result:
    the base calories and a dictionary with [adjusted] false,
    [needs_weight_log] true and a reason that asks for a weigh-in. *)
Theorem adjust_without_weight_log
    (base_calories current_weight target_weight : Q) (days_to_goal : Z)
    (session : list WeightLog.t) (username : string) (current_date : date) :
  (3 < days_to_goal)%Z ->
  (forall r, List.In r session -> ~ matches username current_date r) ->
  adjust_calories_based_on_progress base_calories current_weight
    target_weight days_to_goal session username current_date
  = (base_calories,
     {[ "adjusted" := PyBool false;
        "reason" := PyStr "No weight logged yet - log your weight to enable dynamic adjustments";
        "needs_weight_log" := PyBool true ]}).
Proof.
  intros Hd Hnone. apply adjust_no_latest.
  - now apply Z.leb_gt.
  - now apply latest_weight_log_None.
Qed.

(** The user's only weigh-ins are later than the date viewed. *)
Lemma adjust_without_weight_log_witness :
  adjust_calories_based_on_progress 2500 180 150 5 sample_session "alice" 99
  = (2500,
     {[ "adjusted" := PyBool false;
        "reason" := PyStr "No weight logged yet - log your weight to enable dynamic adjustments";
        "needs_weight_log" := PyBool true ]}).
Proof.
  apply (adjust_without_weight_log 2500 180 150 5 sample_session "alice" 99).
  - lia.
  - intros r Hr [Hu Hdate]. simpl in Hr.
    destruct Hr as [<-|[<-|[<-|[<-|[]]]]]; simpl in Hu, Hdate;
      try discriminate; lia.
Defined.

(** C9, as the code has it. Every dictionary the adjuster returns has
    [adjusted] (a bool) and [reason] (a string). [needs_weight_log] is a
    key only on the path without a weigh-in, where it is true; the
    signed adjustment is a key only on the comparison path, where it is
    -200, 0 or 200. *)
Theorem adjustment_info_keys
    (base_calories current_weight target_weight : Q) (days_to_goal : Z)
    (session : list WeightLog.t) (username : string) (current_date : date) :
  let info :=
    snd (adjust_calories_based_on_progress base_calories current_weight
           target_weight days_to_goal session username current_date) in
  (exists b, info !! "adjusted" = Some (PyBool b)) /\
  (exists s, info !! "reason" = Some (PyStr s)) /\
  match path_of days_to_goal session username current_date with
  | WithinThreeDays =>
      info !! "needs_weight_log" = None /\ info !! "adjustment" = None
  | NoWeightLog =>
      info !! "needs_weight_log" = Some (PyBool true) /\
      info !! "adjustment" = None
  | Compared =>
      info !! "needs_weight_log" = None /\
      exists z, info !! "adjustment" = Some (PyInt z) /\
                (z = (-200)%Z \/ z = 0%Z \/ z = 200%Z)
  end.
Proof.
  cbv zeta. unfold path_of.
  destruct (days_to_goal <=? 3)%Z eqn:Hd.
  - rewrite adjust_standard_protocol by assumption. simpl.
    repeat split; eauto.
  - destruct (latest_weight_log session username current_date)
      as [latest|] eqn:Hl.
    + apply Z.leb_gt in Hd.
      destruct (adjust_compare base_calories current_weight target_weight
                  days_to_goal session username current_date latest Hd Hl)
        as (_ & Hadj & Hdelta & Hreason & Hneeds).
      repeat split; eauto.
      eexists. split; [exact Hdelta|].
      unfold adjustment_of.
      destruct (Qltb 1.0 _); [now left|].
      destruct (Qltb _ (-1.0)); simpl; auto.
    + rewrite adjust_no_latest by assumption.
      simpl. repeat split; eauto.
Qed.

(** C9, as the specification states it, fails on each of the three
    paths: within three days and on the comparison path there is no
    [needs_weight_log]; within three days and without a weigh-in there
    is no adjustment. *)
Lemma adjustment_info_lacks_fields :
  ~ has_all_fields
      (snd (adjust_calories_based_on_progress 2500 180 150 3
              sample_session "alice" 105)) /\
  ~ has_all_fields
      (snd (adjust_calories_based_on_progress 2500 180 150 5
              sample_session "alice" 99)) /\
  ~ has_all_fields
      (snd (adjust_calories_based_on_progress 2500 180 150 5
              sample_session "alice" 105)).
Proof.
  repeat split; intros (_ & [z Hz] & _ & [b Hb]); discriminate.
Qed.

(** C10. The [current_weight] argument has no influence: two calls that
    differ in it alone return the same calories and the same
    dictionary. *)
Theorem adjust_ignores_current_weight
    (base_calories current_weight current_weight' target_weight : Q)
    (days_to_goal : Z) (session : list WeightLog.t) (username : string)
    (current_date : date) :
  adjust_calories_based_on_progress base_calories current_weight
    target_weight days_to_goal session username current_date
  = adjust_calories_based_on_progress base_calories current_weight'
      target_weight days_to_goal session username current_date.
Proof. reflexivity. Qed.

(** ** The BMR estimator *)

Lemma and_gt0_zero (q : Q) : q == 0 -> and_gt0 (Some q) = false.
Proof.
  intros H. destruct (and_gt0 (Some q)) eqn:E; [|reflexivity].
  apply and_gt0_Some in E. rewrite H in E.
  exfalso. exact (Qlt_irrefl _ E).
Qed.

Lemma bmr_katch (weight height bf : Q) :
  0 < bf ->
  calculate_bmr_and_calories weight height (Some bf)
  = katch_mcardle weight bf.
Proof.
  intros H. apply and_gt0_Some in H.
  unfold calculate_bmr_and_calories. now rewrite H.
Qed.

(** C4. With a body fat percentage that is present and above zero the
    BMR is the Katch-McArdle value; with one that is zero, or absent, it
    is the Mifflin-St Jeor value for age 30. This holds for every weight
    and height, the positive ones among them. *)
Theorem bmr_formula (weight height : Q) (bodyfat_percentage : option Q) :
  match bodyfat_percentage with
  | Some bf =>
      (0 < bf ->
       calculate_bmr_and_calories weight height bodyfat_percentage
       = katch_mcardle weight bf) /\
      (bf == 0 ->
       calculate_bmr_and_calories weight height bodyfat_percentage
       = mifflin_st_jeor weight height)
  | None =>
      calculate_bmr_and_calories weight height bodyfat_percentage
      = mifflin_st_jeor weight height
  end.
Proof.
  destruct bodyfat_percentage as [bf|]; [split|reflexivity].
  - apply bmr_katch.
  - intros H. apply and_gt0_zero in H.
    unfold calculate_bmr_and_calories. now rewrite H.
Qed.

Lemma bmr_formula_witness :
  calculate_bmr_and_calories 180 70 (Some 20) = katch_mcardle 180 20 /\
  calculate_bmr_and_calories 180 70 (Some 0.0) = mifflin_st_jeor 180 70.
Proof.
  split.
  - apply (bmr_formula 180 70 (Some 20)). reflexivity.
  - apply (bmr_formula 180 70 (Some 0.0)). reflexivity.
Defined.

(** C7, as the code has it. On its Katch-McArdle branch the BMR never
    falls when the weight grows, for a body fat of at most 100 percent,
    and never grows when the body fat grows, for a weight that is not
    negative. The order is not strict: at 100 percent body fat the BMR
    is 370 at every weight, and between neighbouring doubles rounding
    can leave it where it was. *)
Theorem bmr_katch_monotone (height : Q) :
  (forall bf w1 w2, 0 < bf -> bf <= 100 -> w1 <= w2 ->
     calculate_bmr_and_calories w1 height (Some bf)
     <= calculate_bmr_and_calories w2 height (Some bf)) /\
  (forall w bf1 bf2, 0 <= w -> 0 < bf1 -> bf1 <= bf2 ->
     calculate_bmr_and_calories w height (Some bf2)
     <= calculate_bmr_and_calories w height (Some bf1)).
Proof.
  split.
  - intros bf w1 w2 Hbf Hle Hw.
    rewrite !bmr_katch by assumption. unfold katch_mcardle.
    assert (Hc : 0 <= 0.453592 * (1 - bf / 100)).
    { apply Qmult_le_0_compat; [discriminate|].
      assert (1 - bf / 100 == (100 - bf) / 100) as -> by field.
      apply Qle_shift_div_l; [reflexivity|]. lra. }
    assert (Hm : w1 * (0.453592 * (1 - bf / 100))
                 <= w2 * (0.453592 * (1 - bf / 100)))
      by (apply Qmult_le_compat_r; assumption).
    rewrite <- !Qmult_assoc. lra.
  - intros w bf1 bf2 Hw Hbf1 Hle.
    assert (Hbf2 : 0 < bf2) by lra.
    rewrite !bmr_katch by assumption. unfold katch_mcardle.
    assert (Hc : 0 <= w * 0.453592)
      by (apply Qmult_le_0_compat; [assumption|discriminate]).
    assert (Hf : 1 - bf2 / 100 <= 1 - bf1 / 100).
    { assert (1 - bf2 / 100 == (100 - bf2) / 100) as -> by field.
      assert (1 - bf1 / 100 == (100 - bf1) / 100) as -> by field.
      apply Qmult_le_compat_r; [lra|discriminate]. }
    assert (Hm : (w * 0.453592) * (1 - bf2 / 100)
                 <= (w * 0.453592) * (1 - bf1 / 100)).
    { rewrite !(Qmult_comm (w * 0.453592)).
      apply Qmult_le_compat_r; assumption. }
    lra.
Qed.

Lemma bmr_katch_monotone_witness :
  calculate_bmr_and_calories 180 70 (Some 20)
  <= calculate_bmr_and_calories 181 70 (Some 20) /\
  calculate_bmr_and_calories 180 70 (Some 21)
  <= calculate_bmr_and_calories 180 70 (Some 20).
Proof.
  split.
  - apply (proj1 (bmr_katch_monotone 70) 20 180 181);
      first [reflexivity | discriminate].
  - apply (proj2 (bmr_katch_monotone 70) 180 20 21);
      first [reflexivity | discriminate].
Defined.

(** C7, as the specification states it, fails at 100 percent body fat,
    a value of the 0 to 100 range: the lean mass is zero and the BMR is
    370 at every weight. *)
Lemma bmr_katch_flat_at_100 :
  0 < 100 /\ 100 <= 100 /\ 0 < 150 /\ 150 < 200 /\
  calculate_bmr_and_calories 150 70 (Some 100) = katch_mcardle 150 100 /\
  calculate_bmr_and_calories 200 70 (Some 100) = katch_mcardle 200 100 /\
  ~ (calculate_bmr_and_calories 150 70 (Some 100)
     < calculate_bmr_and_calories 200 70 (Some 100)).
Proof.
  repeat split; try reflexivity; try discriminate.
Qed.

(** ** The targets of a page *)

(** Every field of the computed targets, in terms of the planning
    functions. *)
Lemma compute_targets_fields (weight height : Q)
    (bodyfat_percentage : option Q) (target_weight : Q) (target_date : date)
    (session : list WeightLog.t) (logged_in_user : string)
    (current_date : date) :
  let t := compute_targets weight height bodyfat_percentage target_weight
             target_date session logged_in_user current_date in
  let d := (target_date - current_date)%Z in
  let tier :=
    base_calories_and_fat_pct d
      (calculate_bmr_and_calories weight height bodyfat_percentage) in
  let adj :=
    adjust_calories_based_on_progress (fst tier) weight target_weight d
      session logged_in_user current_date in
  bmr t = calculate_bmr_and_calories weight height bodyfat_percentage /\
  lean_body_mass t = lean_body_mass_of weight bodyfat_percentage /\
  days_to_goal t = d /\
  base_calories t = fst tier /\
  fat_pct t = snd tier /\
  target_calories t = fst adj /\
  adjustment_info t = snd adj /\
  macros t = calculate_macros weight (fst adj) (snd tier) None
               (lean_body_mass_of weight bodyfat_percentage) /\
  micros t = calculate_micros d.
Proof.
  cbv zeta. unfold compute_targets.
  destruct (base_calories_and_fat_pct _ _) as [base fat].
  simpl fst. simpl snd.
  destruct (adjust_calories_based_on_progress _ _ _ _ _ _ _) as [tc info].
  simpl. repeat split; reflexivity.
Qed.

(** The four rows of the tier table. *)
Lemma base_calories_and_fat_pct_rows (d : Z) (b : Q) :
  (d = 3%Z -> base_calories_and_fat_pct d b = (b * 1.725, 0.25)) /\
  (d = 2%Z -> base_calories_and_fat_pct d b = (b * 1.55, 0.35)) /\
  (d = 1%Z -> base_calories_and_fat_pct d b = (b * 1.375, 0.45)) /\
  (d <> 3%Z -> d <> 2%Z -> d <> 1%Z ->
   base_calories_and_fat_pct d b = (b * 1.725, 0.25)).
Proof.
  unfold base_calories_and_fat_pct.
  split; [|split; [|split]]; try (intros ->; reflexivity).
  intros H3 H2 H1. apply Z.eqb_neq in H3, H2, H1. now rewrite H3, H2, H1.
Qed.

(** C5. The page takes the multiplier and the fat fraction by exact
    match on the signed day count: 3 gives 1.725 and 0.25, 2 gives 1.55
    and 0.35, 1 gives 1.375 and 0.45, every other integer gives 1.725
    and 0.25; the base calories are the BMR times the multiplier. *)
Theorem activity_tier_lookup (profile : UserProfile.t)
    (session : list WeightLog.t) (logged_in_user : string)
    (current_date : date) :
  let t := food_log_page profile session logged_in_user current_date in
  let d := (UserProfile.target_date profile - current_date)%Z in
  days_to_goal t = d /\
  (d = 3%Z -> base_calories t = bmr t * 1.725 /\ fat_pct t = 0.25) /\
  (d = 2%Z -> base_calories t = bmr t * 1.55 /\ fat_pct t = 0.35) /\
  (d = 1%Z -> base_calories t = bmr t * 1.375 /\ fat_pct t = 0.45) /\
  (d <> 3%Z -> d <> 2%Z -> d <> 1%Z ->
   base_calories t = bmr t * 1.725 /\ fat_pct t = 0.25).
Proof.
  cbv zeta. unfold food_log_page.
  destruct (compute_targets_fields (UserProfile.weight profile)
              (UserProfile.height profile)
              (UserProfile.bodyfat_percentage profile)
              (UserProfile.target_weight profile)
              (UserProfile.target_date profile)
              session logged_in_user current_date)
    as (Hbmr & _ & Hd & Hbase & Hfat & _).
  cbv zeta in Hbmr, Hd, Hbase, Hfat.
  rewrite Hd, Hbase, Hfat, Hbmr.
  destruct (base_calories_and_fat_pct_rows
              (UserProfile.target_date profile - current_date)
              (calculate_bmr_and_calories (UserProfile.weight profile)
                 (UserProfile.height profile)
                 (UserProfile.bodyfat_percentage profile)))
    as (R3 & R2 & R1 & R0).
  split; [reflexivity|].
  split; [|split; [|split]].
  - intros E. rewrite (R3 E). split; reflexivity.
  - intros E. rewrite (R2 E). split; reflexivity.
  - intros E. rewrite (R1 E). split; reflexivity.
  - intros E3 E2 E1. rewrite (R0 E3 E2 E1). split; reflexivity.
Qed.

Lemma activity_tier_lookup_witness :
  let t := food_log_page (UserProfile.Build 1 "alice" 180 175 100 107 None 70)
             sample_session "alice" 105 in
  base_calories t = bmr t * 1.55 /\ fat_pct t = 0.35.
Proof.
  apply (activity_tier_lookup
           (UserProfile.Build 1 "alice" 180 175 100 107 None 70)
           sample_session "alice" 105).
  reflexivity.
Defined.

(** The same rows hold in [profile_page]. *)
Lemma profile_page_tier (weight target_weight height : Q)
    (today_date target_date : date) (bodyfat_percentage : Q)
    (session : list WeightLog.t) (logged_in_user : string) (t : targets) :
  profile_page weight target_weight height today_date target_date
    bodyfat_percentage session logged_in_user = Some t ->
  (base_calories t, fat_pct t)
  = base_calories_and_fat_pct (target_date - today_date) (bmr t).
Proof.
  unfold profile_page. destruct (_ && _); [|discriminate].
  intros [= <-].
  destruct (compute_targets_fields weight height (Some bodyfat_percentage)
              target_weight target_date session logged_in_user today_date)
    as (Hbmr & _ & _ & Hbase & Hfat & _).
  cbv zeta in Hbmr, Hbase, Hfat. rewrite Hbase, Hfat, Hbmr.
  now destruct (base_calories_and_fat_pct _ _).
Qed.

(** ** The macro allocator *)

Example macros_negative_carbs :
  carb_calories (calculate_macros 180 600 0.25 None None) == -270.
Proof. reflexivity. Qed.

(** ** The planning functions in binary64 *)

Section B64Facts.

Import PrimFloat FloatOps SpecFloat FloatAxioms.
Local Open Scope float_scope.

(** *** Arithmetic of doubles *)

(** Adding the integer -200 is subtracting 200. *)
Lemma add_float_of_int_m200 (x : float) :
  x + B64.float_of_int (-200) = x - 200.
Proof.
  change (B64.float_of_int (-200)) with (-200).
  apply Prim2SF_inj. rewrite add_spec, sub_spec.
  change (Prim2SF (-200)) with (SFopp (Prim2SF 200)).
  set (y := Prim2SF 200). vm_compute in y. subst y.
  destruct (Prim2SF x) as [s|s| |s m e]; reflexivity.
Qed.

Lemma add_float_of_int_200 (x : float) :
  x + B64.float_of_int 200 = x + 200.
Proof. reflexivity. Qed.

(** Adding the integer 0 leaves a number equal to itself under [==];
    only the sign of [-0.0] is lost. *)
Lemma add_float_of_int_0 (x : float) :
  is_nan x = false -> (x + B64.float_of_int 0 =? x) = true.
Proof.
  change (B64.float_of_int 0) with 0.
  unfold is_nan. rewrite negb_false_iff. intros H.
  rewrite eqb_spec in *. rewrite add_spec.
  change (Prim2SF 0) with (S754_zero false).
  destruct (Prim2SF x) as [s|s| |s m e]; try exact H.
  destruct s; reflexivity.
Qed.

(** A difference below -1.0 is not above 1.0. *)
Lemma below_not_above (d : float) :
  (d <? -1.0) = true -> (1.0 <? d) = false.
Proof.
  rewrite !ltb_spec.
  set (one := Prim2SF 1.0). vm_compute in one.
  set (mone := Prim2SF (-1.0)). vm_compute in mone. subst one mone.
  destruct (Prim2SF d) as [s|s| |s m e]; try reflexivity.
  - destruct s; [reflexivity|discriminate].
  - destruct s; [reflexivity|]. discriminate.
Qed.

(** *** The weight-history query *)

Variables (username : string) (current_date : date).

Lemma b64_first_insert_desc (r : B64.WeightLog.t)
    (sorted : list B64.WeightLog.t) :
  exists e, B64.first (B64.insert_desc r sorted) = Some e /\
    (e = r \/ B64.first sorted = Some e) /\
    (B64.WeightLog.log_date r <= B64.WeightLog.log_date e)%Z /\
    (forall s, B64.first sorted = Some s ->
               (B64.WeightLog.log_date s <= B64.WeightLog.log_date e)%Z).
Proof.
  destruct sorted as [|s rest]; simpl.
  - exists r. repeat split; auto; [lia | discriminate].
  - destruct (Z.leb_spec (B64.WeightLog.log_date s) (B64.WeightLog.log_date r)).
    + exists r. simpl. repeat split; auto; [lia|].
      intros s' [= <-]. assumption.
    + exists s. simpl. repeat split; auto; [lia|].
      intros s' [= <-]. lia.
Qed.

Lemma b64_first_order_by (rows : list B64.WeightLog.t) :
  match B64.first (B64.order_by_log_date_desc rows) with
  | None => rows = []
  | Some e =>
      List.In e rows /\
      forall r, List.In r rows ->
                (B64.WeightLog.log_date r <= B64.WeightLog.log_date e)%Z
  end.
Proof.
  induction rows as [|r rows IH]; simpl; [reflexivity|].
  destruct (b64_first_insert_desc r (B64.order_by_log_date_desc rows))
    as (e & -> & Hsrc & Hr & Hs).
  destruct (B64.first (B64.order_by_log_date_desc rows)) as [e'|] eqn:E.
  - destruct IH as [Hin Hmax]. split.
    + destruct Hsrc as [->|[= ->]]; auto.
    + intros x [<-|Hx]; [assumption|].
      specialize (Hmax x Hx). specialize (Hs e' eq_refl). lia.
  - subst rows. destruct Hsrc as [->|Hsrc]; [|discriminate].
    split; [now left|]. intros x [<-|[]]. lia.
Qed.

Lemma b64_matches_filter (session : list B64.WeightLog.t)
    (r : B64.WeightLog.t) :
  List.In r (B64.filter_log_date_le current_date
               (B64.filter_by_username username session))
  <-> List.In r session /\ B64.matches username current_date r.
Proof.
  unfold B64.filter_log_date_le, B64.filter_by_username, B64.matches.
  rewrite !filter_In, String.eqb_eq, Z.leb_le. tauto.
Qed.

Lemma b64_latest_weight_log_Some (session : list B64.WeightLog.t)
    (e : B64.WeightLog.t) :
  B64.latest_weight_log session username current_date = Some e ->
  List.In e session /\ B64.matches username current_date e /\
  forall r, List.In r session -> B64.matches username current_date r ->
            (B64.WeightLog.log_date r <= B64.WeightLog.log_date e)%Z.
Proof.
  unfold B64.latest_weight_log. intros H.
  pose proof (b64_first_order_by
                (B64.filter_log_date_le current_date
                   (B64.filter_by_username username session))) as F.
  rewrite H in F. destruct F as [Hin Hmax].
  apply b64_matches_filter in Hin. destruct Hin as [Hin Hm].
  repeat split; try tauto; try apply Hm.
  intros r Hr Hmr. apply Hmax, b64_matches_filter. tauto.
Qed.

Lemma b64_latest_weight_log_None (session : list B64.WeightLog.t) :
  B64.latest_weight_log session username current_date = None <->
  forall r, List.In r session -> ~ B64.matches username current_date r.
Proof.
  unfold B64.latest_weight_log.
  pose proof (b64_first_order_by
                (B64.filter_log_date_le current_date
                   (B64.filter_by_username username session))) as F.
  split.
  - intros H. rewrite H in F. intros r Hr Hm.
    assert (Hin : List.In r (B64.filter_log_date_le current_date
                               (B64.filter_by_username username session)))
      by (apply b64_matches_filter; tauto).
    rewrite F in Hin. exact Hin.
  - intros H.
    destruct (B64.first _) as [e|]; [|reflexivity].
    destruct F as [Hin _]. apply b64_matches_filter in Hin.
    exfalso. exact (H e (proj1 Hin) (proj2 Hin)).
Qed.

Lemma b64_latest_weight_log_exists (session : list B64.WeightLog.t)
    (r : B64.WeightLog.t) :
  List.In r session -> B64.matches username current_date r ->
  exists e, B64.latest_weight_log session username current_date = Some e.
Proof.
  intros Hr Hm.
  destruct (B64.latest_weight_log session username current_date)
    as [e|] eqn:E.
  - now exists e.
  - exfalso. exact (proj1 (b64_latest_weight_log_None session) E r Hr Hm).
Qed.

(** *** The progress adjuster *)

(** On the comparison path the result is built from the row found. *)
Lemma b64_adjust_compare (base_calories current_weight target_weight : float)
    (days_to_goal : Z) (session : list B64.WeightLog.t)
    (latest : B64.WeightLog.t) :
  (3 < days_to_goal)%Z ->
  B64.latest_weight_log session username current_date = Some latest ->
  let stage := target_weight * 1.05 in
  let diff := B64.WeightLog.weight latest - stage in
  let adjustment :=
    fst (B64.adjustment_of (B64.WeightLog.weight latest) stage diff) in
  let result :=
    B64.adjust_calories_based_on_progress base_calories current_weight
      target_weight days_to_goal session username current_date in
  fst result = base_calories + B64.float_of_int adjustment /\
  snd result !! "adjusted" = Some (B64.PyBool (negb (adjustment =? 0)%Z)) /\
  snd result !! "adjustment" = Some (B64.PyInt adjustment) /\
  snd result !! "actual_weight"
  = Some (B64.PyFloat (B64.WeightLog.weight latest)) /\
  snd result !! "target_weight_at_stage" = Some (B64.PyFloat stage) /\
  snd result !! "difference" = Some (B64.PyFloat diff).
Proof.
  intros Hd Hl. cbv zeta. unfold B64.adjust_calories_based_on_progress.
  apply Z.leb_gt in Hd. rewrite Hd, Hl.
  destruct (B64.adjustment_of _ _ _) as [adjustment reason]. simpl.
  repeat split; eauto.
Qed.

End B64Facts.

Section B64Claims.

Import PrimFloat FloatOps SpecFloat FloatAxioms.
Local Open Scope float_scope.

Example b64_sample_above :
  B64.adjust_calories_based_on_progress 2500 180 150 5 B64.sample_session
    "alice" 105
  = (2300,
     {[ "adjusted" := B64.PyBool true;
        "adjustment" := B64.PyInt (-200);
        "reason" := B64.PyStr "Weight 1.5 lbs above target progression (159.0 vs 157.5 lbs)";
        "actual_weight" := B64.PyFloat 159.0;
        "target_weight_at_stage" := B64.PyFloat 157.5;
        "difference" := B64.PyFloat 1.5 ]}).
Proof. reflexivity. Qed.

(** Near the bounds the rounded difference decides. With target 102 the
    stage weight is the double 107.10000000000001, and a weigh-in of
    106.1 lies more than 1.0 below it; with target 84 and a weigh-in of
    89.2 the difference is the double 1.0, on the bound. *)
Example b64_rounded_difference :
  B64.adjust_calories_based_on_progress 2500 180 102 5
    [B64.WeightLog.Build 1 "alice" 100 106.1 ""] "alice" 105
  = (2700,
     {[ "adjusted" := B64.PyBool true;
        "adjustment" := B64.PyInt 200;
        "reason" := B64.PyStr "Weight 1.0 lbs below target progression (106.1 vs 107.1 lbs)";
        "actual_weight" := B64.PyFloat 106.1;
        "target_weight_at_stage" := B64.PyFloat 107.10000000000001;
        "difference" := B64.PyFloat (-1.0000000000000142) ]}) /\
  B64.adjust_calories_based_on_progress 2500 180 84 5
    [B64.WeightLog.Build 1 "alice" 100 89.2 ""] "alice" 105
  = (2500,
     {[ "adjusted" := B64.PyBool false;
        "adjustment" := B64.PyInt 0;
        "reason" := B64.PyStr "Weight on track (89.2 vs target 88.2 lbs)";
        "actual_weight" := B64.PyFloat 89.2;
        "target_weight_at_stage" := B64.PyFloat 88.2;
        "difference" := B64.PyFloat 1.0 ]}).
Proof. split; reflexivity. Qed.

(** C1. More than three days out and with a weigh-in of the user on or
    before the date viewed, the adjuster takes the latest such weigh-in
    and computes, in binary64, [expected = target_weight * 1.05] and
    [diff = weight - expected]. It returns the base calories minus 200
    (adjusted) when [diff > 1.0], plus 200 (adjusted) when
    [diff < -1.0], and otherwise, the bounds 1.0 and -1.0 included, the
    base calories plus the integer 0 (not adjusted), which is a number
    equal to the base calories. *)
Theorem adjust_compares_latest_weight
    (base_calories current_weight target_weight : float) (days_to_goal : Z)
    (session : list B64.WeightLog.t) (username : string) (current_date : date)
    (entry : B64.WeightLog.t) :
  (3 < days_to_goal)%Z ->
  List.In entry session -> B64.matches username current_date entry ->
  exists latest,
    B64.latest_weight_log session username current_date = Some latest /\
    List.In latest session /\ B64.matches username current_date latest /\
    (forall r, List.In r session -> B64.matches username current_date r ->
               (B64.WeightLog.log_date r <= B64.WeightLog.log_date latest)%Z) /\
    let expected := target_weight * 1.05 in
    let diff := B64.WeightLog.weight latest - expected in
    let result :=
      B64.adjust_calories_based_on_progress base_calories current_weight
        target_weight days_to_goal session username current_date in
    snd result !! "target_weight_at_stage" = Some (B64.PyFloat expected) /\
    snd result !! "difference" = Some (B64.PyFloat diff) /\
    ((1.0 <? diff) = true ->
       fst result = base_calories - 200 /\
       snd result !! "adjusted" = Some (B64.PyBool true)) /\
    ((diff <? -1.0) = true ->
       fst result = base_calories + 200 /\
       snd result !! "adjusted" = Some (B64.PyBool true)) /\
    ((1.0 <? diff) = false -> (diff <? -1.0) = false ->
       fst result = base_calories + 0 /\
       (is_nan base_calories = false ->
        (fst result =? base_calories) = true) /\
       snd result !! "adjusted" = Some (B64.PyBool false)) /\
    (diff = 1.0 \/ diff = -1.0 ->
       snd result !! "adjusted" = Some (B64.PyBool false)).
Proof.
  intros Hd Hin Hm.
  destruct (b64_latest_weight_log_exists username current_date session entry
              Hin Hm) as [latest Hl].
  exists latest. split; [exact Hl|].
  destruct (b64_latest_weight_log_Some username current_date session latest Hl)
    as (Hlin & Hlm & Hmax).
  repeat (split; [assumption|]).
  pose proof (b64_adjust_compare username current_date base_calories
                current_weight target_weight days_to_goal session latest
                Hd Hl) as A.
  cbv zeta in *. destruct A as (Hfst & Hadj & _ & _ & Hstage & Hdiff).
  rewrite Hfst, Hadj. clear Hfst Hadj.
  split; [exact Hstage|]. split; [exact Hdiff|].
  unfold B64.adjustment_of.
  split; [|split; [|split]].
  - intros H. rewrite H. cbn [fst].
    split; [apply add_float_of_int_m200|reflexivity].
  - intros H. rewrite (below_not_above _ H), H. cbn [fst].
    split; [apply add_float_of_int_200|reflexivity].
  - intros H1 H2. rewrite H1, H2. cbn [fst].
    split; [reflexivity|]. split; [|reflexivity].
    apply add_float_of_int_0.
  - intros [E|E]; rewrite E; reflexivity.
Qed.

(** The weigh-in of 106.1 against target 102: 200 more. *)
Lemma adjust_compares_latest_weight_witness :
  fst (B64.adjust_calories_based_on_progress 2500 180 102 5
         [B64.WeightLog.Build 1 "alice" 100 106.1 ""] "alice" 105)
  = 2500 + 200.
Proof.
  destruct (adjust_compares_latest_weight 2500 180 102 5
              [B64.WeightLog.Build 1 "alice" 100 106.1 ""]
              "alice" 105 (B64.WeightLog.Build 1 "alice" 100 106.1 ""))
    as (latest & Hl & _ & _ & _ & _ & _ & _ & Hbelow & _).
  - lia.
  - simpl. tauto.
  - split; [reflexivity | simpl; lia].
  - injection Hl as <-. apply Hbelow. reflexivity.
Defined.

(** *** The macro allocator *)

Example b64_macros_negative_carbs :
  B64.carb_calories (B64.calculate_macros 180 600 0.25 None None) = -270.
Proof. reflexivity. Qed.



(** *** The BMR estimator in binary64 *)

(** Between neighbouring doubles the Katch-McArdle BMR can stay the
    same: a step of the body fat from 20.0 to the next double, and a
    step of the weight from 150 to 151 at a body fat one double below
    100. *)
Example b64_bmr_katch_ties :
  (20.0 <? 20.000000000000004) = true /\
  B64.calculate_bmr_and_calories 180 70 (Some 20.0)
  = B64.calculate_bmr_and_calories 180 70 (Some 20.000000000000004) /\
  B64.calculate_bmr_and_calories 150 70 (Some 99.99999999999999)
  = B64.calculate_bmr_and_calories 151 70 (Some 99.99999999999999).
Proof. repeat split; reflexivity. Qed.

(** *** The day's plan, end to end *)

(** C8, as the code has it. A profile of 180 lbs, 70 in and 20 percent
    body fat with target weight 175 and the target date five days after
    the date viewed, for a user without a weigh-in on or before that
    date: the BMR is the Katch-McArdle value, the base calories are the
    BMR times 1.725, the target calories are the base calories (not
    adjusted), fiber is 30 g and sodium 2300 mg, and the protein target
    is the binary64 value of (180 * 0.8) * 1.2, which is
    172.79999999999998, the double next below 172.8. *)
Theorem daily_plan_end_to_end (id : Z) (today_date current_date : date)
    (session : list B64.WeightLog.t) (logged_in_user : string) :
  (forall r, List.In r session ->
             ~ B64.matches logged_in_user current_date r) ->
  let profile := B64.sample_profile id logged_in_user today_date current_date in
  let t := B64.food_log_page profile session logged_in_user current_date in
  B64.bmr t = 370 + 21.6 * (180 * 0.453592 * (1 - 20 / 100)) /\
  B64.base_calories t = B64.bmr t * 1.725 /\
  B64.target_calories t = B64.base_calories t /\
  B64.target_calories t = 3071.9706604800003 /\
  B64.adjustment_info t !! "adjusted" = Some (B64.PyBool false) /\
  B64.adjustment_info t !! "needs_weight_log" = Some (B64.PyBool true) /\
  fiber_grams (B64.micros t) = 30%Z /\
  sodium_mg (B64.micros t) = 2300%Z /\
  B64.protein_grams (B64.macros t) = (180 * 0.8) * 1.2 /\
  B64.protein_grams (B64.macros t) = 172.79999999999998.
Proof.
  intros Hnone. cbv zeta.
  apply b64_latest_weight_log_None in Hnone.
  unfold B64.food_log_page, B64.sample_profile.
  cbn [B64.UserProfile.weight B64.UserProfile.height
       B64.UserProfile.bodyfat_percentage B64.UserProfile.target_weight
       B64.UserProfile.target_date].
  replace (current_date + 5 - current_date)%Z with 5%Z by lia.
  unfold B64.adjust_calories_based_on_progress. rewrite Hnone.
  repeat split; reflexivity.
Qed.

Lemma daily_plan_end_to_end_witness :
  let t := B64.food_log_page (B64.sample_profile 1 "alice" 96 99)
             B64.sample_session "alice" 99 in
  B64.target_calories t = 3071.9706604800003 /\
  B64.protein_grams (B64.macros t) = 172.79999999999998.
Proof.
  destruct (daily_plan_end_to_end 1 96 99 B64.sample_session "alice")
    as (_ & _ & _ & Htarget & _ & _ & _ & _ & _ & Hprotein).
  - intros r Hr [Hu Hdate]. simpl in Hr.
    destruct Hr as [<-|[<-|[<-|[<-|[]]]]]; simpl in Hu, Hdate;
      try discriminate; lia.
  - cbv zeta. split; [exact Htarget|exact Hprotein].
Defined.

(** C8, as the specification states it, fails in its last figure: the
    protein target is not 172.8. *)
Lemma daily_plan_protein_is_not_172_8 :
  let t := B64.food_log_page (B64.sample_profile 1 "alice" 96 99)
             B64.sample_session "alice" 99 in
  (B64.protein_grams (B64.macros t) =? 172.8) = false /\
  (B64.protein_grams (B64.macros t) <? 172.8) = true.
Proof. split; reflexivity. Qed.

End B64Claims.

(** * Part III: further properties of the planner *)

(** ** Body fat at the end of its range *)

(** X2. At a body fat of 100 percent the lean body mass is zero, which
    the allocator takes for a missing one: the protein target of the
    food log falls back to one gram per pound of body weight. *)
Theorem protein_falls_back_at_zero_lean_mass (profile : UserProfile.t)
    (session : list WeightLog.t) (logged_in_user : string)
    (current_date : date) (bf : Q) :
  UserProfile.bodyfat_percentage profile = Some bf -> bf == 100 ->
  let t := food_log_page profile session logged_in_user current_date in
  lean_body_mass t = Some (UserProfile.weight profile * (1 - bf / 100)) /\
  protein_grams (macros t) = UserProfile.weight profile.
Proof.
  intros Hbf H100. cbv zeta. unfold food_log_page. rewrite Hbf.
  destruct (compute_targets_fields (UserProfile.weight profile)
              (UserProfile.height profile) (Some bf)
              (UserProfile.target_weight profile)
              (UserProfile.target_date profile)
              session logged_in_user current_date)
    as (_ & Hlean & _ & _ & _ & _ & _ & Hmacros & _).
  cbv zeta in Hlean, Hmacros. rewrite Hlean, Hmacros.
  assert (Hpos : and_gt0 (Some bf) = true)
    by (apply and_gt0_Some; rewrite H100; reflexivity).
  unfold lean_body_mass_of. rewrite Hpos. split; [reflexivity|].
  unfold calculate_macros. cbn [protein_grams].
  assert (Hz : truthy (Some (UserProfile.weight profile * (1 - bf / 100)))
               = false).
  { unfold truthy. apply negb_false_iff, Qeq_bool_iff.
    rewrite H100. field. }
  now rewrite Hz.
Qed.

Lemma protein_falls_back_at_zero_lean_mass_witness :
  protein_grams
    (macros (food_log_page
               (UserProfile.Build 1 "alice" 180 175 100 107 (Some 100) 70)
               sample_session "alice" 105)) = 180.
Proof.
  apply (protein_falls_back_at_zero_lean_mass
           (UserProfile.Build 1 "alice" 180 175 100 107 (Some 100) 70)
           sample_session "alice" 105 100); reflexivity.
Defined.

(** X3. With a positive body fat percentage the BMR does not depend on
    the height, and for a weight that is not negative and a body fat of
    at most 100 percent it is at least 370. *)
Theorem bmr_katch_ignores_height (weight height height' bf : Q) :
  0 < bf ->
  calculate_bmr_and_calories weight height (Some bf)
  = calculate_bmr_and_calories weight height' (Some bf) /\
  (0 <= weight -> bf <= 100 ->
   370 <= calculate_bmr_and_calories weight height (Some bf)).
Proof.
  intros Hbf. rewrite !bmr_katch by assumption. split; [reflexivity|].
  intros Hw H100. unfold katch_mcardle.
  assert (Hf : 0 <= 1 - bf / 100).
  { assert (1 - bf / 100 == (100 - bf) / 100) as -> by field.
    apply Qle_shift_div_l; [reflexivity|]. lra. }
  assert (Hk : 0 <= weight * 0.453592)
    by (apply Qmult_le_0_compat; [assumption|discriminate]).
  pose proof (Qmult_le_0_compat _ _ Hk Hf). lra.
Qed.

Lemma bmr_katch_ignores_height_witness :
  calculate_bmr_and_calories 180 70 (Some 20)
  = calculate_bmr_and_calories 180 60 (Some 20).
Proof.
  apply (bmr_katch_ignores_height 180 70 60 20). reflexivity.
Defined.

(** ** The progress adjuster, continued *)

Lemma adjustment_of_values (actual stage diff : Q) :
  let a := fst (adjustment_of actual stage diff) in
  a = (-200)%Z \/ a = 0%Z \/ a = 200%Z.
Proof.
  cbv zeta. unfold adjustment_of.
  destruct (Qltb 1.0 diff); [now left|].
  destruct (Qltb diff (-1.0)); simpl; auto.
Qed.

Lemma adjustment_of_antitone (actual actual' stage stage' diff diff' : Q) :
  diff <= diff' ->
  (fst (adjustment_of actual' stage' diff')
   <= fst (adjustment_of actual stage diff))%Z.
Proof.
  intros Hle. unfold adjustment_of.
  destruct (Qltb 1.0 diff') eqn:A'; destruct (Qltb 1.0 diff) eqn:A;
    destruct (Qltb diff' (-1.0)) eqn:B'; destruct (Qltb diff (-1.0)) eqn:B;
    simpl; try lia;
    repeat match goal with
      | H : Qltb _ _ = true |- _ => apply Qltb_lt in H
      | H : Qltb _ _ = false |- _ => apply Qltb_ge in H
      end; lra.
Qed.

(** X4. On every path the dictionary has the [adjusted] flag. When it is
    false the calories returned are the base calories; when it is true
    they are the base calories with 200 taken off or put on, and the
    dictionary says which under [adjustment]. *)
Theorem adjusted_flag_tells_change
    (base_calories current_weight target_weight : Q) (days_to_goal : Z)
    (session : list WeightLog.t) (username : string) (current_date : date) :
  let result :=
    adjust_calories_based_on_progress base_calories current_weight
      target_weight days_to_goal session username current_date in
  (snd result !! "adjusted" = Some (PyBool false) /\
   fst result = base_calories /\
   (snd result !! "adjustment" = None \/
    snd result !! "adjustment" = Some (PyInt 0))) \/
  (snd result !! "adjusted" = Some (PyBool true) /\
   ((fst result = base_calories - 200 /\
     snd result !! "adjustment" = Some (PyInt (-200))) \/
    (fst result = base_calories + 200 /\
     snd result !! "adjustment" = Some (PyInt 200)))).
Proof.
  cbv zeta.
  destruct (days_to_goal <=? 3)%Z eqn:Hd.
  - rewrite adjust_standard_protocol by assumption. simpl.
    left. repeat split. now left.
  - destruct (latest_weight_log session username current_date)
      as [latest|] eqn:Hl.
    + apply Z.leb_gt in Hd.
      destruct (adjust_compare base_calories current_weight target_weight
                  days_to_goal session username current_date latest Hd Hl)
        as (Hfst & Hadj & Hdelta & _).
      cbv zeta in Hfst, Hadj, Hdelta. rewrite Hfst, Hadj, Hdelta.
      destruct (adjustment_of_values (WeightLog.weight latest)
                  (target_weight * 1.05)
                  (WeightLog.weight latest - target_weight * 1.05))
        as [-> | [-> | ->]].
      * right. split; [reflexivity|]. left. split; reflexivity.
      * left. rewrite Qplus_0_r_eq. repeat split. now right.
      * right. split; [reflexivity|]. right. split; reflexivity.
    + rewrite adjust_no_latest by assumption. simpl.
      left. repeat split. now left.
Qed.

(** X5. The adjuster is monotone: of two calls with the same base
    calories and day count, the one whose latest weigh-in is heavier,
    or whose target weight is lower, never gets more calories. *)
Theorem adjust_monotone
    (base_calories current_weight current_weight' target_weight
       target_weight' : Q) (days_to_goal : Z)
    (session session' : list WeightLog.t) (username username' : string)
    (current_date current_date' : date) (latest latest' : WeightLog.t) :
  latest_weight_log session username current_date = Some latest ->
  latest_weight_log session' username' current_date' = Some latest' ->
  WeightLog.weight latest <= WeightLog.weight latest' ->
  target_weight' <= target_weight ->
  fst (adjust_calories_based_on_progress base_calories current_weight'
         target_weight' days_to_goal session' username' current_date')
  <= fst (adjust_calories_based_on_progress base_calories current_weight
            target_weight days_to_goal session username current_date).
Proof.
  intros Hl Hl' Hw Ht.
  destruct (days_to_goal <=? 3)%Z eqn:Hd.
  - rewrite !adjust_standard_protocol by assumption. simpl. lra.
  - apply Z.leb_gt in Hd.
    destruct (adjust_compare base_calories current_weight target_weight
                days_to_goal session username current_date latest Hd Hl)
      as (-> & _).
    destruct (adjust_compare base_calories current_weight' target_weight'
                days_to_goal session' username' current_date' latest' Hd Hl')
      as (-> & _).
    apply Qplus_le_r. rewrite <- Zle_Qle.
    apply adjustment_of_antitone. lra.
Qed.

Lemma adjust_monotone_witness :
  fst (adjust_calories_based_on_progress 2500 180 150 5
         sample_session "alice" 100)
  <= fst (adjust_calories_based_on_progress 2500 180 150 5
            sample_session "alice" 105).
Proof.
  apply (adjust_monotone 2500 180 180 150 150 5 sample_session sample_session
           "alice" "alice" 105 100
           (WeightLog.Build 3 "alice" 103 159.0 "morning")
           (WeightLog.Build 1 "alice" 100 160.0 ""));
    try reflexivity; discriminate.
Defined.

(** ** Tiers and adjustment together *)

(** X6. A day whose calories are adjusted is always more than three
    days out, so it runs on the default tier: multiplier 1.725, fat
    fraction 0.25, fiber 30 g and sodium 2300 mg. On the days with
    reduced fiber and sodium the target calories are the base
    calories. *)
Theorem adjusted_day_has_default_tier (profile : UserProfile.t)
    (session : list WeightLog.t) (logged_in_user : string)
    (current_date : date) :
  let t := food_log_page profile session logged_in_user current_date in
  (adjustment_info t !! "adjusted" = Some (PyBool true) ->
   (3 < days_to_goal t)%Z /\
   base_calories t = bmr t * 1.725 /\ fat_pct t = 0.25 /\
   micros t = {| fiber_grams := 30; sodium_mg := 2300 |}) /\
  ((fiber_grams (micros t) < 30)%Z ->
   target_calories t = base_calories t).
Proof.
  cbv zeta. unfold food_log_page.
  destruct (compute_targets_fields (UserProfile.weight profile)
              (UserProfile.height profile)
              (UserProfile.bodyfat_percentage profile)
              (UserProfile.target_weight profile)
              (UserProfile.target_date profile)
              session logged_in_user current_date)
    as (Hbmr & _ & Hd & Hbase & Hfat & Htarget & Hinfo & _ & Hmicros).
  cbv zeta in Hbmr, Hd, Hbase, Hfat, Htarget, Hinfo, Hmicros.
  rewrite Hd, Hbase, Hfat, Htarget, Hinfo, Hmicros, Hbmr.
  set (d := (UserProfile.target_date profile - current_date)%Z).
  destruct (d <=? 3)%Z eqn:Hle.
  - rewrite adjust_standard_protocol by assumption.
    split; [intros H; discriminate H|reflexivity].
  - apply Z.leb_gt in Hle. split.
    + intros _. split; [assumption|].
      destruct (base_calories_and_fat_pct_rows d
                  (calculate_bmr_and_calories (UserProfile.weight profile)
                     (UserProfile.height profile)
                     (UserProfile.bodyfat_percentage profile)))
        as (_ & _ & _ & R0).
      rewrite R0 by lia. repeat split.
      unfold calculate_micros.
      destruct (Z.eqb_spec d 3); [lia|].
      destruct (Z.eqb_spec d 2); [lia|].
      destruct (Z.eqb_spec d 1); [lia|]. reflexivity.
    + unfold calculate_micros.
      destruct (Z.eqb_spec d 3); [lia|].
      destruct (Z.eqb_spec d 2); [lia|].
      destruct (Z.eqb_spec d 1); [lia|]. simpl. lia.
Qed.

Lemma adjusted_day_has_default_tier_witness :
  let t := food_log_page (UserProfile.Build 1 "alice" 180 150 100 110 None 70)
             sample_session "alice" 105 in
  (3 < days_to_goal t)%Z /\
  base_calories t = bmr t * 1.725 /\ fat_pct t = 0.25 /\
  micros t = {| fiber_grams := 30; sodium_mg := 2300 |}.
Proof.
  apply (adjusted_day_has_default_tier
           (UserProfile.Build 1 "alice" 180 150 100 110 None 70)
           sample_session "alice" 105).
  reflexivity.
Defined.

(** ** The target line of the chart *)

(** X7. Whenever the adjuster compares, the weight it compares with is
    the value of the chart's target line for that day count, and the
    difference it reports is the weigh-in minus that value. *)
Theorem adjuster_compares_with_target_line
    (base_calories current_weight target_weight : Q) (days_to_goal : Z)
    (session : list WeightLog.t) (username : string) (current_date : date)
    (latest : WeightLog.t) :
  (3 < days_to_goal)%Z ->
  latest_weight_log session username current_date = Some latest ->
  let info :=
    snd (adjust_calories_based_on_progress base_calories current_weight
           target_weight days_to_goal session username current_date) in
  info !! "target_weight_at_stage"
  = Some (PyFloat (daily_target days_to_goal target_weight)) /\
  info !! "difference"
  = Some (PyFloat (WeightLog.weight latest
                   - daily_target days_to_goal target_weight)) /\
  info !! "actual_weight" = Some (PyFloat (WeightLog.weight latest)).
Proof.
  intros Hd Hl. cbv zeta. unfold adjust_calories_based_on_progress.
  unfold daily_target.
  assert (H3 : (3 <=? days_to_goal)%Z = true) by (apply Z.leb_le; lia).
  apply Z.leb_gt in Hd. rewrite Hd, Hl, H3.
  destruct (adjustment_of _ _ _) as [adjustment reason]. simpl.
  repeat split.
Qed.

Lemma adjuster_compares_with_target_line_witness :
  snd (adjust_calories_based_on_progress 2500 180 150 5
         sample_session "alice" 105) !! "target_weight_at_stage"
  = Some (PyFloat (daily_target 5 150)).
Proof.
  apply (adjuster_compares_with_target_line 2500 180 150 5 sample_session
           "alice" 105 (WeightLog.Build 3 "alice" 103 159.0 "morning"));
    [lia|reflexivity].
Defined.

(** X8. For a target weight that is not negative the target line never
    rises as the target date comes closer, and it stays between the
    target weight and the target weight plus 5 percent. *)
Theorem daily_target_monotone (target_weight : Q) (d d' : Z) :
  0 <= target_weight -> (d <= d')%Z ->
  daily_target d target_weight <= daily_target d' target_weight /\
  target_weight <= daily_target d target_weight <= target_weight * 1.05.
Proof.
  intros Hw Hd. unfold daily_target.
  destruct (Z.leb_spec 3 d); destruct (Z.leb_spec 3 d');
    destruct (Z.eqb_spec d 2); destruct (Z.eqb_spec d 1);
    destruct (Z.eqb_spec d' 2); destruct (Z.eqb_spec d' 1);
    try lia; repeat split; lra.
Qed.

Lemma daily_target_monotone_witness :
  daily_target 1 150 <= daily_target 2 150.
Proof.
  apply (daily_target_monotone 150 1 2); [discriminate|lia].
Defined.

(** * Part IV: the weight log *)

(** ** Lists of rows *)

Section RowFacts.

Context {A : Type}.

Lemma filter_filter_andb (p q : A -> bool) (l : list A) :
  List.filter q (List.filter p l) = List.filter (fun r => p r && q r) l.
Proof.
  induction l as [|a l IH]; simpl; [reflexivity|].
  destruct (p a); simpl; [destruct (q a)|]; now rewrite IH.
Qed.

Lemma filter_all_true (p : A -> bool) (l : list A) :
  (forall r, List.In r l -> p r = true) -> List.filter p l = l.
Proof.
  induction l as [|a l IH]; simpl; intros H; [reflexivity|].
  rewrite (H a) by now left. f_equal. apply IH. intros r Hr. apply H.
  now right.
Qed.

Lemma NoDup_map_eq {B : Type} (key : A -> B) (l : list A) (a b : A) :
  List.NoDup (List.map key l) -> List.In a l -> List.In b l ->
  key a = key b -> a = b.
Proof.
  induction l as [|x l IH]; simpl; intros Hnd Ha Hb Hk; [contradiction|].
  inversion Hnd as [|? ? Hnotin Hnd']; subst.
  destruct Ha as [<-|Ha]; destruct Hb as [<-|Hb]; auto.
  - exfalso. apply Hnotin. rewrite Hk. now apply in_map.
  - exfalso. apply Hnotin. rewrite <- Hk. now apply in_map.
Qed.

End RowFacts.

Lemma query_filter (username : string) (current_date : date)
    (session : list WeightLog.t) :
  filter_log_date_le current_date (filter_by_username username session)
  = List.filter
      (fun r => String.eqb (WeightLog.username r) username
                && (WeightLog.log_date r <=? current_date)%Z) session.
Proof. apply filter_filter_andb. Qed.

Lemma latest_weight_log_ext (session session' : list WeightLog.t)
    (username : string) (current_date : date) :
  filter_log_date_le current_date (filter_by_username username session')
  = filter_log_date_le current_date (filter_by_username username session) ->
  latest_weight_log session' username current_date
  = latest_weight_log session username current_date.
Proof. unfold latest_weight_log. now intros ->. Qed.

(** ** The row of the day *)

Lemma on_day_spec (username : string) (d : date) (r : WeightLog.t) :
  on_day username d r = true
  <-> WeightLog.username r = username /\ WeightLog.log_date r = d.
Proof.
  unfold on_day. now rewrite andb_true_iff, String.eqb_eq, Z.eqb_eq.
Qed.

Lemma existing_weight_log_None (session : list WeightLog.t)
    (username : string) (d : date) :
  existing_weight_log session username d = None
  <-> forall r, List.In r session -> on_day username d r = false.
Proof.
  unfold existing_weight_log. induction session as [|a l IH]; simpl.
  - split; [intros _ r []|reflexivity].
  - destruct (on_day username d a) eqn:E; simpl.
    + split; [discriminate|]. intros H. specialize (H a (or_introl eq_refl)).
      congruence.
    + rewrite IH. split.
      * intros H r [<-|Hr]; auto.
      * intros H r Hr. apply H. now right.
Qed.

Lemma update_first_keys (p : WeightLog.t -> bool) (w : Q) (n : string)
    (rows : list WeightLog.t) :
  List.map (fun r => (WeightLog.username r, WeightLog.log_date r))
    (update_first p (set_weight w n) rows)
  = List.map (fun r => (WeightLog.username r, WeightLog.log_date r)) rows.
Proof.
  induction rows as [|r rows IH]; simpl; [reflexivity|].
  destruct (p r); simpl; [reflexivity|]. now rewrite IH.
Qed.

Lemma update_first_filter (p q : WeightLog.t -> bool)
    (f : WeightLog.t -> WeightLog.t) (rows : list WeightLog.t) :
  (forall r, p r = true -> q r = false /\ q (f r) = false) ->
  List.filter q (update_first p f rows) = List.filter q rows.
Proof.
  intros H. induction rows as [|r rows IH]; simpl; [reflexivity|].
  destruct (p r) eqn:E; simpl.
  - destruct (H r E) as [-> ->]. reflexivity.
  - now rewrite IH.
Qed.

Lemma update_first_In (p : WeightLog.t -> bool)
    (f : WeightLog.t -> WeightLog.t) (rows : list WeightLog.t) :
  (exists r, List.In r rows /\ p r = true) ->
  exists r, List.In r rows /\ p r = true /\
            List.In (f r) (update_first p f rows).
Proof.
  induction rows as [|a rows IH]; simpl; intros (r & Hr & Hp);
    [contradiction|].
  destruct (p a) eqn:E.
  - exists a. simpl. auto.
  - destruct Hr as [<-|Hr]; [congruence|].
    destruct IH as (r' & Hr' & Hp' & Hin); [eauto|].
    exists r'. simpl. auto.
Qed.

(** The row the form has written is in the table. *)
Lemma save_weight_In (session : list WeightLog.t) (user : string)
    (d : date) (w : Q) (n : string) :
  exists e, List.In e (save_weight session user d w n) /\
            WeightLog.username e = user /\ WeightLog.log_date e = d /\
            WeightLog.weight e = w /\ WeightLog.notes e = n.
Proof.
  unfold save_weight.
  destruct (existing_weight_log session user d) as [r0|] eqn:E.
  - destruct (update_first_In (on_day user d) (set_weight w n) session)
      as (r & Hr & Hp & Hin).
    + destruct (List.filter (on_day user d) session) as [|x l] eqn:F;
        [unfold existing_weight_log in E; rewrite F in E; discriminate|].
      assert (Hx : List.In x (List.filter (on_day user d) session))
        by (rewrite F; now left).
      apply filter_In in Hx. exists x. exact Hx.
    + apply on_day_spec in Hp. destruct Hp as [Hu Hd].
      exists (set_weight w n r). simpl. auto.
  - eexists. split; [apply in_or_app; right; now left|]. simpl. auto.
Qed.

(** ** Saving a weight *)

(** The form keeps the one-row-a-day rule. *)
Lemma save_weight_unique_aux (session : list WeightLog.t)
    (logged_in_user : string) (current_date : date) (current_weight : Q)
    (weight_notes : string) :
  unique_per_day session ->
  unique_per_day (save_weight session logged_in_user current_date
                    current_weight weight_notes).
Proof.
  unfold unique_per_day, save_weight. intros Hnd.
  destruct (existing_weight_log session logged_in_user current_date)
    as [r0|] eqn:E.
  - now rewrite update_first_keys.
  - rewrite List.map_app. simpl.
    apply List.NoDup_app; [assumption|repeat constructor; now intros []|].
    intros k Hk Hk'. destruct Hk' as [<-|[]].
    apply in_map_iff in Hk. destruct Hk as (r & Hkey & Hr).
    injection Hkey as Hu Hd.
    pose proof (proj1 (existing_weight_log_None _ _ _) E r Hr) as Hoff.
    assert (Hon : on_day logged_in_user current_date r = true)
      by now apply on_day_spec.
    congruence.
Qed.

(** The first row that passes a filter, with the rows around it. *)
Lemma update_first_split (p : WeightLog.t -> bool)
    (f : WeightLog.t -> WeightLog.t) (rows : list WeightLog.t)
    (r : WeightLog.t) :
  first (List.filter p rows) = Some r ->
  exists before after,
    rows = (before ++ r :: after)%list /\
    (forall x, List.In x before -> p x = false) /\ p r = true /\
    update_first p f rows = (before ++ f r :: after)%list.
Proof.
  induction rows as [|a rows IH]; simpl; [discriminate|].
  destruct (p a) eqn:E; simpl.
  - intros [= <-]. exists [], rows. simpl. repeat split; auto.
    intros x [].
  - intros H. destruct (IH H) as (before & after & -> & Hb & Hp & Hu).
    exists (a :: before), after. simpl. rewrite Hu.
    repeat split; auto. intros x [<-|Hx]; auto.
Qed.

(** With one row a day at most, no row after the day's row is of the
    day. *)
Lemma unique_per_day_after (before after : list WeightLog.t)
    (r : WeightLog.t) (user : string) (d : date) :
  unique_per_day (before ++ r :: after)%list ->
  on_day user d r = true ->
  forall x, List.In x after -> on_day user d x = false.
Proof.
  unfold unique_per_day. rewrite List.map_app. simpl. intros Hnd Hr x Hx.
  apply List.NoDup_remove_2 in Hnd.
  destruct (on_day user d x) eqn:E; [|reflexivity].
  exfalso. apply Hnd. apply in_or_app. right.
  apply on_day_spec in Hr, E. destruct Hr as [<- <-], E as [Eu Ed].
  rewrite <- Eu, <- Ed.
  apply (in_map (fun r => (WeightLog.username r, WeightLog.log_date r))).
  exact Hx.
Qed.

Lemma filter_none {A : Type} (p : A -> bool) (l : list A) :
  (forall x, List.In x l -> p x = false) -> List.filter p l = [].
Proof.
  induction l as [|a l IH]; simpl; intros H; [reflexivity|].
  rewrite (H a (or_introl eq_refl)). apply IH. auto.
Qed.

(** X9. Saving a weight keeps the table at one row at most for a user
    and a day. When the day has a row, that row is overwritten in
    place: it keeps its key, user and date and takes the weight and the
    notes of the form, and every other row stays as it was. When the
    day has none, one row with the values of the form is added at the
    end. Either way the day then has exactly one row, the one saved. *)
Theorem save_weight_unique_per_day (session : list WeightLog.t)
    (logged_in_user : string) (current_date : date) (current_weight : Q)
    (weight_notes : string) :
  unique_per_day session ->
  let session' :=
    save_weight session logged_in_user current_date current_weight
      weight_notes in
  unique_per_day session' /\
  match existing_weight_log session logged_in_user current_date with
  | Some r =>
      exists before after,
        session = (before ++ r :: after)%list /\
        session'
        = (before
             ++ WeightLog.Build (WeightLog.id r) logged_in_user current_date
                  current_weight weight_notes :: after)%list
  | None =>
      session'
      = (session
           ++ [WeightLog.Build (fresh_id session) logged_in_user
                 current_date current_weight weight_notes])%list
  end /\
  exists saved,
    List.filter (on_day logged_in_user current_date) session' = [saved] /\
    WeightLog.weight saved = current_weight /\
    WeightLog.notes saved = weight_notes.
Proof.
  intros Hnd. cbv zeta.
  split; [now apply save_weight_unique_aux|].
  unfold save_weight.
  destruct (existing_weight_log session logged_in_user current_date)
    as [r|] eqn:E.
  - destruct (update_first_split (on_day logged_in_user current_date)
                (set_weight current_weight weight_notes) session r E)
      as (before & after & Hs & Hb & Hp & Hu).
    rewrite Hu. subst session.
    pose proof (unique_per_day_after before after r logged_in_user
                  current_date Hnd Hp) as Ha.
    apply on_day_spec in Hp. destruct Hp as [Hpu Hpd].
    assert (Hset : set_weight current_weight weight_notes r
                   = WeightLog.Build (WeightLog.id r) logged_in_user
                       current_date current_weight weight_notes)
      by (unfold set_weight; f_equal; assumption).
    rewrite Hset. split.
    + exists before, after. split; reflexivity.
    + exists (WeightLog.Build (WeightLog.id r) logged_in_user current_date
                current_weight weight_notes).
      split; [|split; reflexivity].
      rewrite List.filter_app. cbn [List.filter].
      rewrite (filter_none _ before Hb), (filter_none _ after Ha).
      unfold on_day. cbn [WeightLog.username WeightLog.log_date].
      now rewrite String.eqb_refl, Z.eqb_refl.
  - split; [reflexivity|].
    exists (WeightLog.Build (fresh_id session) logged_in_user current_date
              current_weight weight_notes).
    split; [|split; reflexivity].
    rewrite List.filter_app. cbn [List.filter].
    rewrite (filter_none _ session
               (proj1 (existing_weight_log_None _ _ _) E)).
    unfold on_day. cbn [WeightLog.username WeightLog.log_date].
    now rewrite String.eqb_refl, Z.eqb_refl.
Qed.

(** The row of day 103 is overwritten where it stands. *)
Lemma save_weight_unique_per_day_witness :
  save_weight sample_session "alice" 103 158.0 "evening"
  = [ WeightLog.Build 1 "alice" 100 160.0 "";
      WeightLog.Build 2 "bob" 104 140.0 "";
      WeightLog.Build 3 "alice" 103 158.0 "evening";
      WeightLog.Build 4 "alice" 107 150.0 "" ] /\
  unique_per_day (save_weight sample_session "alice" 103 158.0 "evening").
Proof.
  destruct (save_weight_unique_per_day sample_session "alice" 103 158.0
              "evening") as (Hu & _ & _).
  - unfold unique_per_day. simpl.
    repeat (constructor; [simpl; intuition congruence|]). constructor.
  - split; [reflexivity|exact Hu].
Defined.

(** The row the query finds after a save is the row saved. *)
Lemma save_weight_then_latest_aux (session : list WeightLog.t)
    (logged_in_user : string) (current_date : date) (current_weight : Q)
    (weight_notes : string) :
  unique_per_day session ->
  exists latest,
    latest_weight_log
      (save_weight session logged_in_user current_date current_weight
         weight_notes) logged_in_user current_date = Some latest /\
    WeightLog.log_date latest = current_date /\
    WeightLog.weight latest = current_weight /\
    WeightLog.notes latest = weight_notes.
Proof.
  intros Hnd.
  pose proof (save_weight_unique_aux session logged_in_user current_date
                current_weight weight_notes Hnd) as Hnd'.
  destruct (save_weight_In session logged_in_user current_date current_weight
              weight_notes) as (e & Hin & Hu & Hd & Hw & Hn).
  set (session' := save_weight session logged_in_user current_date
                     current_weight weight_notes) in *.
  assert (Hm : matches logged_in_user current_date e)
    by (split; [assumption|lia]).
  destruct (latest_weight_log_exists logged_in_user current_date session' e
              Hin Hm) as [latest Hl].
  destruct (latest_weight_log_Some logged_in_user current_date session'
              latest Hl) as (Hlin & [Hlu Hld] & Hmax).
  specialize (Hmax e Hin Hm).
  assert (latest = e) as ->.
  { apply (NoDup_map_eq
             (fun r => (WeightLog.username r, WeightLog.log_date r))
             session'); try assumption.
    f_equal; [congruence|lia]. }
  exists e. auto.
Qed.

(** X10. After a weight is saved for a day, the weight-history query for
    that day returns the weight just saved, whether the day had a row
    before or not. *)
Theorem save_weight_then_latest (session : list WeightLog.t)
    (logged_in_user : string) (current_date : date) (current_weight : Q)
    (weight_notes : string) :
  unique_per_day session ->
  exists latest,
    latest_weight_log
      (save_weight session logged_in_user current_date current_weight
         weight_notes) logged_in_user current_date = Some latest /\
    WeightLog.log_date latest = current_date /\
    WeightLog.weight latest = current_weight /\
    WeightLog.notes latest = weight_notes.
Proof. apply save_weight_then_latest_aux. Qed.

Lemma save_weight_then_latest_witness :
  exists latest,
    latest_weight_log (save_weight sample_session "alice" 103 158.0 "evening")
      "alice" 103 = Some latest /\
    WeightLog.log_date latest = 103%Z /\
    WeightLog.weight latest = 158.0 /\
    WeightLog.notes latest = "evening".
Proof.
  apply (save_weight_then_latest sample_session "alice" 103 158.0 "evening").
  unfold unique_per_day. simpl.
  repeat (constructor; [simpl; intuition congruence|]). constructor.
Defined.

(** X11. Saving a weight for a user and a day changes no answer of the
    weight-history query for another user, nor for an earlier day. *)
Theorem save_weight_leaves_other_queries (session : list WeightLog.t)
    (logged_in_user : string) (current_date : date) (current_weight : Q)
    (weight_notes : string) (username : string) (d : date) :
  username <> logged_in_user \/ (d < current_date)%Z ->
  latest_weight_log
    (save_weight session logged_in_user current_date current_weight
       weight_notes) username d
  = latest_weight_log session username d.
Proof.
  intros Hother. apply latest_weight_log_ext. rewrite !query_filter.
  assert (Hoff : forall r,
            WeightLog.username r = logged_in_user ->
            WeightLog.log_date r = current_date ->
            String.eqb (WeightLog.username r) username
            && (WeightLog.log_date r <=? d)%Z = false).
  { intros r Hu Hd. apply andb_false_iff.
    destruct Hother as [Hne|Hlt].
    - left. apply String.eqb_neq. congruence.
    - right. apply Z.leb_gt. lia. }
  unfold save_weight.
  destruct (existing_weight_log session logged_in_user current_date).
  - apply update_first_filter. intros r Hp. apply on_day_spec in Hp.
    destruct Hp as [Hu Hd]. split; apply Hoff; assumption.
  - rewrite List.filter_app. cbn [List.filter].
    rewrite Hoff by reflexivity. apply List.app_nil_r.
Qed.

Lemma save_weight_leaves_other_queries_witness :
  latest_weight_log (save_weight sample_session "alice" 103 158.0 "evening")
    "bob" 105
  = latest_weight_log sample_session "bob" 105.
Proof.
  apply (save_weight_leaves_other_queries sample_session "alice" 103 158.0
           "evening" "bob" 105).
  left. discriminate.
Defined.

(** The numbers the comparison path records. *)
Lemma adjust_compare_numbers
    (base_calories current_weight target_weight : Q) (days_to_goal : Z)
    (session : list WeightLog.t) (username : string) (current_date : date)
    (latest : WeightLog.t) :
  (3 < days_to_goal)%Z ->
  latest_weight_log session username current_date = Some latest ->
  let info :=
    snd (adjust_calories_based_on_progress base_calories current_weight
           target_weight days_to_goal session username current_date) in
  info !! "actual_weight" = Some (PyFloat (WeightLog.weight latest)) /\
  info !! "target_weight_at_stage" = Some (PyFloat (target_weight * 1.05)) /\
  info !! "difference"
  = Some (PyFloat (WeightLog.weight latest - target_weight * 1.05)).
Proof.
  intros Hd Hl. cbv zeta. unfold adjust_calories_based_on_progress.
  apply Z.leb_gt in Hd. rewrite Hd, Hl.
  destruct (adjustment_of _ _ _). simpl. repeat split; reflexivity.
Qed.

(** X12. More than three days out, once a weight is saved for the day
    viewed the adjuster no longer asks for a weigh-in: it takes the
    comparison path, on the weight just saved against
    [target_weight * 1.05], and reports the adjustment it has added to
    the base calories. *)
Theorem save_weight_enables_adjustment
    (base_calories profile_weight target_weight : Q) (days_to_goal : Z)
    (session : list WeightLog.t) (logged_in_user : string)
    (current_date : date) (current_weight : Q) (weight_notes : string) :
  unique_per_day session -> (3 < days_to_goal)%Z ->
  let session' :=
    save_weight session logged_in_user current_date current_weight
      weight_notes in
  let result :=
    adjust_calories_based_on_progress base_calories profile_weight
      target_weight days_to_goal session' logged_in_user current_date in
  path_of days_to_goal session' logged_in_user current_date = Compared /\
  snd result !! "needs_weight_log" = None /\
  snd result !! "actual_weight" = Some (PyFloat current_weight) /\
  snd result !! "target_weight_at_stage"
  = Some (PyFloat (target_weight * 1.05)) /\
  snd result !! "difference"
  = Some (PyFloat (current_weight - target_weight * 1.05)) /\
  exists adjustment,
    snd result !! "adjustment" = Some (PyInt adjustment) /\
    snd result !! "adjusted" = Some (PyBool (negb (adjustment =? 0)%Z)) /\
    fst result = base_calories + inject_Z adjustment.
Proof.
  intros Hnd Hd. cbv zeta.
  destruct (save_weight_then_latest_aux session logged_in_user current_date
              current_weight weight_notes Hnd)
    as (latest & Hl & _ & Hw & _).
  destruct (adjust_compare base_calories profile_weight target_weight
              days_to_goal _ logged_in_user current_date latest Hd Hl)
    as (Hfst & Hadj & Hdelta & _ & Hneeds).
  destruct (adjust_compare_numbers base_calories profile_weight target_weight
              days_to_goal _ logged_in_user current_date latest Hd Hl)
    as (Hactual & Hstage & Hdiff).
  cbv zeta in Hfst, Hadj, Hdelta, Hactual, Hstage, Hdiff.
  rewrite Hw in Hactual, Hdiff.
  split.
  { unfold path_of. rewrite Hl.
    apply Z.leb_gt in Hd. now rewrite Hd. }
  repeat (split; [assumption|]).
  eexists. split; [exact Hdelta|]. split; [exact Hadj|exact Hfst].
Qed.

Lemma save_weight_enables_adjustment_witness :
  snd (adjust_calories_based_on_progress 2500 180 150 5
         (save_weight sample_session "alice" 99 160.0 "") "alice" 99)
  !! "actual_weight" = Some (PyFloat 160.0).
Proof.
  apply (save_weight_enables_adjustment 2500 180 150 5 sample_session "alice"
           99 160.0 "").
  - unfold unique_per_day. simpl.
    repeat (constructor; [simpl; intuition congruence|]). constructor.
  - lia.
Defined.

(** ** Deleting a weight *)

Lemma delete_weight_filter (session : list WeightLog.t)
    (logged_in_user username : string) (delete_date d : date) :
  (forall r,
     negb (on_day logged_in_user delete_date r)
     && (String.eqb (WeightLog.username r) username
         && (WeightLog.log_date r <=? d)%Z)
     = String.eqb (WeightLog.username r) username
       && (WeightLog.log_date r <=? d)%Z) ->
  latest_weight_log (delete_weight session logged_in_user delete_date)
    username d
  = latest_weight_log session username d.
Proof.
  intros H. apply latest_weight_log_ext. rewrite !query_filter.
  unfold delete_weight. rewrite filter_filter_andb.
  apply List.filter_ext. exact H.
Qed.

(** X13. After the weigh-in of a day is deleted, the weight-history
    query for that day answers what it answered for the day before; for
    another user, and for an earlier day, its answers do not change. *)
Theorem delete_weight_falls_back (session : list WeightLog.t)
    (logged_in_user : string) (delete_date : date) :
  latest_weight_log (delete_weight session logged_in_user delete_date)
    logged_in_user delete_date
  = latest_weight_log session logged_in_user (delete_date - 1) /\
  forall username d,
    username <> logged_in_user \/ (d < delete_date)%Z ->
    latest_weight_log (delete_weight session logged_in_user delete_date)
      username d
    = latest_weight_log session username d.
Proof.
  split.
  - unfold latest_weight_log. do 2 f_equal. rewrite !query_filter.
    unfold delete_weight. rewrite filter_filter_andb.
    apply List.filter_ext. intros r. unfold on_day.
    destruct (String.eqb (WeightLog.username r) logged_in_user); simpl;
      [|reflexivity].
    destruct (Z.eqb_spec (WeightLog.log_date r) delete_date);
      destruct (Z.leb_spec (WeightLog.log_date r) delete_date);
      destruct (Z.leb_spec (WeightLog.log_date r) (delete_date - 1));
      simpl; try reflexivity; lia.
  - intros username d Hother. apply delete_weight_filter.
    intros r. unfold on_day.
    destruct (String.eqb_spec (WeightLog.username r) logged_in_user) as [Hu|];
      simpl; [|reflexivity].
    destruct (Z.eqb_spec (WeightLog.log_date r) delete_date) as [Hd|];
      simpl; [|reflexivity].
    symmetry. apply andb_false_iff.
    destruct Hother as [Hne|Hlt].
    + left. apply String.eqb_neq. congruence.
    + right. apply Z.leb_gt. lia.
Qed.

(** X14. Deleting the day's weigh-in after saving it gives the table
    that deleting alone gives; when the day had no weigh-in before the
    save, it gives the table back as it was. *)
Theorem delete_weight_after_save (session : list WeightLog.t)
    (logged_in_user : string) (current_date : date) (current_weight : Q)
    (weight_notes : string) :
  delete_weight
    (save_weight session logged_in_user current_date current_weight
       weight_notes) logged_in_user current_date
  = delete_weight session logged_in_user current_date /\
  (existing_weight_log session logged_in_user current_date = None ->
   delete_weight
     (save_weight session logged_in_user current_date current_weight
        weight_notes) logged_in_user current_date
   = session).
Proof.
  assert (Hsame : delete_weight
            (save_weight session logged_in_user current_date current_weight
               weight_notes) logged_in_user current_date
          = delete_weight session logged_in_user current_date).
  { unfold delete_weight, save_weight.
    destruct (existing_weight_log session logged_in_user current_date).
    - apply update_first_filter. intros r Hp.
      assert (Hp' : on_day logged_in_user current_date
                      (set_weight current_weight weight_notes r) = true).
      { apply on_day_spec in Hp. apply on_day_spec. exact Hp. }
      now rewrite Hp, Hp'.
    - rewrite List.filter_app. cbn [List.filter].
      assert (Hp : on_day logged_in_user current_date
                     (WeightLog.Build (fresh_id session) logged_in_user
                        current_date current_weight weight_notes) = true)
        by now apply on_day_spec.
      rewrite Hp. apply List.app_nil_r. }
  split; [exact Hsame|].
  intros Hnone. rewrite Hsame. unfold delete_weight.
  apply filter_all_true. intros r Hr.
  now rewrite (proj1 (existing_weight_log_None _ _ _) Hnone r Hr).
Qed.

Lemma delete_weight_after_save_witness :
  delete_weight (save_weight sample_session "alice" 99 160.0 "") "alice" 99
  = sample_session.
Proof.
  apply (delete_weight_after_save sample_session "alice" 99 160.0 "").
  reflexivity.
Defined.

(** * Part V: the progress page *)

(** ** The weigh-ins in date order *)

Lemma insert_asc_In (r x : WeightLog.t) (sorted : list WeightLog.t) :
  List.In x (insert_asc r sorted) <-> x = r \/ List.In x sorted.
Proof.
  induction sorted as [|s rest IH]; simpl.
  - intuition.
  - destruct (WeightLog.log_date r <=? WeightLog.log_date s)%Z; simpl.
    + intuition.
    + rewrite IH. intuition.
Qed.

Lemma order_by_log_date_In (x : WeightLog.t) (rows : list WeightLog.t) :
  List.In x (order_by_log_date rows) <-> List.In x rows.
Proof.
  induction rows as [|r rows IH]; simpl; [reflexivity|].
  rewrite insert_asc_In, IH. intuition.
Qed.

Lemma last_row_In (rows : list WeightLog.t) (e : WeightLog.t) :
  last_row rows = Some e -> List.In e rows.
Proof.
  induction rows as [|r rows IH]; [discriminate|].
  destruct rows as [|r' rows'].
  - intros [= <-]. now left.
  - intros H. right. apply IH. exact H.
Qed.

Lemma last_row_cons (r r' : WeightLog.t) (rows : list WeightLog.t) :
  last_row (r :: r' :: rows) = last_row (r' :: rows).
Proof. reflexivity. Qed.

Lemma last_row_Some (r : WeightLog.t) (rows : list WeightLog.t) :
  exists e, last_row (r :: rows) = Some e.
Proof.
  revert r. induction rows as [|r' rows IH]; intros r.
  - now exists r.
  - rewrite last_row_cons. apply IH.
Qed.

Lemma insert_asc_last (r : WeightLog.t) (sorted : list WeightLog.t) :
  last_is_latest sorted -> last_is_latest (insert_asc r sorted).
Proof.
  induction sorted as [|s rest IH]; intros Hs.
  - simpl. intros e [= <-] x [<-|[]]. lia.
  - simpl. destruct (Z.leb_spec (WeightLog.log_date r) (WeightLog.log_date s))
      as [Hle|Hgt].
    + intros e He x Hx. rewrite last_row_cons in He.
      specialize (Hs e He).
      destruct Hx as [<-|Hx]; [|now apply Hs].
      specialize (Hs s (or_introl eq_refl)). lia.
    + destruct rest as [|s' rest'].
      * simpl. intros e [= <-] x [<-|[<-|[]]]; lia.
      * assert (Hrest : last_is_latest (s' :: rest')).
        { intros e He x Hx. apply (Hs e); [exact He|now right]. }
        specialize (IH Hrest).
        intros e He x Hx.
        destruct (insert_asc r (s' :: rest')) as [|i rest''] eqn:Ei.
        { exfalso. assert (Hr : List.In r (insert_asc r (s' :: rest')))
            by (apply insert_asc_In; now left).
          rewrite Ei in Hr. exact Hr. }
        rewrite last_row_cons in He. specialize (IH e He).
        destruct Hx as [<-|Hx]; [|now apply IH].
        destruct (last_row_Some s' rest') as [e' He'].
        assert (Hse' : (WeightLog.log_date s <= WeightLog.log_date e')%Z)
          by (apply (Hs e'); [exact He'|now left]).
        assert (Hin' : List.In e' (i :: rest'')).
        { rewrite <- Ei. apply insert_asc_In. right.
          now apply last_row_In. }
        specialize (IH e' Hin'). lia.
Qed.

Lemma order_by_log_date_last (rows : list WeightLog.t) :
  last_is_latest (order_by_log_date rows).
Proof.
  induction rows as [|r rows IH]; simpl.
  - intros e [=].
  - now apply insert_asc_last.
Qed.

(** X15. Under the one-row-a-day rule, the current weight of the
    progress page is the weight the adjuster uses on every day from the
    user's last weigh-in on. *)
Theorem progress_current_weight_is_latest (profile : UserProfile.t)
    (session : list WeightLog.t) (logged_in_user : string) (o : overview)
    (d : date) :
  unique_per_day session ->
  progress_page profile session logged_in_user = Some o ->
  (forall r, List.In r session -> WeightLog.username r = logged_in_user ->
             (WeightLog.log_date r <= d)%Z) ->
  exists latest,
    latest_weight_log session logged_in_user d = Some latest /\
    WeightLog.weight latest = current_weight o.
Proof.
  intros Hnd Hpage Hall. unfold progress_page in Hpage.
  destruct (first (weight_logs_of session logged_in_user)) as [f|];
    [|discriminate].
  destruct (last_row (weight_logs_of session logged_in_user)) as [l|] eqn:El;
    [|discriminate].
  injection Hpage as <-. simpl.
  pose proof (last_row_In _ _ El) as Hl. unfold weight_logs_of in Hl, El.
  apply (proj1 (order_by_log_date_In _ _)) in Hl.
  unfold filter_by_username in Hl. apply filter_In in Hl.
  destruct Hl as [Hlin Hlu]. apply String.eqb_eq in Hlu.
  assert (Hm : matches logged_in_user d l) by (split; auto).
  destruct (latest_weight_log_exists logged_in_user d session l Hlin Hm)
    as [latest Hlatest].
  exists latest. split; [exact Hlatest|].
  destruct (latest_weight_log_Some logged_in_user d session latest Hlatest)
    as (Hin & [Hu Hd] & Hmax).
  specialize (Hmax l Hlin Hm).
  assert (Hle : (WeightLog.log_date latest <= WeightLog.log_date l)%Z).
  { apply (order_by_log_date_last _ l El).
    apply (proj2 (order_by_log_date_In _ _)).
    apply filter_In. split; [exact Hin|]. now apply String.eqb_eq. }
  assert (latest = l) as ->; [|reflexivity].
  apply (NoDup_map_eq
           (fun r => (WeightLog.username r, WeightLog.log_date r)) session);
    try assumption.
  f_equal; [congruence|lia].
Qed.

Lemma progress_current_weight_is_latest_witness :
  exists latest,
    latest_weight_log sample_session "alice" 110 = Some latest /\
    WeightLog.weight latest = 150.0.
Proof.
  refine (progress_current_weight_is_latest
            (sample_profile 1 "alice" 96 99) sample_session "alice"
            _ 110 _ eq_refl _).
  - unfold unique_per_day. simpl.
    repeat (constructor; [simpl; intuition congruence|]). constructor.
  - intros r Hr _. simpl in Hr.
    destruct Hr as [<-|[<-|[<-|[<-|[]]]]]; simpl; lia.
Defined.

(** ** The progress bar *)

Lemma Qdiv_nonpos_pos (a b : Q) : 0 < b -> (a / b <= 0 <-> a <= 0).
Proof.
  intros Hb. split; intros H.
  - apply Qnot_lt_le. intros Ha.
    assert (0 < a / b) by (apply Qlt_shift_div_l; [assumption|lra]).
    lra.
  - apply Qle_shift_div_r; [assumption|lra].
Qed.

Lemma Qdiv_nonpos_neg (a b : Q) : b < 0 -> (a / b <= 0 <-> 0 <= a).
Proof.
  intros Hb.
  assert (E : a / b == (- a) / (- b)) by (field; lra).
  rewrite E, Qdiv_nonpos_pos by lra. split; lra.
Qed.

Lemma clamp_0_100_range (x : Q) :
  0 <= clamp_0_100 x <= 100 /\ (clamp_0_100 x == 0 <-> x <= 0).
Proof.
  unfold clamp_0_100.
  destruct (Qltb x 100) eqn:A; [apply Qltb_lt in A|apply Qltb_ge in A].
  - destruct (Qltb 0 x) eqn:B; [apply Qltb_lt in B|apply Qltb_ge in B].
    + repeat split; intros; lra.
    + repeat split; intros; lra.
  - change (Qltb 0 100) with true. cbv iota.
    repeat split; intros; lra.
Qed.

(** X16. The progress bar, when shown, is between 0 and 100; it is at 0
    exactly when the current weight lies on the target's side of the
    starting weight or on it, that is whenever the weight has moved
    towards the goal, and above 0 only when it has moved away. *)
Theorem progress_bar_range (starting_weight current_weight target_weight p : Q) :
  progress_percentage_of starting_weight current_weight target_weight
  = Some p ->
  0 <= p <= 100 /\
  (p == 0 <->
   (target_weight < starting_weight /\ current_weight <= starting_weight) \/
   (starting_weight < target_weight /\ starting_weight <= current_weight)).
Proof.
  unfold progress_percentage_of.
  destruct (Qeq_bool starting_weight target_weight) eqn:E; [discriminate|].
  simpl. intros [= <-].
  assert (Hne : ~ starting_weight == target_weight).
  { intros H. apply Qeq_bool_iff in H. congruence. }
  destruct (clamp_0_100_range
              ((starting_weight - current_weight)
               / (target_weight - starting_weight) * 100))
    as [Hrange Hzero].
  split; [exact Hrange|]. rewrite Hzero.
  assert (Hx : (starting_weight - current_weight)
               / (target_weight - starting_weight) * 100 <= 0
               <-> (starting_weight - current_weight)
                   / (target_weight - starting_weight) <= 0)
    by (split; lra).
  rewrite Hx.
  destruct (Qlt_le_dec target_weight starting_weight) as [Hlt|Hle].
  - rewrite Qdiv_nonpos_neg by lra. split.
    + intros H. left. split; lra.
    + intros [[_ H]|[H _]]; lra.
  - assert (Hgt : starting_weight < target_weight).
    { apply Qnot_le_lt. intros H. apply Hne. lra. }
    rewrite Qdiv_nonpos_pos by lra. split.
    + intros H. right. split; lra.
    + intros [[H _]|[_ H]]; lra.
Qed.

Lemma progress_bar_range_witness :
  0 <= 0 <= 100 /\
  (0 == 0 <-> (175 < 180 /\ 178 <= 180) \/ (180 < 175 /\ 180 <= 178)).
Proof.
  apply (progress_bar_range 180 178 175 0). reflexivity.
Defined.

(** ** The target line *)

Lemma target_line_from_In (days : nat) (current_date target_date : date)
    (target_weight : Q) (d : date) (v : Q) :
  List.In (d, v)
    (target_line_from days current_date target_date target_weight)
  <-> (current_date <= d < current_date + Z.of_nat days)%Z /\
      v = daily_target (target_date - d) target_weight.
Proof.
  revert current_date.
  induction days as [|days IH]; intros current_date.
  - simpl. split; [intros []|lia].
  - cbn [target_line_from List.In]. rewrite IH. split.
    + intros [[= <- <-]|[Hd Hv]]; split; auto; lia.
    + intros [Hd Hv].
      destruct (Z.eq_dec d current_date) as [->|Hne].
      * left. now rewrite Hv.
      * right. split; [lia|exact Hv].
Qed.

Lemma fold_min_le (seed : Z) (l : list Z) (x : Z) :
  List.In x l -> (List.fold_right Z.min seed l <= x)%Z.
Proof.
  induction l as [|a l IH]; simpl; [intros []|].
  intros [<-|Hx]; [lia|]. specialize (IH Hx). lia.
Qed.

(** X17. Every point of the target line carries the target value of its
    own day, so from the target date on the line is at the target
    weight; and when the user has a weigh-in on or before the target
    date, the line has a point on the target date, at the target
    weight. *)
Theorem target_line_reaches_target (profile : UserProfile.t)
    (session : list WeightLog.t) (logged_in_user : string) (o : overview) :
  progress_page profile session logged_in_user = Some o ->
  (forall d v, List.In (d, v) (target_progression o) ->
     v = daily_target (UserProfile.target_date profile - d)
           (UserProfile.target_weight profile) /\
     ((UserProfile.target_date profile <= d)%Z ->
      v = UserProfile.target_weight profile)) /\
  ((exists r, List.In r session /\ WeightLog.username r = logged_in_user /\
              (WeightLog.log_date r <= UserProfile.target_date profile)%Z) ->
   List.In (UserProfile.target_date profile,
            UserProfile.target_weight profile) (target_progression o)).
Proof.
  unfold progress_page. intros Hpage.
  destruct (first (weight_logs_of session logged_in_user)) as [f|];
    [|discriminate].
  destruct (last_row (weight_logs_of session logged_in_user)) as [l|];
    [|discriminate].
  injection Hpage as <-. cbn [target_progression]. unfold target_line.
  split.
  - intros d v Hin. apply target_line_from_In in Hin.
    destruct Hin as [_ Hv]. split; [exact Hv|].
    intros Hd. rewrite Hv. unfold daily_target.
    destruct (Z.leb_spec 3 (UserProfile.target_date profile - d)); [lia|].
    destruct (Z.eqb_spec (UserProfile.target_date profile - d) 2); [lia|].
    destruct (Z.eqb_spec (UserProfile.target_date profile - d) 1); [lia|].
    reflexivity.
  - intros (r & Hr & Hu & Hd). apply target_line_from_In.
    assert (Hin : List.In (WeightLog.log_date r)
                    (List.map WeightLog.log_date
                       (weight_logs_of session logged_in_user))).
    { apply in_map. unfold weight_logs_of.
      apply (proj2 (order_by_log_date_In _ _)). apply filter_In.
      split; [exact Hr|]. now apply String.eqb_eq. }
    pose proof (fold_min_le (WeightLog.log_date f) _ _ Hin) as Hmin.
    split; [lia|].
    rewrite Z.sub_diag. reflexivity.
Qed.

Lemma target_line_reaches_target_witness :
  exists o,
    progress_page (sample_profile 1 "alice" 96 105) sample_session "alice"
    = Some o /\
    List.In (110%Z, 175) (target_progression o).
Proof.
  eexists. split; [reflexivity|].
  apply (target_line_reaches_target (sample_profile 1 "alice" 96 105)
           sample_session "alice" _ eq_refl).
  exists (WeightLog.Build 1 "alice" 100 160.0 "").
  simpl. split; [tauto|]. split; [reflexivity|lia].
Defined.

(** ** The prediction *)

Lemma Qdiv_pos_iff (a b : Q) : 0 < b -> (0 < a / b <-> 0 < a).
Proof.
  intros Hb. pose proof (Qdiv_nonpos_pos a b Hb) as H.
  split; intros Ha; apply Qnot_le_lt; intros Hle.
  - apply H in Hle. lra.
  - apply H in Hle. lra.
Qed.

Lemma Qdiv_neg_iff (a b : Q) : 0 < b -> (a / b < 0 <-> a < 0).
Proof.
  intros Hb.
  assert (E : a / b == - ((- a) / b)) by (field; lra).
  rewrite E. pose proof (Qdiv_pos_iff (- a) b Hb) as H.
  split; intros Ha.
  - assert (0 < - a) by (apply H; lra). lra.
  - assert (0 < - a / b) by (apply H; lra). lra.
Qed.

(** X18. A prediction is shown only for more than one weigh-in spanning
    at least a day, with the goal still ahead and a weight that has
    changed in the direction of the goal: down when the target is below
    the latest weigh-in, up when it is above. *)
Theorem prediction_points_at_goal (weigh_ins : nat) (days_tracked : Z)
    (weight_change remaining_to_goal : Q) (n : Z) :
  predicted_days weigh_ins days_tracked weight_change remaining_to_goal
  = Some n ->
  (1 < weigh_ins)%nat /\ (0 < days_tracked)%Z /\
  ((0 < remaining_to_goal /\ 0 < weight_change) \/
   (remaining_to_goal < 0 /\ weight_change < 0)).
Proof.
  unfold predicted_days.
  destruct (Nat.ltb_spec 1 weigh_ins) as [Hn|]; [|discriminate].
  destruct (Z.ltb_spec 0 days_tracked) as [Hd|]; [|discriminate].
  cbn [andb].
  set (avg := weight_change / inject_Z days_tracked).
  assert (Hdq : 0 < inject_Z days_tracked)
    by (rewrite Zlt_Qlt in Hd; exact Hd).
  destruct (Qeq_bool remaining_to_goal 0) eqn:Er; [discriminate|].
  destruct (Qeq_bool avg 0) eqn:Ea; [discriminate|].
  cbn [negb andb].
  destruct ((Qltb 0 remaining_to_goal && Qltb 0 avg)
            || (Qltb remaining_to_goal 0 && Qltb avg 0)) eqn:Es;
    [|discriminate].
  intros [= <-].
  repeat split; try assumption.
  apply orb_true_iff in Es.
  destruct Es as [Es|Es]; apply andb_true_iff in Es;
    destruct Es as [E1 E2]; apply Qltb_lt in E1, E2.
  - left. split; [exact E1|]. now apply (Qdiv_pos_iff _ _ Hdq).
  - right. split; [exact E1|]. now apply (Qdiv_neg_iff _ _ Hdq).
Qed.

Lemma prediction_points_at_goal_witness :
  (1 < 3)%nat /\ (0 < 7)%Z /\
  ((0 < -3 /\ 0 < -2) \/ (-3 < 0 /\ -2 < 0)).
Proof.
  apply (prediction_points_at_goal 3 7 (-2) (-3) 9). reflexivity.
Defined.

(** * Part VI: accounts, profiles and navigation *)

(** ** Accounts *)

Lemma find_app {A : Type} (p : A -> bool) (l l' : list A) :
  List.find p (l ++ l')%list
  = match List.find p l with
    | Some x => Some x
    | None => List.find p l'
    end.
Proof.
  induction l as [|a l IH]; simpl; [reflexivity|].
  now destruct (p a).
Qed.

Lemma login_true_iff (users : list User.t) (username password : string) :
  Accounts.login users username password = true
  <-> exists u, List.In u users /\ User.username u = username /\
                User.password u = password.
Proof.
  unfold Accounts.login.
  destruct (List.find _ users) as [u|] eqn:F.
  - apply List.find_some in F. destruct F as [Hin Hc].
    unfold Accounts.by_credentials in Hc.
    apply andb_true_iff in Hc. destruct Hc as [Hu Hp].
    apply String.eqb_eq in Hu, Hp. split; [eauto|reflexivity].
  - split; [discriminate|]. intros (u & Hin & Hu & Hp).
    pose proof (List.find_none _ _ F u Hin) as Hc.
    unfold Accounts.by_credentials in Hc.
    rewrite Hu, Hp, !String.eqb_refl in Hc. discriminate.
Qed.

Lemma find_by_username_None (users : list User.t) (username : string) :
  List.find (Accounts.by_username username) users = None
  <-> ~ List.In username (List.map User.username users).
Proof.
  split.
  - intros F Hin. apply in_map_iff in Hin. destruct Hin as (u & Hu & Hin).
    pose proof (List.find_none _ _ F u Hin) as Hc.
    unfold Accounts.by_username in Hc.
    rewrite Hu, String.eqb_refl in Hc. discriminate.
  - intros Hnot. destruct (List.find _ users) as [u|] eqn:F; [|reflexivity].
    apply List.find_some in F. destruct F as [Hin Hc].
    apply String.eqb_eq in Hc. exfalso. apply Hnot.
    rewrite <- Hc. now apply in_map.
Qed.

Lemma signup_cases (users : list User.t) (username password : string) :
  (Accounts.signup users username password
   = ((users ++ [User.Build (Accounts.fresh_id users) username password])%list,
      Accounts.AccountCreated) /\
   username <> "" /\ password <> "" /\
   ~ List.In username (List.map User.username users)) \/
  (fst (Accounts.signup users username password) = users /\
   snd (Accounts.signup users username password) <> Accounts.AccountCreated).
Proof.
  unfold Accounts.signup, Accounts.str_truthy.
  destruct (String.eqb_spec username ""); simpl;
    [right; split; [reflexivity|discriminate]|].
  destruct (String.eqb_spec password ""); simpl;
    [right; split; [reflexivity|discriminate]|].
  destruct (List.find _ users) eqn:F.
  - right. split; [reflexivity|discriminate].
  - left. apply find_by_username_None in F. auto.
Qed.

Lemma signup_keeps_NoDup (users : list User.t) (username password : string) :
  List.NoDup (List.map User.username users) ->
  List.NoDup
    (List.map User.username (fst (Accounts.signup users username password))).
Proof.
  intros Hnd.
  destruct (signup_cases users username password)
    as [(-> & _ & _ & Hnew)|[-> _]]; [|assumption].
  simpl. rewrite List.map_app. simpl.
  apply List.NoDup_app; [assumption|repeat constructor; now intros []|].
  intros x Hx [<-|[]]. contradiction.
Qed.

Lemma signup_keeps_usernames (users : list User.t)
    (username password x : string) :
  List.In x (List.map User.username users) ->
  List.In x
    (List.map User.username (fst (Accounts.signup users username password))).
Proof.
  intros Hx.
  destruct (signup_cases users username password)
    as [(-> & _)|[-> _]]; [|assumption].
  simpl. rewrite List.map_app. apply in_or_app. now left.
Qed.

(** X19. Signing up with a user name and a password that are not empty
    and a user name not taken creates the account, and the login with
    the same user name and password then succeeds. *)
Theorem signup_then_login (users : list User.t) (username password : string) :
  username <> "" -> password <> "" ->
  ~ List.In username (List.map User.username users) ->
  snd (Accounts.signup users username password) = Accounts.AccountCreated /\
  Accounts.login (fst (Accounts.signup users username password))
    username password = true.
Proof.
  intros Hu Hp Hnew.
  destruct (signup_cases users username password)
    as [(-> & _)|[Hsame Hmsg]].
  - split; [reflexivity|]. simpl. apply login_true_iff.
    eexists. split; [apply in_or_app; right; now left|]. now simpl.
  - exfalso. apply Hmsg. unfold Accounts.signup, Accounts.str_truthy.
    apply String.eqb_neq in Hu, Hp. rewrite Hu, Hp. simpl.
    apply find_by_username_None in Hnew. now rewrite Hnew.
Qed.

Lemma signup_then_login_witness :
  Accounts.login
    (fst (Accounts.signup [User.Build 1 "alice" "secret"] "bob" "hunter2"))
    "bob" "hunter2" = true.
Proof.
  apply (signup_then_login [User.Build 1 "alice" "secret"] "bob" "hunter2").
  - discriminate.
  - discriminate.
  - simpl. intros [H|[]]. discriminate H.
Defined.

(** X20. Signing up never touches an account that exists: with a user
    name that is taken, or an empty user name or password, the table is
    left as it is, and whatever the outcome every other pair of user
    name and password logs in after the sign-up exactly when it did
    before. User names stay unique. *)
Theorem signup_keeps_accounts (users : list User.t)
    (username password : string) :
  (List.In username (List.map User.username users) \/ username = ""
   \/ password = "" ->
   fst (Accounts.signup users username password) = users) /\
  (forall username' password',
     username' <> username \/ password' <> password ->
     Accounts.login (fst (Accounts.signup users username password))
       username' password'
     = Accounts.login users username' password') /\
  (List.NoDup (List.map User.username users) ->
   List.NoDup
     (List.map User.username
        (fst (Accounts.signup users username password)))).
Proof.
  split; [|split].
  - intros Hno.
    destruct (signup_cases users username password)
      as [(_ & Hu & Hp & Hnew)|[Hsame _]]; [|exact Hsame].
    exfalso. destruct Hno as [H|[H|H]]; auto.
  - intros username' password' Hother.
    destruct (signup_cases users username password)
      as [(-> & _)|[-> _]]; [|reflexivity].
    simpl. unfold Accounts.login. rewrite find_app.
    destruct (List.find _ users); [reflexivity|]. simpl.
    unfold Accounts.by_credentials. simpl.
    destruct (String.eqb_spec username username');
      destruct (String.eqb_spec password password'); simpl;
      try reflexivity.
    exfalso. destruct Hother as [H|H]; apply H; congruence.
  - apply signup_keeps_NoDup.
Qed.

Lemma signup_keeps_accounts_witness :
  fst (Accounts.signup [User.Build 1 "alice" "secret"] "alice" "other")
  = [User.Build 1 "alice" "secret"].
Proof.
  apply (signup_keeps_accounts [User.Build 1 "alice" "secret"] "alice"
           "other").
  left. simpl. now left.
Defined.

(** ** The profile *)

Lemma save_profile_load (profiles : list UserProfile.t)
    (logged_in_user : string) (f : ProfileForm.form) :
  exists id,
    ProfileForm.existing_profile
      (ProfileForm.save_profile profiles logged_in_user f) logged_in_user
    = Some (UserProfile.Build id logged_in_user (ProfileForm.weight f)
              (ProfileForm.target_weight f) (ProfileForm.today_date f)
              (ProfileForm.target_date f)
              (Some (ProfileForm.bodyfat_percentage f))
              (ProfileForm.height f)).
Proof.
  unfold ProfileForm.existing_profile, ProfileForm.save_profile.
  eexists. rewrite find_app.
  destruct (List.find _ (List.filter _ profiles)) as [p|] eqn:F.
  - apply List.find_some in F. destruct F as [Hin Hp].
    apply filter_In in Hin. destruct Hin as [_ Hn].
    rewrite Hp in Hn. discriminate.
  - simpl. now rewrite String.eqb_refl.
Qed.

(** X21. After the profile is saved, the user has exactly one profile
    row, loading it gives the values of the form, and the profile of
    every other user loads as before. *)
Theorem save_profile_then_load (profiles : list UserProfile.t)
    (logged_in_user : string) (f : ProfileForm.form) :
  let profiles' := ProfileForm.save_profile profiles logged_in_user f in
  (exists p,
     ProfileForm.existing_profile profiles' logged_in_user = Some p /\
     UserProfile.weight p = ProfileForm.weight f /\
     UserProfile.target_weight p = ProfileForm.target_weight f /\
     UserProfile.today_date p = ProfileForm.today_date f /\
     UserProfile.target_date p = ProfileForm.target_date f /\
     UserProfile.bodyfat_percentage p
     = Some (ProfileForm.bodyfat_percentage f) /\
     UserProfile.height p = ProfileForm.height f) /\
  List.length
    (List.filter
       (fun p => String.eqb (UserProfile.username p) logged_in_user)
       profiles') = 1%nat /\
  (forall username, username <> logged_in_user ->
     ProfileForm.existing_profile profiles' username
     = ProfileForm.existing_profile profiles username).
Proof.
  cbv zeta. split; [|split].
  - destruct (save_profile_load profiles logged_in_user f) as [id ->].
    eexists. split; [reflexivity|]. simpl. repeat split.
  - unfold ProfileForm.save_profile. rewrite List.filter_app.
    rewrite filter_filter_andb. cbn [List.filter UserProfile.username].
    rewrite String.eqb_refl, List.length_app.
    replace (List.filter _ profiles) with (@nil UserProfile.t);
      [reflexivity|].
    symmetry. induction profiles as [|p l IH]; simpl; [reflexivity|].
    destruct (String.eqb (UserProfile.username p) logged_in_user); simpl;
      exact IH.
  - intros username Hne.
    unfold ProfileForm.existing_profile, ProfileForm.save_profile.
    rewrite find_app. cbn [List.find UserProfile.username].
    apply String.eqb_neq in Hne. rewrite String.eqb_sym in Hne. rewrite Hne.
    induction profiles as [|p l IH]; simpl; [reflexivity|].
    destruct (String.eqb_spec (UserProfile.username p) logged_in_user)
      as [Hp|Hp]; simpl.
    + rewrite Hp, Hne. exact IH.
    + destruct (String.eqb (UserProfile.username p) username);
        [reflexivity|exact IH].
Qed.

(** ** Navigation *)

Lemma update_first_rows (p : WeightLog.t -> bool)
    (f : WeightLog.t -> WeightLog.t) (rows : list WeightLog.t)
    (r : WeightLog.t) :
  List.In r (update_first p f rows) ->
  List.In r rows \/ exists r0, List.In r0 rows /\ p r0 = true /\ r = f r0.
Proof.
  induction rows as [|a rows IH]; simpl; [tauto|].
  destruct (p a) eqn:E; simpl.
  - intros [<-|Hr]; [right; exists a; auto|auto].
  - intros [<-|Hr]; [auto|].
    destruct (IH Hr) as [H|(r0 & H0 & Hp & ->)]; [auto|].
    right. exists r0. auto.
Qed.

Lemma save_weight_rows (session : list WeightLog.t) (user : string)
    (d : date) (w : Q) (n : string) (r : WeightLog.t) :
  List.In r (save_weight session user d w n) ->
  List.In r session \/
  (WeightLog.username r = user /\ WeightLog.log_date r = d).
Proof.
  unfold save_weight.
  destruct (existing_weight_log session user d).
  - intros Hr. apply update_first_rows in Hr.
    destruct Hr as [H|(r0 & _ & Hp & ->)]; [auto|].
    right. apply on_day_spec in Hp. exact Hp.
  - intros Hr. apply in_app_or in Hr.
    destruct Hr as [H|[<-|[]]]; auto.
Qed.

Lemma NoDup_map_filter {A B : Type} (key : A -> B) (p : A -> bool)
    (l : list A) :
  List.NoDup (List.map key l) ->
  List.NoDup (List.map key (List.filter p l)).
Proof.
  induction l as [|a l IH]; simpl; intros Hnd; [constructor|].
  inversion Hnd as [|? ? Hnotin Hnd']; subst.
  destruct (p a); simpl; [|auto].
  constructor; [|auto]. intros Hin. apply Hnotin.
  apply in_map_iff in Hin. destruct Hin as (x & Hk & Hx).
  apply filter_In in Hx. rewrite <- Hk. apply in_map. tauto.
Qed.

Lemma login_registered (users : list User.t) (username password : string) :
  Accounts.login users username password = true ->
  List.In username (List.map User.username users).
Proof.
  intros H. apply login_true_iff in H. destruct H as (u & Hin & <- & _).
  now apply in_map.
Qed.

(** Builds the invariant, closing the fields that hold at once. *)
Ltac invariant_fields :=
  constructor; simpl;
  try (let H := fresh in intros H; now elim H);
  auto; try lia.

Lemma step_invariant (today today' : date) (t : Nav.tables)
    (s : Nav.session_state) (e : Nav.event) :
  Nav.invariant today t s -> (today <= today')%Z ->
  Nav.invariant today' (fst (Nav.step today' t s e))
    (snd (Nav.step today' t s e)).
Proof.
  intros [Hlog Hdate Hpast Hown Huniq Hnd] Hle.
  assert (Hpast' : forall r, List.In r (Nav.weight_logs t) ->
                             (WeightLog.log_date r <= today')%Z)
    by (intros r Hr; specialize (Hpast r Hr); lia).
  assert (Hbase : Nav.invariant today' t s)
    by (constructor; auto; lia).
  destruct s as [pg user d form]. simpl in *.
  destruct pg, e; unfold Nav.step; simpl; try exact Hbase;
    try (specialize (Hlog ltac:(discriminate)));
    try (now invariant_fields).
  - (* Login *)
    destruct (Accounts.login (Nav.users t) username password) eqn:L;
      [|exact Hbase].
    invariant_fields.
    intros _. exists username. split; [reflexivity|].
    now apply login_registered in L.
  - (* SignUp *)
    invariant_fields.
    + intros r Hr. apply signup_keeps_usernames. auto.
    + now apply signup_keeps_NoDup.
  - (* SaveProfile *)
    destruct user; [|exact Hbase]. invariant_fields.
  - (* NextDay *)
    destruct (Z.ltb_spec d today'); [|exact Hbase].
    invariant_fields.
  - (* SelectDate *)
    destruct (Z.leb_spec selected_date today'); simpl; [|exact Hbase].
    destruct (selected_date =? d)%Z; simpl; [exact Hbase|].
    invariant_fields.
  - (* OpenWeightForm *)
    destruct user as [u|]; [|exact Hbase].
    destruct (ProfileForm.existing_profile _ u); [|exact Hbase].
    destruct form; simpl; [exact Hbase|].
    invariant_fields.
  - (* SaveWeight *)
    destruct Hlog as (u & -> & Hu).
    destruct (ProfileForm.existing_profile _ u); [|exact Hbase].
    destruct form; [|exact Hbase].
    invariant_fields.
    + eauto.
    + intros r Hr. apply save_weight_rows in Hr.
      destruct Hr as [Hr|[_ ->]]; [auto|lia].
    + intros r Hr. apply save_weight_rows in Hr.
      destruct Hr as [Hr|[-> _]]; auto.
    + now apply save_weight_unique_aux.
  - (* CancelWeight *)
    destruct user as [u|]; [|exact Hbase].
    destruct (ProfileForm.existing_profile _ u); [|exact Hbase].
    destruct form; simpl; [|exact Hbase].
    invariant_fields.
  - (* DeleteWeight *)
    destruct user as [u|]; [|exact Hbase].
    destruct (ProfileForm.existing_profile _ u); [|exact Hbase].
    destruct (List.existsb _ _); [|exact Hbase].
    invariant_fields.
    + intros r Hr. apply filter_In in Hr. apply Hpast'. tauto.
    + intros r Hr. apply filter_In in Hr. apply Hown. tauto.
    + now apply NoDup_map_filter.
Qed.

Lemma run_invariant (trace : list (date * Nav.event)) (today : date)
    (t : Nav.tables) (s : Nav.session_state) :
  Nav.invariant today t s -> Nav.days_go_on today trace ->
  Nav.invariant (Nav.last_day today trace)
    (fst (Nav.run t s trace)) (snd (Nav.run t s trace)).
Proof.
  revert today t s.
  induction trace as [|[day e] rest IH]; intros today t s Hinv Hdays.
  - exact Hinv.
  - destruct Hdays as [Hle Hrest]. cbn [Nav.run Nav.last_day].
    pose proof (step_invariant today day t s e Hinv Hle) as Hstep.
    destruct (Nav.step day t s e) as [t' s'].
    exact (IH day t' s' Hstep Hrest).
Qed.

(** X23. From a first visit on empty tables, whatever the sequence of
    log-ins, sign-ups, page changes, date changes and weight entries
    and deletions, on calendar days that do not go back: a page other
    than the login page is only shown to a logged-in user with an
    account; the date viewed is never after the calendar day of the
    last interaction; and every weigh-in stored is dated on or before
    that day, belongs to an account, and is the only one of its user
    and day. *)
Theorem run_from_first_visit (today : date) (trace : list (date * Nav.event)) :
  Nav.days_go_on today trace ->
  let final :=
    Nav.run
      {| Nav.users := []; Nav.profiles := []; Nav.weight_logs := [] |}
      (Nav.initial today) trace in
  let accounts := List.map User.username (Nav.users (fst final)) in
  let last_day := Nav.last_day today trace in
  (Nav.current_page (snd final) <> Nav.LoginPage ->
   exists u, Nav.logged_in_user (snd final) = Some u /\
             List.In u accounts) /\
  (Nav.current_date (snd final) <= last_day)%Z /\
  (forall r, List.In r (Nav.weight_logs (fst final)) ->
             (WeightLog.log_date r <= last_day)%Z /\
             List.In (WeightLog.username r) accounts) /\
  unique_per_day (Nav.weight_logs (fst final)) /\
  List.NoDup accounts.
Proof.
  intros Hdays. cbv zeta.
  destruct (run_invariant trace today
              {| Nav.users := []; Nav.profiles := []; Nav.weight_logs := [] |}
              (Nav.initial today))
    as [Hlog Hdate Hpast Hown Huniq Hnd]; [|exact Hdays|].
  - constructor; simpl; try (intros r []); try lia; try constructor.
    intros H. now elim H.
  - repeat split; auto.
Qed.

(** A user signs up, logs in, saves a profile and, a day later, a
    weight, and opens the progress page the day after. The day of the
    last interaction is 102; the date viewed and the weigh-in are of
    day 101. *)
Lemma run_from_first_visit_witness :
  let trace :=
      [ (100%Z, Nav.SignUp "alice" "secret");
        (100%Z, Nav.Login "alice" "secret");
        (100%Z, Nav.SaveProfile
                  {| ProfileForm.weight := 180;
                     ProfileForm.target_weight := 175;
                     ProfileForm.today_date := 100;
                     ProfileForm.target_date := 107;
                     ProfileForm.bodyfat_percentage := 20;
                     ProfileForm.height := 70 |});
        (101%Z, Nav.GoToFoodLog);
        (101%Z, Nav.PreviousDay);
        (101%Z, Nav.NextDay);
        (101%Z, Nav.NextDay);
        (101%Z, Nav.OpenWeightForm);
        (101%Z, Nav.SaveWeight 179.0 "morning");
        (102%Z, Nav.GoToProgress) ] in
  let final :=
    Nav.run
      {| Nav.users := []; Nav.profiles := []; Nav.weight_logs := [] |}
      (Nav.initial 100) trace in
  Nav.last_day 100 trace = 102%Z /\
  Nav.weight_logs (fst final)
  = [WeightLog.Build 1 "alice" 101 179.0 "morning"] /\
  (Nav.current_date (snd final) <= Nav.last_day 100 trace)%Z /\
  forall r, List.In r (Nav.weight_logs (fst final)) ->
            (WeightLog.log_date r <= Nav.last_day 100 trace)%Z.
Proof.
  cbv zeta. split; [reflexivity|]. split; [reflexivity|].
  destruct (run_from_first_visit 100
      [ (100%Z, Nav.SignUp "alice" "secret");
        (100%Z, Nav.Login "alice" "secret");
        (100%Z, Nav.SaveProfile
                  {| ProfileForm.weight := 180;
                     ProfileForm.target_weight := 175;
                     ProfileForm.today_date := 100;
                     ProfileForm.target_date := 107;
                     ProfileForm.bodyfat_percentage := 20;
                     ProfileForm.height := 70 |});
        (101%Z, Nav.GoToFoodLog);
        (101%Z, Nav.PreviousDay);
        (101%Z, Nav.NextDay);
        (101%Z, Nav.NextDay);
        (101%Z, Nav.OpenWeightForm);
        (101%Z, Nav.SaveWeight 179.0 "morning");
        (102%Z, Nav.GoToProgress) ])
    as (_ & Hdate & Hrows & _).
  - simpl. lia.
  - split; [exact Hdate|].
    intros r Hr. now apply Hrows.
Defined.

(** * Part VII: the food log *)

(** ** The nutrients of a food *)

Lemma nutrient_map_names (nutrient_id : Z) (name : string) :
  Food.nutrient_map !! nutrient_id = Some name ->
  List.In name
    ["calories"; "protein"; "fat"; "carbs"; "fiber"; "sodium"].
Proof.
  unfold Food.nutrient_map. intros H.
  repeat (apply lookup_insert_Some in H;
          destruct H as [[_ <-]|[_ H]]; [simpl; tauto|]).
  apply lookup_singleton_Some in H. destruct H as [_ <-]. simpl. tauto.
Qed.

Lemma zero_macros_keys (name : string) :
  is_Some (Food.zero_macros !! name)
  <-> List.In name
        ["calories"; "protein"; "fat"; "carbs"; "fiber"; "sodium"].
Proof.
  unfold Food.zero_macros. split.
  - intros [q H].
    repeat (apply lookup_insert_Some in H;
            destruct H as [[<- _]|[_ H]]; [simpl; tauto|]).
    apply lookup_singleton_Some in H. destruct H as [<- _]. simpl. tauto.
  - intros H. simpl in H.
    destruct H as [<-|[<-|[<-|[<-|[<-|[<-|[]]]]]]]; eexists; reflexivity.
Qed.

Lemma fill_macros_keys (rows : list (Z * Q)) (macros : gmap string Q)
    (name : string) :
  (forall k, List.In k
               ["calories"; "protein"; "fat"; "carbs"; "fiber"; "sodium"] ->
             is_Some (macros !! k)) ->
  is_Some (Food.fill_macros macros rows !! name) <-> is_Some (macros !! name).
Proof.
  revert macros. induction rows as [|[nid amount] rows IH]; intros macros Hk.
  - reflexivity.
  - unfold Food.fill_macros in *. cbn [List.fold_left fst snd].
    destruct (Food.nutrient_map !! nid) as [k|] eqn:E; [|now apply IH].
    rewrite IH.
    + destruct (decide (k = name)) as [->|Hne].
      * rewrite lookup_insert_eq. split; intros _; [|eauto].
        apply Hk. now apply nutrient_map_names in E.
      * now rewrite lookup_insert_ne.
    + intros k' Hk'. destruct (decide (k = k')) as [->|Hne].
      * rewrite lookup_insert_eq. eauto.
      * rewrite lookup_insert_ne by assumption. now apply Hk.
Qed.

Lemma get_food_macros_keys (food_nutrient : list FoodNutrient.t)
    (fdc_id : Z) (name : string) :
  is_Some (Food.get_food_macros food_nutrient fdc_id !! name)
  <-> List.In name
        ["calories"; "protein"; "fat"; "carbs"; "fiber"; "sodium"].
Proof.
  unfold Food.get_food_macros. rewrite fill_macros_keys.
  - apply zero_macros_keys.
  - intros k Hk. now apply zero_macros_keys.
Qed.

(** X24. For every food and every content of the food database the
    dictionary of [get_food_macros] has exactly the six keys calories,
    protein, fat, carbs, fiber and sodium, so the look-ups of the page
    (the test for data, the form that adds the food) never fail. *)
Theorem get_food_macros_has_six_keys (food_nutrient : list FoodNutrient.t)
    (fdc_id : Z) :
  let macros_data := Food.get_food_macros food_nutrient fdc_id in
  (forall name,
     is_Some (macros_data !! name)
     <-> List.In name
           ["calories"; "protein"; "fat"; "carbs"; "fiber"; "sodium"]) /\
  is_Some (Food.has_data macros_data) /\
  (forall table logged_in_user current_date description grams category,
     is_Some (Food.add_from_database table logged_in_user current_date
                description macros_data grams category)).
Proof.
  cbv zeta.
  assert (Hkey : forall name,
            List.In name
              ["calories"; "protein"; "fat"; "carbs"; "fiber"; "sodium"] ->
            exists q, Food.get_food_macros food_nutrient fdc_id !! name
                      = Some q)
    by (intros name Hn; now apply get_food_macros_keys).
  destruct (Hkey "calories") as [c Hc]; [simpl; tauto|].
  destruct (Hkey "protein") as [p Hp]; [simpl; tauto|].
  destruct (Hkey "fat") as [f Hf]; [simpl; tauto|].
  destruct (Hkey "carbs") as [cb Hcb]; [simpl; tauto|].
  destruct (Hkey "fiber") as [fb Hfb]; [simpl; tauto|].
  destruct (Hkey "sodium") as [so Hso]; [simpl; tauto|].
  split; [apply get_food_macros_keys|]. split.
  - unfold Food.has_data, Food.key_gt0. rewrite Hc, Hp, Hf, Hcb. simpl.
    destruct (Qltb 0 c); simpl; [eauto|].
    destruct (Qltb 0 p); simpl; [eauto|].
    destruct (Qltb 0 f); simpl; eauto.
  - intros. unfold Food.add_from_database.
    rewrite Hc, Hp, Hf, Hcb, Hfb, Hso. simpl. eauto.
Qed.

Lemma nutrient_map_injective (id id' : Z) (name : string) :
  Food.nutrient_map !! id = Some name ->
  Food.nutrient_map !! id' = Some name -> id = id'.
Proof.
  unfold Food.nutrient_map. intros H H'.
  repeat (apply lookup_insert_Some in H; destruct H as [[<- <-]|[_ H]];
          [repeat (apply lookup_insert_Some in H';
                   destruct H' as [[<- E]|[_ H']];
                   [first [reflexivity|discriminate E]|]);
           apply lookup_singleton_Some in H'; destruct H' as [<- E];
           first [reflexivity|discriminate E]|]).
  apply lookup_singleton_Some in H. destruct H as [<- <-].
  repeat (apply lookup_insert_Some in H'; destruct H' as [[<- E]|[_ H']];
          [first [reflexivity|discriminate E]|]).
  apply lookup_singleton_Some in H'. destruct H' as [<- E]. reflexivity.
Qed.

Lemma fill_macros_value (nutrient_id : Z) (name : string) (amount : Q)
    (rows : list (Z * Q)) (macros : gmap string Q) :
  Food.nutrient_map !! nutrient_id = Some name ->
  (forall a, List.In (nutrient_id, a) rows -> a = amount) ->
  (exists a, List.In (nutrient_id, a) rows) \/ macros !! name = Some amount ->
  Food.fill_macros macros rows !! name = Some amount.
Proof.
  intros Hname. revert macros.
  induction rows as [|[id a] rows IH]; intros macros Hall Hsome.
  - destruct Hsome as [[a []]|H]. exact H.
  - unfold Food.fill_macros in *. cbn [List.fold_left fst snd].
    assert (Hall' : forall a', List.In (nutrient_id, a') rows -> a' = amount)
      by (intros a' Ha'; apply Hall; now right).
    destruct (Z.eq_dec id nutrient_id) as [->|Hne].
    + rewrite Hname. apply IH; [exact Hall'|]. right.
      rewrite (Hall a (or_introl eq_refl)). apply lookup_insert_eq.
    + destruct (Food.nutrient_map !! id) as [k|] eqn:Ek.
      * apply IH; [exact Hall'|].
        destruct Hsome as [[a' [[= E _]|Ha']]|H]; [contradiction|eauto|].
        right. rewrite lookup_insert_ne; [exact H|].
        intros ->. apply Hne.
        exact (nutrient_map_injective _ _ _ Ek Hname).
      * apply IH; [exact Hall'|].
        destruct Hsome as [[a' [[= E _]|Ha']]|H]; [contradiction|eauto|auto].
Qed.

Lemma query_food_macros_In (food_nutrient : list FoodNutrient.t)
    (fdc_id nutrient_id : Z) (a : Q) :
  List.In (nutrient_id, a) (Food.query_food_macros food_nutrient fdc_id)
  <-> List.In (FoodNutrient.Build fdc_id nutrient_id (Some a)) food_nutrient
      /\ Food.wanted nutrient_id = true.
Proof.
  unfold Food.query_food_macros. rewrite in_flat_map. split.
  - intros ([f n [q|]] & Hr & Hin); simpl in Hin; [|contradiction].
    destruct (Z.eqb_spec f fdc_id) as [->|]; [|contradiction].
    destruct (Food.wanted n) eqn:W; simpl in Hin; [|contradiction].
    destruct Hin as [[= <- <-]|[]]. auto.
  - intros [Hr W]. eexists. split; [exact Hr|]. simpl.
    rewrite Z.eqb_refl, W. now left.
Qed.

(** X25. A food without rows in the food database gets all six values
    zero and counts as without data. A food with a row for one of the
    six nutrients gets the amount of that row, when its rows for the
    nutrient agree on the amount (as they do when there is one). *)
Theorem get_food_macros_absent_and_present
    (food_nutrient : list FoodNutrient.t) (fdc_id : Z) :
  ((forall r, List.In r food_nutrient -> FoodNutrient.fdc_id r <> fdc_id) ->
   Food.get_food_macros food_nutrient fdc_id = Food.zero_macros /\
   Food.has_data (Food.get_food_macros food_nutrient fdc_id) = Some false) /\
  (forall nutrient_id name amount,
     Food.nutrient_map !! nutrient_id = Some name ->
     List.In (FoodNutrient.Build fdc_id nutrient_id (Some amount))
       food_nutrient ->
     (forall a,
        List.In (FoodNutrient.Build fdc_id nutrient_id (Some a))
          food_nutrient -> a = amount) ->
     Food.get_food_macros food_nutrient fdc_id !! name = Some amount).
Proof.
  split.
  - intros Habsent.
    assert (Hq : Food.query_food_macros food_nutrient fdc_id = []).
    { unfold Food.query_food_macros.
      induction food_nutrient as [|r l IH]; simpl; [reflexivity|].
      rewrite IH by (intros r' Hr'; apply Habsent; now right).
      destruct (FoodNutrient.amount r); [|reflexivity].
      destruct (Z.eqb_spec (FoodNutrient.fdc_id r) fdc_id) as [E|];
        [|reflexivity].
      exfalso. apply (Habsent r); [now left|exact E]. }
    unfold Food.get_food_macros. rewrite Hq. split; reflexivity.
  - intros nutrient_id name amount Hname Hrow Hagree.
    assert (Hw : Food.wanted nutrient_id = true).
    { pose proof Hname as H. unfold Food.nutrient_map in H.
      unfold Food.wanted.
      repeat (apply lookup_insert_Some in H;
              destruct H as [[<- _]|[_ H]]; [reflexivity|]).
      apply lookup_singleton_Some in H. destruct H as [<- _].
      reflexivity. }
    unfold Food.get_food_macros.
    apply (fill_macros_value nutrient_id); [exact Hname| |].
    + intros a Ha. apply query_food_macros_In in Ha. apply Hagree, Ha.
    + left. exists amount. apply query_food_macros_In. auto.
Qed.

Lemma get_food_macros_absent_and_present_witness :
  Food.get_food_macros
    [FoodNutrient.Build 7 1008 (Some 52); FoodNutrient.Build 7 1003 None]
    9 = Food.zero_macros.
Proof.
  apply (get_food_macros_absent_and_present
           [FoodNutrient.Build 7 1008 (Some 52);
            FoodNutrient.Build 7 1003 None] 9).
  intros r Hr. simpl in Hr. destruct Hr as [<-|[<-|[]]]; discriminate.
Defined.

(** ** Totals of a day *)




(** Each row of a day goes to the one list it belongs to. *)
Lemma meal_split (food_logs : list FoodLog.t) :
  Permutation food_logs
    (List.filter (Food.in_category "Breakfast") food_logs
     ++ List.filter (Food.in_category "Lunch") food_logs
     ++ List.filter (Food.in_category "Dinner") food_logs
     ++ List.filter (Food.in_category "Snacks") food_logs
     ++ List.filter Food.in_no_meal food_logs)%list.
Proof.
  induction food_logs as [|a l IH]; [constructor|].
  cbn [List.filter].
  set (B := List.filter (Food.in_category "Breakfast") l) in *.
  set (L := List.filter (Food.in_category "Lunch") l) in *.
  set (D := List.filter (Food.in_category "Dinner") l) in *.
  set (S := List.filter (Food.in_category "Snacks") l) in *.
  set (R := List.filter Food.in_no_meal l) in *.
  unfold Food.in_no_meal, Food.in_category, Food.meal_categories.
  cbn [List.existsb].
  assert (Hrest : Permutation (a :: l) (B ++ L ++ D ++ S ++ a :: R)%list).
  { rewrite !List.app_assoc. apply Permutation_cons_app.
    rewrite <- !List.app_assoc. exact IH. }
  destruct (FoodLog.meal_category a) as [c|]; [|exact Hrest].
  destruct (String.eqb_spec c "Breakfast") as [->|];
    [simpl; now constructor|].
  destruct (String.eqb_spec c "Lunch") as [->|].
  { simpl. now apply Permutation_cons_app. }
  destruct (String.eqb_spec c "Dinner") as [->|].
  { simpl. rewrite List.app_assoc. apply Permutation_cons_app.
    rewrite <- List.app_assoc. exact IH. }
  destruct (String.eqb_spec c "Snacks") as [->|].
  { simpl. rewrite !List.app_assoc. apply Permutation_cons_app.
    rewrite <- !List.app_assoc. exact IH. }
  exact Hrest.
Qed.

Lemma in_no_meal_spec (log : FoodLog.t) :
  Food.in_no_meal log = true
  <-> forall category, List.In category Food.meal_categories ->
                       FoodLog.meal_category log <> Some category.
Proof.
  unfold Food.in_no_meal, Food.in_category, Food.meal_categories.
  cbn [List.existsb].
  destruct (FoodLog.meal_category log) as [c|].
  - rewrite negb_true_iff, !orb_false_iff. split.
    + intros (HB & HL & HD & HS & _) category Hin [= ->].
      simpl in Hin.
      destruct Hin as [<-|[<-|[<-|[<-|[]]]]];
        rewrite String.eqb_refl in *; discriminate.
    + intros H.
      repeat split;
        try (apply String.eqb_neq; intros ->; eapply H; [|reflexivity];
             simpl; tauto).
  - split; [intros _ category _; discriminate|reflexivity].
Qed.

(** X26. The rows of a day are, each exactly once, the rows of the four
    meals and the rows that are in none of the four (a category that is
    missing or spelled otherwise). The totals of the day run over all of
    them and the totals of a meal over its own rows, so a row in no meal
    counts in the day and appears under no meal; the counts add up, and
    when every row is in one of the four meals the day is made of its
    meals alone. *)
Theorem day_totals_split (food_logs : list FoodLog.t) :
  let meal category := List.filter (Food.in_category category) food_logs in
  let rest := List.filter Food.in_no_meal food_logs in
  Permutation food_logs
    (meal "Breakfast" ++ meal "Lunch" ++ meal "Dinner" ++ meal "Snacks"
     ++ rest)%list /\
  (forall category,
     Food.meal_totals food_logs category = Food.totals_of (meal category)) /\
  Food.count (Food.totals_of food_logs)
  = (Food.count (Food.meal_totals food_logs "Breakfast")
     + Food.count (Food.meal_totals food_logs "Lunch")
     + Food.count (Food.meal_totals food_logs "Dinner")
     + Food.count (Food.meal_totals food_logs "Snacks")
     + List.length rest)%nat /\
  (forall log,
     List.In log rest
     <-> List.In log food_logs /\
         forall category, List.In category Food.meal_categories ->
                          FoodLog.meal_category log <> Some category) /\
  ((forall log, List.In log food_logs -> Food.in_no_meal log = false) ->
   rest = []).
Proof.
  cbv zeta. split; [apply meal_split|].
  split; [reflexivity|].
  split.
  { unfold Food.meal_totals, Food.totals_of. cbn [Food.count].
    rewrite (Permutation_length (meal_split food_logs)) at 1.
    rewrite !List.length_app. lia. }
  split.
  { intros log. rewrite filter_In, in_no_meal_spec. reflexivity. }
  intros Hall. now apply filter_none.
Qed.

(** A row spelled [lunch] is a row of the day and of no meal. *)
Lemma day_totals_split_witness :
  List.filter Food.in_no_meal
    [FoodLog.Build 1 "alice" 100 "rice" 130 2.7 0.3 28 0.4 1 (Some "Lunch")]
  = [] /\
  List.filter Food.in_no_meal
    [FoodLog.Build 1 "alice" 100 "rice" 130 2.7 0.3 28 0.4 1 (Some "lunch")]
  = [FoodLog.Build 1 "alice" 100 "rice" 130 2.7 0.3 28 0.4 1 (Some "lunch")].
Proof.
  split; [|reflexivity].
  apply (day_totals_split
           [FoodLog.Build 1 "alice" 100 "rice" 130 2.7 0.3 28 0.4 1
              (Some "Lunch")]).
  intros log [<-|[]]. reflexivity.
Defined.

(** ** Editing a food *)

Example edit_option_rice :
  Food.edit_option
    (FoodLog.Build 7 "alice" 100 "rice" 130.5 2.7 0.3 28 0.4 1 (Some "Lunch"))
  = "rice (Lunch) - 130 cal - ID: 7".
Proof. reflexivity. Qed.

Example split_examples :
  Food.split "ID: " "rice (Lunch) - 130 cal - ID: 7"
  = ["rice (Lunch) - 130 cal - "; "7"] /\
  Food.split "ID: " "aID: ID: 5" = ["a"; ""; "5"] /\
  Food.split "ID: " "rice" = ["rice"].
Proof. repeat split; reflexivity. Qed.

Example py_int_examples :
  Food.py_int "7" = Some 7%Z /\ Food.py_int " -1_000 " = Some (-1000)%Z /\
  Food.py_int "007" = Some 7%Z /\ Food.py_int "" = None /\
  Food.py_int "5 (Lunch) - 130 cal - " = None /\ Food.py_int "1__0" = None.
Proof. repeat split; reflexivity. Qed.

(** A food name that holds the text [ID: ] breaks the reading of the
    option: the form does not open ([int] raises), or it opens for
    another row. *)
Example edit_option_misread :
  Food.edit_food_id_of
    (Food.edit_option
       (FoodLog.Build 7 "alice" 100 "ID: 5" 130 2.7 0.3 28 0.4 1
          (Some "Lunch"))) = None /\
  Food.edit_food_id_of
    (Food.edit_option
       (FoodLog.Build 7 "alice" 100 "ID: 5ID: " 130 2.7 0.3 28 0.4 1
          (Some "Lunch"))) = Some 5%Z.
Proof. split; reflexivity. Qed.

Lemma final_calories_fixed (manual_calories protein fat carbs : Q) :
  let c := Food.final_calories manual_calories protein fat carbs in
  Food.final_calories c protein fat carbs = c.
Proof.
  cbv zeta. unfold Food.final_calories.
  destruct (Qltb 0 manual_calories) eqn:E; [now rewrite E|].
  now destruct (Qltb 0 (Food.calculated_calories protein fat carbs)).
Qed.

Lemma update_by_id_same (edit_food_id : Z) (f : FoodLog.t -> FoodLog.t)
    (table : list FoodLog.t) :
  (forall log, List.In log table -> FoodLog.id log = edit_food_id ->
               f log = log) ->
  Food.update_by_id edit_food_id f table = table.
Proof.
  induction table as [|a l IH]; simpl; intros H; [reflexivity|].
  destruct (Z.eqb_spec (FoodLog.id a) edit_food_id) as [E|E].
  - now rewrite (H a (or_introl eq_refl) E).
  - f_equal. apply IH. intros log Hlog. apply H. now right.
Qed.

(** With unique keys the row of a key is the row found by the key. *)
Lemma food_by_id_In (table : list FoodLog.t) (log : FoodLog.t) :
  List.NoDup (List.map FoodLog.id table) -> List.In log table ->
  Food.food_by_id table (FoodLog.id log) = Some log.
Proof.
  unfold Food.food_by_id.
  induction table as [|a l IH]; simpl; intros Hnd Hin; [contradiction|].
  inversion Hnd as [|? ? Hnotin Hnd']; subst.
  destruct Hin as [->|Hin]; [now rewrite Z.eqb_refl|].
  destruct (Z.eqb_spec (FoodLog.id a) (FoodLog.id log)) as [E|_];
    [|now apply IH].
  exfalso. apply Hnotin. rewrite E. now apply in_map.
Qed.

(** X27. When the edit form opens for a row chosen in the select box,
    that is, when the id read back from the row's option is the row's
    own (which a food name holding the text [ID: ] can prevent), it
    opens with the values of that row, and pressing Update Food on it
    as it is leaves the table unchanged if the row's calories are
    positive or equal 4 x protein + 9 x fat + 4 x carbs, in particular
    if they are what the form itself would store; a row with zero
    calories gets them replaced by 4 x protein + 9 x fat + 4 x carbs.
    Primary keys are unique. *)
Theorem update_food_unchanged (table : list FoodLog.t) (log : FoodLog.t)
    (e : Food.entry) (category : string) :
  List.NoDup (List.map FoodLog.id table) -> List.In log table ->
  FoodLog.food_name log <> "" ->
  Food.edit_form table (Food.edit_option log)
  = Some (FoodLog.id log, e, category) ->
  let calculated :=
    Food.calculated_calories (FoodLog.protein log) (FoodLog.fat log)
      (FoodLog.carbs log) in
  let table' := Food.update_food table (FoodLog.id log) e category in
  Food.edit_defaults log = Some (e, category) /\
  FoodLog.meal_category log = Some category /\
  (0 < FoodLog.calories log \/ FoodLog.calories log = calculated ->
   table' = table) /\
  (~ 0 < FoodLog.calories log ->
   List.In
     (FoodLog.Build (FoodLog.id log) (FoodLog.username log)
        (FoodLog.log_date log) (FoodLog.food_name log) calculated
        (FoodLog.protein log) (FoodLog.fat log) (FoodLog.carbs log)
        (FoodLog.fiber log) (FoodLog.sodium log) (Some category)) table') /\
  (forall manual_calories,
     FoodLog.calories log
     = Food.final_calories manual_calories (FoodLog.protein log)
         (FoodLog.fat log) (FoodLog.carbs log) ->
     table' = table).
Proof.
  intros Hnd Hin Hname Hform. cbv zeta.
  assert (Hdef : Food.edit_defaults log = Some (e, category)).
  { unfold Food.edit_form in Hform.
    destruct (Food.edit_food_id_of (Food.edit_option log)) as [i|];
      [|discriminate].
    simpl in Hform.
    destruct (Food.food_by_id table i) as [obj|] eqn:Hobj; [|discriminate].
    simpl in Hform.
    destruct (Food.edit_defaults obj) as [[e' c']|] eqn:Hd; [|discriminate].
    simpl in Hform. injection Hform as -> -> ->.
    rewrite (food_by_id_In table log Hnd Hin) in Hobj.
    injection Hobj as <-. exact Hd. }
  split; [exact Hdef|].
  unfold Food.edit_defaults in Hdef.
  destruct (FoodLog.meal_category log) as [c|] eqn:Ec; [|discriminate].
  destruct (_ && _); [|discriminate].
  injection Hdef as <- <-.
  split; [reflexivity|].
  unfold Food.update_food. cbn [Food.entry_name Food.manual_calories
    Food.entry_protein Food.entry_fat Food.entry_carbs Food.entry_fiber
    Food.entry_sodium].
  unfold Accounts.str_truthy.
  apply String.eqb_neq in Hname. rewrite Hname. cbn [negb].
  assert (Hsame : Food.final_calories (FoodLog.calories log)
                    (FoodLog.protein log) (FoodLog.fat log)
                    (FoodLog.carbs log) = FoodLog.calories log ->
                  Food.update_by_id (FoodLog.id log)
                    (fun l =>
                       FoodLog.Build (FoodLog.id l) (FoodLog.username l)
                         (FoodLog.log_date l) (FoodLog.food_name log)
                         (Food.final_calories (FoodLog.calories log)
                            (FoodLog.protein log) (FoodLog.fat log)
                            (FoodLog.carbs log))
                         (FoodLog.protein log) (FoodLog.fat log)
                         (FoodLog.carbs log) (FoodLog.fiber log)
                         (FoodLog.sodium log) (Some c)) table = table).
  { intros Hfix. apply update_by_id_same. intros log' Hin' Hid.
    assert (log' = log) as ->
      by (apply (NoDup_map_eq FoodLog.id table); assumption).
    rewrite Hfix, <- Ec. now destruct log. }
  split; [|split].
  - intros Hcal. apply Hsame. unfold Food.final_calories.
    destruct (Qltb 0 (FoodLog.calories log)) eqn:E; [reflexivity|].
    destruct Hcal as [Hpos|Heq]; [|now rewrite Heq].
    apply Qltb_lt in Hpos. congruence.
  - intros Hnot.
    assert (E : Qltb 0 (FoodLog.calories log) = false).
    { destruct (Qltb 0 (FoodLog.calories log)) eqn:E; [|reflexivity].
      apply Qltb_lt in E. contradiction. }
    clear Hsame Hform. induction table as [|a l IH]; [contradiction|].
    simpl in Hnd. inversion Hnd as [|? ? Hnotin Hnd']; subst.
    simpl. destruct Hin as [->|Hin].
    + rewrite Z.eqb_refl. left. unfold Food.final_calories. now rewrite E.
    + destruct (Z.eqb_spec (FoodLog.id a) (FoodLog.id log)) as [Eid|_].
      * exfalso. apply Hnotin. rewrite Eid. now apply in_map.
      * right. now apply IH.
  - intros manual Hmanual. apply Hsame. rewrite Hmanual.
    apply final_calories_fixed.
Qed.

Lemma update_food_unchanged_witness :
  Food.update_food
    [FoodLog.Build 1 "alice" 100 "rice" 130 2.7 0.3 28 0.4 1 (Some "Lunch")]
    1
    {| Food.entry_name := "rice"; Food.manual_calories := 130;
       Food.entry_protein := 2.7; Food.entry_fat := 0.3;
       Food.entry_carbs := 28; Food.entry_fiber := 0.4;
       Food.entry_sodium := 1 |} "Lunch"
  = [FoodLog.Build 1 "alice" 100 "rice" 130 2.7 0.3 28 0.4 1 (Some "Lunch")].
Proof.
  apply (update_food_unchanged
           [FoodLog.Build 1 "alice" 100 "rice" 130 2.7 0.3 28 0.4 1
              (Some "Lunch")]
           (FoodLog.Build 1 "alice" 100 "rice" 130 2.7 0.3 28 0.4 1
              (Some "Lunch"))).
  - simpl. repeat constructor. now intros [].
  - now left.
  - discriminate.
  - reflexivity.
  - left. reflexivity.
Defined.

(** ** Adding and copying foods *)





(** The content of a row that a copy takes over. *)
Lemma copy_meal_rows (user : string) (d : date) (category : string)
    (logs table : list FoodLog.t) :
  exists copies,
    Food.copy_meal table user d logs category = (table ++ copies)%list /\
    List.Forall2
      (fun log copy =>
         exists id,
           copy = FoodLog.Build id user d (FoodLog.food_name log)
                    (FoodLog.calories log) (FoodLog.protein log)
                    (FoodLog.fat log) (FoodLog.carbs log)
                    (FoodLog.fiber log) (FoodLog.sodium log)
                    (Some category))
      logs copies.
Proof.
  unfold Food.copy_meal. revert table.
  induction logs as [|log rest IH]; intros table.
  - exists []. simpl. rewrite List.app_nil_r.
    split; [reflexivity|constructor].
  - cbn [List.fold_left].
    destruct (IH (Food.add table
                    (fun id =>
                       FoodLog.Build id user d (FoodLog.food_name log)
                         (FoodLog.calories log) (FoodLog.protein log)
                         (FoodLog.fat log) (FoodLog.carbs log)
                         (FoodLog.fiber log) (FoodLog.sodium log)
                         (Some category))))
      as (copies & -> & Hall).
    eexists (_ :: copies). unfold Food.add. rewrite <- List.app_assoc.
    split; [reflexivity|]. constructor; [|exact Hall]. eauto.
Qed.

Lemma copies_filter (user : string) (d : date) (category : string)
    (p : FoodLog.t -> bool) (logs copies : list FoodLog.t) :
  List.Forall2
    (fun log copy =>
       exists id,
         copy = FoodLog.Build id user d (FoodLog.food_name log)
                  (FoodLog.calories log) (FoodLog.protein log)
                  (FoodLog.fat log) (FoodLog.carbs log)
                  (FoodLog.fiber log) (FoodLog.sodium log)
                  (Some category))
    logs copies ->
  forall b : bool,
  (forall c, FoodLog.username c = user -> FoodLog.log_date c = d ->
             FoodLog.meal_category c = Some category -> p c = b) ->
  List.filter p copies = if b then copies else [].
Proof.
  intros Hall b Hp. induction Hall as [|log copy logs copies [id ->] _ IH].
  - now destruct b.
  - cbn [List.filter]. rewrite IH. erewrite Hp by reflexivity.
    now destruct b.
Qed.

(** X29. Copying a past meal appends one row for each of its rows, in
    their order: a row of the logged-in user, on the date viewed and in
    the category chosen, with the name, the calories and the five
    nutrients of the row copied. These rows come last among the rows of
    that day and of that meal of the day, over which the totals run; the
    rows stored before stay as they are, and the food logs of every
    other user and every other day are untouched. *)
Theorem copy_meal_adds_totals (table logs : list FoodLog.t)
    (logged_in_user : string) (current_date : date) (category : string) :
  let table' :=
    Food.copy_meal table logged_in_user current_date logs category in
  let day := Food.food_logs_of table logged_in_user current_date in
  let day' := Food.food_logs_of table' logged_in_user current_date in
  (exists copies,
     table' = (table ++ copies)%list /\
     List.Forall2
       (fun log copy =>
          exists id,
            copy = FoodLog.Build id logged_in_user current_date
                     (FoodLog.food_name log) (FoodLog.calories log)
                     (FoodLog.protein log) (FoodLog.fat log)
                     (FoodLog.carbs log) (FoodLog.fiber log)
                     (FoodLog.sodium log) (Some category))
       logs copies /\
     day' = (day ++ copies)%list /\
     List.filter (Food.in_category category) day'
     = (List.filter (Food.in_category category) day ++ copies)%list /\
     Food.count (Food.totals_of day')
     = (Food.count (Food.totals_of day) + List.length logs)%nat) /\
  (forall username d,
     username <> logged_in_user \/ d <> current_date ->
     Food.food_logs_of table' username d
     = Food.food_logs_of table username d).
Proof.
  cbv zeta.
  destruct (copy_meal_rows logged_in_user current_date category logs table)
    as (copies & -> & Hall).
  assert (Hday : Food.food_logs_of (table ++ copies) logged_in_user
                   current_date
                 = (Food.food_logs_of table logged_in_user current_date
                    ++ copies)%list).
  { unfold Food.food_logs_of. rewrite List.filter_app. f_equal.
    apply (copies_filter logged_in_user current_date category _ logs copies
             Hall true).
    intros c -> -> _. now rewrite String.eqb_refl, Z.eqb_refl. }
  split.
  - exists copies. split; [reflexivity|]. split; [exact Hall|].
    split; [exact Hday|]. split.
    + rewrite Hday, List.filter_app. f_equal.
      apply (copies_filter logged_in_user current_date category _ logs copies
               Hall true).
      intros c _ _ Hc. unfold Food.in_category. rewrite Hc.
      apply String.eqb_refl.
    + rewrite Hday. unfold Food.totals_of. cbn [Food.count].
      rewrite List.length_app. f_equal. symmetry.
      exact (Forall2_length _ _ _ Hall).
  - intros username d Hother.
    unfold Food.food_logs_of. rewrite List.filter_app.
    rewrite (copies_filter logged_in_user current_date category _ logs copies
               Hall false); [apply List.app_nil_r|].
    intros c -> -> _.
    destruct (String.eqb_spec logged_in_user username);
      destruct (Z.eqb_spec current_date d); simpl; try reflexivity.
    exfalso. destruct Hother as [H|H]; apply H; congruence.
Qed.

(** ** The past meals offered *)

Section Upsert.

Context {K V : Type} (eqb : K -> K -> bool).
Hypothesis eqb_eq : forall a b, eqb a b = true <-> a = b.

Lemma upsert_In (k : K) (default : V) (f : V -> V) (d : list (K * V))
    (k' : K) (v' : V) :
  List.In (k', v') (PastMeals.upsert eqb k default f d) ->
  List.In (k', v') d \/
  (k' = k /\ (v' = f default \/ exists v, List.In (k', v) d /\ v' = f v)).
Proof.
  induction d as [|[k0 v0] d IH]; simpl.
  - intros [[= <- <-]|[]]. right. auto.
  - destruct (eqb k0 k) eqn:E.
    + apply eqb_eq in E. subst k0.
      intros [[= <- <-]|Hin]; [|auto].
      right. split; [reflexivity|]. right. exists v0. auto.
    + intros [H|Hin]; [auto|].
      destruct (IH Hin) as [H|(-> & [->|(v & Hv & ->)])]; auto.
      right. split; [reflexivity|]. right. exists v. auto.
Qed.

Lemma upsert_keeps (k : K) (default : V) (f : V -> V) (d : list (K * V))
    (k' : K) (v : V) :
  List.In (k', v) d ->
  exists v', List.In (k', v') (PastMeals.upsert eqb k default f d) /\
             (v' = v \/ v' = f v).
Proof.
  induction d as [|[k0 v0] d IH]; simpl; [intros []|].
  destruct (eqb k0 k) eqn:E.
  - intros [[= -> ->]|Hin].
    + exists (f v). split; [now left|now right].
    + exists v. split; [now right|now left].
  - intros [[= -> ->]|Hin].
    + exists v. split; [now left|now left].
    + destruct (IH Hin) as (v' & Hv' & Hor). exists v'. split; [now right|].
      exact Hor.
Qed.

Lemma upsert_adds (k : K) (default : V) (f : V -> V) (d : list (K * V)) :
  exists v', List.In (k, v') (PastMeals.upsert eqb k default f d) /\
             (v' = f default \/ exists v, v' = f v).
Proof.
  induction d as [|[k0 v0] d IH]; simpl.
  - exists (f default). split; [now left|now left].
  - destruct (eqb k0 k) eqn:E.
    + apply eqb_eq in E. subst k0. exists (f v0).
      split; [now left|right; eauto].
    + destruct IH as (v' & Hv' & Hor). exists v'. split; [now right|].
      exact Hor.
Qed.

End Upsert.

Lemma category_eqb_eq (a b : option string) :
  PastMeals.category_eqb a b = true <-> a = b.
Proof.
  destruct a as [x|], b as [y|]; simpl;
    try (split; [discriminate|discriminate]); try tauto.
  rewrite String.eqb_eq. split; [now intros ->|now intros [= ->]].
Qed.

Lemma meals_step_sound (P : FoodLog.t -> Prop) (log : FoodLog.t)
    (meals : list (date * list (option string * list FoodLog.t))) :
  P log ->
  (forall d cats c logs,
     List.In (d, cats) meals -> List.In (c, logs) cats ->
     logs <> [] /\
     forall l, List.In l logs ->
               P l /\ FoodLog.log_date l = d /\ FoodLog.meal_category l = c) ->
  forall d cats c logs,
    List.In (d, cats)
      (PastMeals.upsert Z.eqb (FoodLog.log_date log) []
         (PastMeals.upsert PastMeals.category_eqb
            (FoodLog.meal_category log) []
            (fun logs => (logs ++ [log])%list)) meals) ->
    List.In (c, logs) cats ->
    logs <> [] /\
    forall l, List.In l logs ->
              P l /\ FoodLog.log_date l = d /\ FoodLog.meal_category l = c.
Proof.
  intros HP Hsound d cats c logs Hd Hc.
  assert (Hnew : forall l, List.In l [log] ->
            P l /\ FoodLog.log_date l = FoodLog.log_date log /\
            FoodLog.meal_category l = FoodLog.meal_category log)
    by (intros l [<-|[]]; auto).
  apply (upsert_In Z.eqb Z.eqb_eq) in Hd.
  destruct Hd as [Hd|(-> & [->|(cats0 & Hcats0 & ->)])].
  - now apply (Hsound d cats).
  - apply (upsert_In _ category_eqb_eq) in Hc.
    destruct Hc as [[]|(-> & [->|(logs0 & [] & _)])].
    split; [discriminate|exact Hnew].
  - apply (upsert_In _ category_eqb_eq) in Hc.
    destruct Hc as [Hc|(-> & [->|(logs0 & Hlogs0 & ->)])].
    + now apply (Hsound _ cats0).
    + split; [discriminate|exact Hnew].
    + destruct (Hsound _ cats0 _ logs0 Hcats0 Hlogs0) as [_ Hall].
      split; [now destruct logs0|].
      intros l Hl. apply in_app_or in Hl.
      destruct Hl as [Hl|Hl]; [now apply Hall|now apply Hnew].
Qed.

Lemma meals_step_covers (log : FoodLog.t)
    (meals : list (date * list (option string * list FoodLog.t)))
    (l : FoodLog.t) :
  l = log \/
  (exists cats logs,
     List.In (FoodLog.log_date l, cats) meals /\
     List.In (FoodLog.meal_category l, logs) cats /\ List.In l logs) ->
  exists cats logs,
    List.In (FoodLog.log_date l, cats)
      (PastMeals.upsert Z.eqb (FoodLog.log_date log) []
         (PastMeals.upsert PastMeals.category_eqb
            (FoodLog.meal_category log) []
            (fun logs => (logs ++ [log])%list)) meals) /\
    List.In (FoodLog.meal_category l, logs) cats /\ List.In l logs.
Proof.
  set (inner := PastMeals.upsert PastMeals.category_eqb
                  (FoodLog.meal_category log) []
                  (fun logs => (logs ++ [log])%list)).
  intros [->|(cats & logs & Hcats & Hlogs & Hl)].
  - destruct (upsert_adds Z.eqb Z.eqb_eq (FoodLog.log_date log) [] inner meals)
      as (cats' & Hcats' & Hor).
    exists cats'.
    assert (Hin : forall cats0, exists logs,
              List.In (FoodLog.meal_category log, logs) (inner cats0) /\
              List.In log logs).
    { intros cats0.
      destruct (upsert_adds _ category_eqb_eq (FoodLog.meal_category log) []
                  (fun logs => (logs ++ [log])%list) cats0)
        as (logs' & Hlogs' & Hor').
      exists logs'. split; [exact Hlogs'|].
      destruct Hor' as [->|[logs0 ->]]; apply in_or_app; right; now left. }
    destruct Hor as [->|[cats0 ->]].
    + destruct (Hin []) as (logs & H1 & H2). exists logs. auto.
    + destruct (Hin cats0) as (logs & H1 & H2). exists logs. auto.
  - destruct (upsert_keeps Z.eqb (FoodLog.log_date log) [] inner meals _ _
                Hcats) as (cats' & Hcats' & [->| ->]).
    + exists cats, logs. auto.
    + destruct (upsert_keeps PastMeals.category_eqb
                  (FoodLog.meal_category log) []
                  (fun logs => (logs ++ [log])%list) cats _ _ Hlogs)
        as (logs' & Hlogs' & [->| ->]).
      * exists (inner cats), logs. auto.
      * exists (inner cats), (logs ++ [log])%list.
        repeat split; auto. apply in_or_app. now left.
Qed.

Lemma meals_by_date_spec (past : list FoodLog.t) :
  (forall d cats c logs,
     List.In (d, cats) (PastMeals.meals_by_date past) ->
     List.In (c, logs) cats ->
     logs <> [] /\
     forall l, List.In l logs ->
               List.In l past /\ FoodLog.log_date l = d /\
               FoodLog.meal_category l = c) /\
  (forall l, List.In l past ->
     exists cats logs,
       List.In (FoodLog.log_date l, cats) (PastMeals.meals_by_date past) /\
       List.In (FoodLog.meal_category l, logs) cats /\ List.In l logs).
Proof.
  unfold PastMeals.meals_by_date.
  assert (G : forall todo meals (P : FoodLog.t -> Prop)
                     (Q : FoodLog.t -> Prop),
            (forall l, List.In l todo -> P l) ->
            (forall d cats c logs,
               List.In (d, cats) meals -> List.In (c, logs) cats ->
               logs <> [] /\
               forall l, List.In l logs ->
                 P l /\ FoodLog.log_date l = d /\
                 FoodLog.meal_category l = c) ->
            (forall l, Q l ->
               exists cats logs,
                 List.In (FoodLog.log_date l, cats) meals /\
                 List.In (FoodLog.meal_category l, logs) cats /\
                 List.In l logs) ->
            let final :=
              List.fold_left
                (fun meals log =>
                   PastMeals.upsert Z.eqb (FoodLog.log_date log) []
                     (PastMeals.upsert PastMeals.category_eqb
                        (FoodLog.meal_category log) []
                        (fun logs => (logs ++ [log])%list)) meals)
                todo meals in
            (forall d cats c logs,
               List.In (d, cats) final -> List.In (c, logs) cats ->
               logs <> [] /\
               forall l, List.In l logs ->
                 P l /\ FoodLog.log_date l = d /\
                 FoodLog.meal_category l = c) /\
            (forall l, Q l \/ List.In l todo ->
               exists cats logs,
                 List.In (FoodLog.log_date l, cats) final /\
                 List.In (FoodLog.meal_category l, logs) cats /\
                 List.In l logs)).
  { induction todo as [|log todo IH]; intros meals P Q HP Hsound Hcov.
    - simpl. split; [exact Hsound|]. intros l [Hq|[]]. now apply Hcov.
    - cbn [List.fold_left].
      destruct (IH (PastMeals.upsert Z.eqb (FoodLog.log_date log) []
                      (PastMeals.upsert PastMeals.category_eqb
                         (FoodLog.meal_category log) []
                         (fun logs => (logs ++ [log])%list)) meals)
                  P (fun l => Q l \/ l = log)) as [Hs Hc].
      + intros l Hl. apply HP. now right.
      + apply meals_step_sound; [apply HP; now left|exact Hsound].
      + intros l [Hq| ->]; apply meals_step_covers; auto.
      + split; [exact Hs|].
        intros l [Hq|[<-|Hl]]; apply Hc; auto. }
  destruct (G past [] (fun l => List.In l past) (fun _ => False))
    as [Hs Hc]; auto.
  - intros d cats c logs [].
  - intros l [].
Qed.

Lemma past_insert_desc_In (log x : FoodLog.t) (sorted : list FoodLog.t) :
  List.In x (PastMeals.insert_desc log sorted) <-> x = log \/ List.In x sorted.
Proof.
  induction sorted as [|s rest IH]; simpl.
  - intuition.
  - destruct (FoodLog.log_date s <=? FoodLog.log_date log)%Z; simpl.
    + intuition.
    + rewrite IH. intuition.
Qed.

Lemma past_food_logs_In (table : list FoodLog.t) (user : string) (d : date)
    (log : FoodLog.t) :
  List.In log (PastMeals.past_food_logs table user d)
  <-> List.In log table /\ FoodLog.username log = user /\
      (d - 30 <= FoodLog.log_date log < d)%Z.
Proof.
  unfold PastMeals.past_food_logs.
  assert (H : forall l, List.In log (List.fold_right PastMeals.insert_desc [] l)
                        <-> List.In log l).
  { induction l as [|a l IH]; simpl; [reflexivity|].
    rewrite past_insert_desc_In, IH. intuition. }
  rewrite H, filter_In. unfold PastMeals.in_window.
  rewrite !andb_true_iff, String.eqb_eq, Z.leb_le, Z.ltb_lt. tauto.
Qed.

(** X30. Every past meal offered for copying is a list, not empty, of
    food rows of the logged-in user, all of one day among the 30 days
    before the date viewed and all of one category; and every food row
    of the user from those 30 days is in the meal of its day and
    category. Rows of other users, of the date viewed and of later
    dates are never offered. *)
Theorem meal_options_of_the_user (table : list FoodLog.t)
    (logged_in_user : string) (current_date : date) :
  (forall d category logs,
     List.In (d, category, logs)
       (PastMeals.meal_options table logged_in_user current_date) ->
     logs <> [] /\ (current_date - 30 <= d < current_date)%Z /\
     forall log, List.In log logs ->
       List.In log table /\ FoodLog.username log = logged_in_user /\
       FoodLog.log_date log = d /\ FoodLog.meal_category log = category) /\
  (forall log,
     List.In log table -> FoodLog.username log = logged_in_user ->
     (current_date - 30 <= FoodLog.log_date log < current_date)%Z ->
     exists logs,
       List.In (FoodLog.log_date log, FoodLog.meal_category log, logs)
         (PastMeals.meal_options table logged_in_user current_date) /\
       List.In log logs).
Proof.
  unfold PastMeals.meal_options.
  destruct (meals_by_date_spec
              (PastMeals.past_food_logs table logged_in_user current_date))
    as [Hsound Hcover].
  split.
  - intros d category logs Hin. apply in_flat_map in Hin.
    destruct Hin as ([d' cats] & Hcats & Hin). apply in_map_iff in Hin.
    destruct Hin as ([c logs'] & [= <- <- <-] & Hlogs). simpl in *.
    destruct (Hsound d' cats c logs' Hcats Hlogs) as [Hne Hall].
    assert (Hrows : forall log, List.In log logs' ->
              (List.In log table /\ FoodLog.username log = logged_in_user /\
               FoodLog.log_date log = d' /\ FoodLog.meal_category log = c) /\
              (current_date - 30 <= d' < current_date)%Z).
    { intros log Hlog. destruct (Hall log Hlog) as (Hpast & Hd & Hc).
      apply past_food_logs_In in Hpast.
      destruct Hpast as (Ht & Hu & Hw). rewrite Hd in Hw. auto. }
    split; [exact Hne|]. split.
    + destruct logs' as [|log0 rest]; [contradiction|].
      apply (Hrows log0). now left.
    + intros log Hlog. now apply Hrows.
  - intros log Ht Hu Hw.
    destruct (Hcover log) as (cats & logs & Hcats & Hlogs & Hlog).
    + apply past_food_logs_In. auto.
    + exists logs. split; [|exact Hlog].
      apply in_flat_map. exists (FoodLog.log_date log, cats).
      split; [exact Hcats|]. apply in_map_iff.
      exists (FoodLog.meal_category log, logs). auto.
Qed.
